(** * POS analytics: data quality, promotions and price index

    A shallow embedding of the three analysis engines of the repository
    ([src/modules/data_quality.py], [src/modules/promotions.py],
    [src/modules/pricing_index.py]) together with the properties their
    specification states.

    Conventions of the embedding.
    - A dataframe is a list of rows, in row order; a row is a record with
      one field per column.
    - A float is an exact rational ([Qc], canonical rationals, so that
      equal numbers are equal terms); a float column that may hold NaN is
      [option Qc], [None] standing for NaN.  Comparisons with NaN are
      false, arithmetic with NaN is NaN, and the pandas reductions [sum]
      and [mean] skip NaN, as in pandas.
    - The engines are given in exact arithmetic.  Where a property
      turns on the rounding of binary floats, the computation is given
      a second time with every operation rounded to binary64 (module
      [Binary64]): the health score and its category, and the sum of a
      group of sales.
    - The nullable columns are those the data model declares nullable:
      [Supplier] and [RRP].
    - Code that raises returns [Err].
    - The engines are first given as functions of the rows they hold;
      a second rendering runs them over a store of dataframe objects,
      with the copies and in-place assignments of the source, for what
      is said about the caller's frame. *)

From Stdlib Require Import QArith Qcanon Qround Qabs Qpower Lqa.
From stdpp Require Import prelude strings list sorting pretty numbers.

Local Open Scope Qc_scope.

(* ================================================================== *)
(** * Numbers *)

Definition Qc_of_nat (n : nat) : Qc := Qc_of_Z (Z.of_nat n).

(** Decimal literals of the source. *)
Definition dec (n : Z) (d : positive) : Qc := Q2Qc (n # d).

(** Python's [max(a, b)] on numbers. *)
Definition Qcmax (a b : Qc) : Qc := if bool_decide (a ≤ b) then b else a.

(** [round(x, 2)]: round half to even on the exact value. *)
Definition round_half_even (x : Q) : Z :=
  let f := Qfloor x in
  let r := Qminus x (inject_Z f) in
  match Qcompare r (1 # 2) with
  | Lt => f
  | Gt => (f + 1)%Z
  | Eq => if Z.even f then f else (f + 1)%Z
  end.

Definition round2 (x : Qc) : Qc :=
  Q2Qc (Qmake (round_half_even (Qmult (this x) (100 # 1))) 100).

(** ** Binary64

    The floats of the source are IEEE 754 binary64 numbers: 53
    significant bits, exponents down to that of the smallest
    subnormal, [2^-1074].  An operation returns the binary64 number
    nearest to the exact result, the one with an even significand on a
    tie.  A binary64 number is kept as the rational it is.  No
    infinity is modelled: nothing the engines compute on a dataset of
    sales comes near [2^1024]. *)
Module Binary64.

(** [2^k], for an exponent of either sign. *)
Definition pow2 (k : Z) : Q := Qpower 2 k.

(** The binary exponent of a positive rational [x]: the [e] with
    [2^e <= x < 2^(e+1)]. *)
Definition ilog2 (x : Q) : Z :=
  let e := (Z.log2 (Qnum x) - Z.log2 (Zpos (Qden x)))%Z in
  if Qle_bool (pow2 e) x then e else (e - 1)%Z.

(** The multiple of [2^k] nearest to [x], the even one on a tie. *)
Definition round_at (k : Z) (x : Q) : Q :=
  Qmult (inject_Z (round_half_even (Qdiv x (pow2 k)))) (pow2 k).

(** The exponent of the unit in the last place of the binary64
    numbers around [x]. *)
Definition ulp_exp (x : Q) : Z := Z.max (ilog2 (Qabs x) - 52) (-1074).

Definition round_Q (x : Q) : Q := round_at (ulp_exp x) x.

(** The binary64 number nearest to [x]. *)
Definition rnd64 (x : Qc) : Qc := Q2Qc (round_Q (this x)).

(** The four operations on binary64 numbers. *)
Definition add64 (a b : Qc) : Qc := rnd64 (a + b).
Definition sub64 (a b : Qc) : Qc := rnd64 (a - b).
Definition mul64 (a b : Qc) : Qc := rnd64 (a * b).
Definition div64 (a b : Qc) : Qc := rnd64 (a / b).

End Binary64.

(** ** Float columns with NaN *)

Definition fval := option Qc.

Definition flift2 (f : Qc → Qc → Qc) (a b : fval) : fval :=
  match a, b with
  | Some x, Some y => Some (f x y)
  | _, _ => None
  end.

Definition fsub := flift2 Qcminus.
Definition fmul := flift2 Qcmult.

(** Division of floats: a zero divisor never raises, it yields a
    non-finite value, which the model does not tell apart from NaN. *)
Definition fdiv (a b : fval) : fval :=
  match a, b with
  | Some x, Some y => if bool_decide (y = 0) then None else Some (x / y)
  | _, _ => None
  end.

(** Comparisons: false as soon as one side is NaN. *)
Definition fgeb (a b : fval) : bool :=
  match a, b with
  | Some x, Some y => bool_decide (y ≤ x)
  | _, _ => false
  end.

Definition fgtb (a b : fval) : bool :=
  match a, b with
  | Some x, Some y => bool_decide (y < x)
  | _, _ => false
  end.

Definition fltb (a b : fval) : bool := fgtb b a.

(** [np.where(cond, a, b)] at one position. *)
Definition np_where {A} (c : bool) (a b : A) : A := if c then a else b.

(** [Series.sum()] of a numeric column. *)
Definition Qcsum (l : list Qc) : Qc := foldr Qcplus 0 l.

(** [Series.dropna()], and [Series.mean()] of a float column: NaN is
    skipped; the mean of no value is NaN. *)
Definition dropna {A} (l : list (option A)) : list A := omap id l.

Definition mean (l : list Qc) : fval :=
  match l with
  | [] => None
  | _ => Some (Qcsum l / Qc_of_nat (length l))
  end.

Definition fmean (l : list fval) : fval := mean (dropna l).

(** [fillna(0)] at one cell. *)
Definition fillna0 (x : fval) : Qc := default 0 x.

(* ================================================================== *)
(** * Keys, [unique], [duplicated] and [groupby] *)

(** [Series.unique()]: the distinct values in order of first
    appearance. *)
Fixpoint unique_from `{EqDecision K} (seen l : list K) : list K :=
  match l with
  | [] => []
  | x :: l' =>
      if bool_decide (x ∈ seen) then unique_from seen l'
      else x :: unique_from (x :: seen) l'
  end.

Definition unique `{EqDecision K} (l : list K) : list K := unique_from [] l.

(** [Series.nunique()] on a column without nulls. *)
Definition nunique `{EqDecision K} (l : list K) : nat := length (unique l).

(** [duplicated(keep='first')]: true on every occurrence of a key but
    the first. *)
Fixpoint duplicated_from `{EqDecision K} (seen l : list K) : list bool :=
  match l with
  | [] => []
  | x :: l' => bool_decide (x ∈ seen) :: duplicated_from (x :: seen) l'
  end.

Definition duplicated_first `{EqDecision K} (l : list K) : list bool :=
  duplicated_from [] l.

(** [duplicated(keep=False)] at one row: the key occurs more than once
    in the column. *)
Definition count_key `{EqDecision K} (k : K) (l : list K) : nat :=
  length (filter (λ x, x = k) l).

Definition duplicated_all `{EqDecision K} (l : list K) (k : K) : bool :=
  bool_decide (1 < count_key k l)%nat.

(** The order in which [groupby] lists its group keys. *)
Class KeyOrder (K : Type) := {
  key_le : relation K;
  key_le_dec :: RelDecision key_le;
  key_le_po :: PartialOrder key_le;
  key_le_total :: Total key_le
}.

Definition sort_keys `{KeyOrder K} (l : list K) : list K := merge_sort key_le l.

(** [df.groupby(keys)]: one group per distinct key, keys ascending, the
    rows of a group in frame order.  A row whose key holds a null is in
    no group (the default [dropna=True]); [key r = None] says so. *)
Definition group_keys `{EqDecision K, KeyOrder K} {A}
    (key : A → option K) (df : list A) : list K :=
  sort_keys (unique (omap key df)).

Definition groupby `{EqDecision K, KeyOrder K} {A}
    (key : A → option K) (df : list A) : list (K * list A) :=
  map (λ k, (k, filter (λ r, key r = Some k) df)) (group_keys key df).

(** ** Key orders of the column types *)

#[export] Program Instance Z_key_order : KeyOrder Z := {| key_le := Z.le |}.

Definition bool_le (a b : bool) : Prop := a = false ∨ b = true.

#[export] Instance bool_le_dec : RelDecision bool_le.
Proof. intros a b. unfold bool_le. apply _. Defined.

#[export] Instance bool_le_po : PartialOrder bool_le.
Proof.
  split; [split|].
  - intros []; unfold bool_le; auto.
  - intros [] [] []; unfold bool_le; intuition congruence.
  - intros [] []; unfold bool_le; intuition congruence.
Qed.

#[export] Instance bool_le_total : Total bool_le.
Proof. intros [] []; unfold bool_le; auto. Qed.

#[export] Instance bool_key_order : KeyOrder bool := {| key_le := bool_le |}.

(** Strings compare as Python's [str]: lexicographically, by character
    code. *)
Definition string_le (a b : string) : Prop := String.leb a b = true.

#[export] Instance string_le_dec : RelDecision string_le.
Proof. intros a b. unfold string_le. apply _. Defined.

Lemma ascii_compare_lt_trans (a b c : Ascii.ascii) :
  Ascii.compare a b = Lt → Ascii.compare b c = Lt → Ascii.compare a c = Lt.
Proof.
  unfold Ascii.compare. rewrite !N.compare_lt_iff. apply N.lt_trans.
Qed.

Lemma string_compare_refl (s : string) : String.compare s s = Eq.
Proof.
  induction s as [|a s IH]; simpl; [done|].
  assert (Ascii.compare a a = Eq) as ->; [|done].
  unfold Ascii.compare. apply N.compare_refl.
Qed.

Lemma string_compare_lt_trans (s1 s2 s3 : string) :
  String.compare s1 s2 = Lt → String.compare s2 s3 = Lt →
  String.compare s1 s3 = Lt.
Proof.
  revert s2 s3. induction s1 as [|a s1 IH]; intros [|b s2] [|c s3]; simpl;
    try done.
  destruct (Ascii.compare a b) eqn:Hab; [|..|done].
  - apply Ascii.compare_eq_iff in Hab as ->.
    destruct (Ascii.compare b c) eqn:Hbc; [|done..].
    intros. by eapply IH.
  - destruct (Ascii.compare b c) eqn:Hbc; [|..|done].
    + apply Ascii.compare_eq_iff in Hbc as <-. by rewrite Hab.
    + by rewrite (ascii_compare_lt_trans _ _ _ Hab Hbc).
Qed.

#[export] Instance string_le_po : PartialOrder string_le.
Proof.
  split; [split|].
  - intros s. unfold string_le, String.leb. by rewrite string_compare_refl.
  - intros s1 s2 s3. unfold string_le, String.leb.
    destruct (String.compare s1 s2) eqn:H12; [|..|done].
    + apply String.compare_eq_iff in H12 as ->. done.
    + destruct (String.compare s2 s3) eqn:H23; [|..|done].
      * apply String.compare_eq_iff in H23 as <-. by rewrite H12.
      * by rewrite (string_compare_lt_trans _ _ _ H12 H23).
  - intros s1 s2. apply String.leb_antisym.
Qed.

#[export] Instance string_le_total : Total string_le.
Proof. intros s1 s2. apply String.leb_total. Qed.

#[export] Instance string_key_order : KeyOrder string :=
  {| key_le := string_le |}.

(** Tuples of key columns compare lexicographically. *)
Definition prod_le `{KeyOrder A, KeyOrder B} (p q : A * B) : Prop :=
  (key_le p.1 q.1 ∧ p.1 ≠ q.1) ∨ (p.1 = q.1 ∧ key_le p.2 q.2).

#[export] Instance prod_le_dec `{EqDecision A, KeyOrder A, KeyOrder B} :
  RelDecision (@prod_le A _ B _).
Proof. intros p q. unfold prod_le. apply _. Defined.

#[export] Instance prod_le_po `{KeyOrder A, KeyOrder B} :
  PartialOrder (@prod_le A _ B _).
Proof.
  split; [split|].
  - intros [a b]. right. done.
  - intros [a1 b1] [a2 b2] [a3 b3]. unfold prod_le. simpl.
    intros [[H12 N12]|[-> H12]] [[H23 N23]|[-> H23]].
    + left. split; [by etrans|]. intros ->. apply N12.
      by apply (anti_symm key_le).
    + left. done.
    + left. done.
    + right. split; [done|by etrans].
  - intros [a1 b1] [a2 b2]. unfold prod_le. simpl.
    intros [[H12 N12]|[-> H12]] [[H21 N21]|[E H21]].
    + destruct N12. by apply (anti_symm key_le).
    + by destruct N12.
    + by destruct N21.
    + f_equal. by apply (anti_symm key_le).
Qed.

#[export] Instance prod_le_total `{EqDecision A, KeyOrder A, KeyOrder B} :
  Total (@prod_le A _ B _).
Proof.
  intros [a1 b1] [a2 b2]. unfold prod_le. simpl.
  destruct (decide (a1 = a2)) as [->|Hne].
  - destruct (total key_le b1 b2); auto.
  - destruct (total key_le a1 a2); [left; left|right; left]; auto.
Qed.

#[export] Instance prod_key_order `{EqDecision A, KeyOrder A, KeyOrder B} :
  KeyOrder (A * B) := {| key_le := prod_le |}.

(* ================================================================== *)
(** * The transaction dataset *)

(** One row of the sales table; the fields are the ten required
    columns.  [Date_Of_Sale] is the ordinal of the day. *)
Record Row := {
  Store_Name : string;
  Supplier : option string;
  Item_Code : Z;
  Description : string;
  Sub_Department : string;
  Section_ : string;
  Date_Of_Sale : Z;
  Quantity : Qc;
  Total_Sales : Qc;
  RRP : fval
}.

#[export] Instance Row_eq_dec : EqDecision Row.
Proof. solve_decision. Defined.

Definition DataFrame := list Row.

(** The column names, in the order of the input contract. *)
Definition columns : list string :=
  ["Store Name"; "Supplier"; "Item_Code"; "Description"; "Sub-Department";
   "Section"; "Date Of Sale"; "Quantity"; "Total Sales"; "RRP"].

(** [df[col].isnull().sum()]. *)
Definition isnull_sum (col : string) (df : DataFrame) : nat :=
  if bool_decide (col = "Supplier") then
    length (filter (λ r, Supplier r = None) df)
  else if bool_decide (col = "RRP") then
    length (filter (λ r, RRP r = None) df)
  else 0%nat.

(** The natural key of a row. *)
Definition key_cols (r : Row) : string * (Z * Z) :=
  (Store_Name r, (Item_Code r, Date_Of_Sale r)).

(** Exceptions the engines can raise on a dataset with all columns. *)
Inductive exn :=
  | KeyError (label : string)
  | ZeroDivisionError (msg : string).

Inductive result (A : Type) :=
  | Ok (a : A)
  | Err (e : exn).
Arguments Ok {A} a.
Arguments Err {A} e.

#[export] Instance result_ret : MRet result := λ A a, Ok a.

#[export] Instance result_bind : MBind result := λ A B k m,
  match m with
  | Ok a => k a
  | Err e => Err e
  end.

Definition is_Ok {A} (m : result A) : Prop :=
  match m with Ok _ => True | Err _ => False end.

(** ** Formatting *)

(** [f"{x:.2f}"] *)
Definition format_2f (x : fval) : string :=
  match x with
  | None => "nan"
  | Some q =>
      let c := round_half_even (Qmult (this q) (100 # 1)) in
      let a := Z.abs c in
      let frac := (a mod 100)%Z in
      (if bool_decide (c < 0)%Z then "-" else "") +:+
      pretty (a / 100)%Z +:+ "." +:+
      (if bool_decide (frac < 10)%Z then "0" else "") +:+ pretty frac
  end.

(* ================================================================== *)
(** * Data quality ([modules/data_quality.py]) *)

Module DataQualityChecker.

(** [__init__]: the checker keeps a copy of the frame it is given. *)
Definition __init__ (df : DataFrame) : DataFrame := df.

Record MissingStat := {
  column : string;
  missing_count : nat;
  missing_pct : fval
}.

Definition check_missing_values (df : DataFrame) : list MissingStat :=
  let missing_stats :=
    map (λ c, {| column := c;
                 missing_count := isnull_sum c df;
                 missing_pct :=
                   fmul (fdiv (Some (Qc_of_nat (isnull_sum c df)))
                              (Some (Qc_of_nat (length df))))
                        (Some (dec 100 1)) |}) columns in
  filter (λ m, (0 < missing_count m)%nat) missing_stats.

Record DupSummary := {
  dup_key : string * (Z * Z);
  dup_Quantity : Qc;
  dup_Total_Sales : Qc
}.

Definition check_duplicates (df : DataFrame) : list DupSummary :=
  let duplicates :=
    filter (λ r, duplicated_all (map key_cols df) (key_cols r) = true) df in
  if bool_decide (0 < length duplicates)%nat then
    map (λ '(k, g), {| dup_key := k;
                       dup_Quantity := Qcsum (map Quantity g);
                       dup_Total_Sales := Qcsum (map Total_Sales g) |})
        (groupby (λ r, Some (key_cols r)) duplicates)
  else [].

(** The outlier buckets.  A bucket is in the dictionary only when it
    has a row; the price buckets carry the computed [unit_price]. *)
Inductive Bucket :=
  | Rows (rows : list Row)
  | Priced (rows : list (Row * Qc)).

Definition bucket_len (b : Bucket) : nat :=
  match b with
  | Rows rows => length rows
  | Priced rows => length rows
  end.

Definition check_outliers (df : DataFrame) : list (string * Bucket) :=
  let neg_qty := filter (λ r, Quantity r < 0) df in
  let zero_qty_with_sales :=
    filter (λ r, Quantity r = 0 ∧ 0 < Total_Sales r) df in
  let neg_sales := filter (λ r, Total_Sales r < 0) df in
  let df_with_unit_price :=
    map (λ r, (r, Total_Sales r / Quantity r))
        (filter (λ r, 0 < Quantity r) df) in
  let price_check :=
    filter (λ p, RRP p.1 ≠ None) df_with_unit_price in
  let extreme_high :=
    filter (λ p, fgtb (Some p.2) (fmul (RRP p.1) (Some (dec 10 1))) = true)
           price_check in
  let extreme_low :=
    filter (λ p, fltb (Some p.2) (fmul (RRP p.1) (Some (dec 1 100))) = true)
           price_check in
  (if bool_decide (0 < length neg_qty)%nat
   then [("negative_quantity", Rows neg_qty)] else []) ++
  (if bool_decide (0 < length zero_qty_with_sales)%nat
   then [("zero_qty_with_sales", Rows zero_qty_with_sales)] else []) ++
  (if bool_decide (0 < length neg_sales)%nat
   then [("negative_sales", Rows neg_sales)] else []) ++
  (if bool_decide (0 < length extreme_high)%nat
   then [("extreme_high_price", Priced extreme_high)] else []) ++
  (if bool_decide (0 < length extreme_low)%nat
   then [("extreme_low_price", Priced extreme_low)] else []).

(** The number of [True] in a boolean column. *)
Definition count_true (l : list bool) : nat :=
  length (filter (λ b, b = true) l).

(** The weighted score of the two health functions, from the three
    defect rates. *)
Definition weighted_score (missing_rate outlier_rate dup_rate : Qc) : Qc :=
  let missing_score := Qcmax 0 ((1 - missing_rate) * dec 30 1) in
  let outlier_score := Qcmax 0 ((1 - outlier_rate) * dec 40 1) in
  let dup_score := Qcmax 0 ((1 - dup_rate) * dec 30 1) in
  missing_score + outlier_score + dup_score.

Definition categorize (health_score : Qc) : string :=
  if bool_decide (dec 90 1 ≤ health_score) then "Excellent"
  else if bool_decide (dec 75 1 ≤ health_score) then "Good"
  else if bool_decide (dec 60 1 ≤ health_score) then "Fair"
  else "Poor".

(** *** Per store *)

Definition store_missing_rate (store_df : DataFrame) : Qc :=
  let total_records := length store_df in
  let missing_supplier := isnull_sum "Supplier" store_df in
  let missing_rrp := isnull_sum "RRP" store_df in
  Qc_of_nat (missing_supplier + missing_rrp) / Qc_of_nat (total_records * 2).

Definition store_outlier_rate (store_df : DataFrame) : Qc :=
  let total_records := length store_df in
  let neg_qty := length (filter (λ r, Quantity r < 0) store_df) in
  let neg_sales := length (filter (λ r, Total_Sales r < 0) store_df) in
  Qc_of_nat (neg_qty + neg_sales) / Qc_of_nat total_records.

Definition dup_rate (group_df : DataFrame) : Qc :=
  let total_records := length group_df in
  let dup_count := count_true (duplicated_first (map key_cols group_df)) in
  Qc_of_nat dup_count / Qc_of_nat total_records.

(** The local [health_score] of the loop body, before rounding. *)
Definition store_health_score (store_df : DataFrame) : Qc :=
  weighted_score (store_missing_rate store_df) (store_outlier_rate store_df)
                 (dup_rate store_df).

Record StoreHealth := {
  store : string;
  total_records : nat;
  missing_rate : Qc;
  outlier_rate : Qc;
  duplicate_rate : Qc;
  health_score : Qc;
  category : string
}.

Definition store_row (df : DataFrame) (s : string) : StoreHealth :=
  let store_df := filter (λ r, Store_Name r = s) df in
  {| store := s;
     total_records := length store_df;
     missing_rate := round2 (store_missing_rate store_df * dec 100 1);
     outlier_rate := round2 (store_outlier_rate store_df * dec 100 1);
     duplicate_rate := round2 (dup_rate store_df * dec 100 1);
     health_score := round2 (store_health_score store_df);
     category := categorize (store_health_score store_df) |}.

(** The list the loop builds, before it becomes a frame. *)
Definition store_scores (df : DataFrame) : list StoreHealth :=
  map (store_row df) (unique (map Store_Name df)).

(** [pd.DataFrame(rows).sort_values('health_score', ascending=False)].
    A frame built from no row has no column, and sorting it by a
    label it does not have raises [KeyError]. *)
Definition desc_by {A} (by_ : A → Qc) : relation A := λ a b, by_ b ≤ by_ a.

#[export] Instance desc_by_dec {A} (by_ : A → Qc) : RelDecision (desc_by by_).
Proof. intros a b. unfold desc_by. apply _. Defined.

Definition sort_values_desc {A} (by_ : A → Qc) (label : string)
    (rows : list A) : result (list A) :=
  match rows with
  | [] => Err (KeyError label)
  | _ => Ok (merge_sort (desc_by by_) rows)
  end.

Definition calculate_store_health_score (df : DataFrame)
    : result (list StoreHealth) :=
  sort_values_desc health_score "health_score" (store_scores df).

(** *** Per supplier *)

Definition supplier_missing_rate (supplier_df : DataFrame) : Qc :=
  let total_records := length supplier_df in
  let missing_rrp := isnull_sum "RRP" supplier_df in
  Qc_of_nat missing_rrp / Qc_of_nat total_records.

Definition supplier_outlier_rate (supplier_df : DataFrame) : Qc :=
  let total_records := length supplier_df in
  let neg_qty := length (filter (λ r, Quantity r < 0) supplier_df) in
  let neg_sales := length (filter (λ r, Total_Sales r < 0) supplier_df) in
  let zero_qty_with_sales :=
    length (filter (λ r, Quantity r = 0 ∧ 0 < Total_Sales r) supplier_df) in
  Qc_of_nat (neg_qty + neg_sales + zero_qty_with_sales)
  / Qc_of_nat total_records.

Definition supplier_health_score (supplier_df : DataFrame) : Qc :=
  weighted_score (supplier_missing_rate supplier_df)
                 (supplier_outlier_rate supplier_df) (dup_rate supplier_df).

Record SupplierHealth := {
  supplier : string;
  s_total_records : nat;
  missing_rrp_rate : Qc;
  s_outlier_rate : Qc;
  s_duplicate_rate : Qc;
  s_health_score : Qc;
  s_category : string
}.

Definition supplier_row (df : DataFrame) (s : string) : SupplierHealth :=
  let supplier_df := filter (λ r, Supplier r = Some s) df in
  {| supplier := s;
     s_total_records := length supplier_df;
     missing_rrp_rate := round2 (supplier_missing_rate supplier_df * dec 100 1);
     s_outlier_rate := round2 (supplier_outlier_rate supplier_df * dec 100 1);
     s_duplicate_rate := round2 (dup_rate supplier_df * dec 100 1);
     s_health_score := round2 (supplier_health_score supplier_df);
     s_category := categorize (supplier_health_score supplier_df) |}.

Definition supplier_scores (df : DataFrame) : list SupplierHealth :=
  map (supplier_row df) (unique (dropna (map Supplier df))).

Definition calculate_supplier_health_score (df : DataFrame)
    : result (list SupplierHealth) :=
  sort_values_desc s_health_score "health_score" (supplier_scores df).

(** *** The scores in binary64

    The two loop bodies once more, with every float operation
    rounded as the machine rounds it.  A rate is the quotient of two
    counts, and a count below [2^53] is a binary64 number: the
    division returns the binary64 number nearest to the exact
    quotient, which is the rate given above.  The score is reached
    from the three rates by three subtractions, three products and
    two sums, and the category is decided on that score. *)
Import Binary64.

Definition weighted_score64 (missing_rate outlier_rate dup_rate : Qc) : Qc :=
  let missing_score := Qcmax 0 (mul64 (sub64 1 missing_rate) (dec 30 1)) in
  let outlier_score := Qcmax 0 (mul64 (sub64 1 outlier_rate) (dec 40 1)) in
  let dup_score := Qcmax 0 (mul64 (sub64 1 dup_rate) (dec 30 1)) in
  add64 (add64 missing_score outlier_score) dup_score.

Definition store_health_score64 (store_df : DataFrame) : Qc :=
  let missing_rate := rnd64 (store_missing_rate store_df) in
  let outlier_rate := rnd64 (store_outlier_rate store_df) in
  let dup_rate := rnd64 (dup_rate store_df) in
  weighted_score64 missing_rate outlier_rate dup_rate.

Definition supplier_health_score64 (supplier_df : DataFrame) : Qc :=
  let missing_rate := rnd64 (supplier_missing_rate supplier_df) in
  let outlier_rate := rnd64 (supplier_outlier_rate supplier_df) in
  let dup_rate := rnd64 (dup_rate supplier_df) in
  weighted_score64 missing_rate outlier_rate dup_rate.

(** What an iteration of either loop decides: the score before
    [round] and the category. *)
Record Health64 := {
  h_name : string;
  h_score : Qc;
  h_category : string
}.

Definition store_scores64 (df : DataFrame) : list Health64 :=
  map (λ s, let store_df := filter (λ r, Store_Name r = s) df in
            let health_score := store_health_score64 store_df in
            {| h_name := s;
               h_score := health_score;
               h_category := categorize health_score |})
      (unique (map Store_Name df)).

Definition supplier_scores64 (df : DataFrame) : list Health64 :=
  map (λ s, let supplier_df := filter (λ r, Supplier r = Some s) df in
            let health_score := supplier_health_score64 supplier_df in
            {| h_name := s;
               h_score := health_score;
               h_category := categorize health_score |})
      (unique (dropna (map Supplier df))).

(** *** The summary report *)

(** [date_range] is the pair the source interpolates into a string:
    the first and the last day of sale. *)
Record Overview := {
  o_total_records : nat;
  date_range : option Z * option Z;
  num_stores : nat;
  num_suppliers : nat;
  num_skus : nat
}.

Record Report := {
  dataset_overview : Overview;
  missing_values : list MissingStat;
  duplicates_count : nat;
  outliers_summary : list (string * nat);
  store_health_top_10 : list StoreHealth;
  store_health_bottom_10 : list StoreHealth;
  supplier_health_top_10 : list SupplierHealth;
  supplier_health_bottom_10 : list SupplierHealth;
  key_issues : list string
}.

(** [head(n)] and [tail(n)] of a frame. *)
Definition head {A} (n : nat) (l : list A) : list A := take n l.
Definition tail {A} (n : nat) (l : list A) : list A :=
  drop (length l - n) l.

(** [Series.min()] and [Series.max()]; of no value, a null. *)
Definition Zmin_list (l : list Z) : option Z :=
  match l with
  | [] => None
  | x :: l' => Some (foldr Z.min x l')
  end.

Definition Zmax_list (l : list Z) : option Z :=
  match l with
  | [] => None
  | x :: l' => Some (foldr Z.max x l')
  end.

Definition _identify_key_issues
    (missing : list MissingStat) (duplicates : list DupSummary)
    (outliers : list (string * Bucket))
    (store_health : list StoreHealth)
    (supplier_health : list SupplierHealth) : list string :=
  let critical_missing :=
    filter (λ m, column m ∈ ["Supplier"; "RRP"]) missing in
  let issues1 :=
    if bool_decide (0 < length missing)%nat then
      if bool_decide (0 < length critical_missing)%nat then
        map (λ row, column row +:+ ": " +:+ pretty (missing_count row)
                    +:+ " missing (" +:+ format_2f (missing_pct row)
                    +:+ "%)")
            critical_missing
      else []
    else [] in
  let issues2 :=
    if bool_decide (0 < length duplicates)%nat then
      ["Found " +:+ pretty (length duplicates) +:+ " duplicate records"]
    else [] in
  let issues3 :=
    omap (λ '(outlier_type, df),
            if bool_decide (0 < bucket_len df)%nat then
              Some (outlier_type +:+ ": " +:+ pretty (bucket_len df)
                    +:+ " records")
            else None)
         outliers in
  let poor_stores :=
    filter (λ r, health_score r < dec 60 1) store_health in
  let issues4 :=
    if bool_decide (0 < length poor_stores)%nat then
      [pretty (length poor_stores)
       +:+ " stores with poor data quality (score < 60)"]
    else [] in
  let poor_suppliers :=
    filter (λ r, s_health_score r < dec 60 1) supplier_health in
  let issues5 :=
    if bool_decide (0 < length poor_suppliers)%nat then
      [pretty (length poor_suppliers)
       +:+ " suppliers with poor data quality (score < 60)"]
    else [] in
  issues1 ++ issues2 ++ issues3 ++ issues4 ++ issues5.

Definition generate_summary_report (df : DataFrame) : result Report :=
  let missing := check_missing_values df in
  let duplicates := check_duplicates df in
  let outliers := check_outliers df in
  store_health ← calculate_store_health_score df;
  supplier_health ← calculate_supplier_health_score df;
  mret {|
    dataset_overview := {|
      o_total_records := length df;
      date_range := (Zmin_list (map Date_Of_Sale df),
                     Zmax_list (map Date_Of_Sale df));
      num_stores := nunique (map Store_Name df);
      num_suppliers := nunique (dropna (map Supplier df));
      num_skus := nunique (map Item_Code df)
    |};
    missing_values := missing;
    duplicates_count := length duplicates;
    outliers_summary := map (λ '(k, v), (k, bucket_len v)) outliers;
    store_health_top_10 := head 10 store_health;
    store_health_bottom_10 := tail 10 store_health;
    supplier_health_top_10 := head 10 supplier_health;
    supplier_health_bottom_10 := tail 10 supplier_health;
    key_issues :=
      _identify_key_issues missing duplicates outliers store_health
                           supplier_health
  |}.

End DataQualityChecker.

(* ================================================================== *)
(** * Promotions ([modules/promotions.py]) *)

(** Lookup in a table keyed by its first component. *)
Fixpoint assoc `{EqDecision K} {V} (k : K) (l : list (K * V)) : option V :=
  match l with
  | [] => None
  | (k', v) :: l' => if bool_decide (k' = k) then Some v else assoc k l'
  end.

(** [DataFrame.nlargest(n, col)]: the [n] rows with the largest value,
    largest first, rows of equal value in frame order. *)
Fixpoint insert_desc {A} (by_ : A → Qc) (x : A) (l : list A) : list A :=
  match l with
  | [] => [x]
  | y :: l' =>
      if bool_decide (by_ x < by_ y) then y :: insert_desc by_ x l'
      else x :: l
  end.

Definition nlargest {A} (n : nat) (by_ : A → Qc) (l : list A) : list A :=
  take n (foldr (insert_desc by_) [] l).

Module PromotionAnalyzer.

(** A row of the prepared frame: the source columns and
    [unit_price]. *)
Record Priced := {
  base : Row;
  unit_price : fval
}.

#[export] Instance Priced_eq_dec : EqDecision Priced.
Proof. solve_decision. Defined.

Definition _prepare_data (df : DataFrame) : list Priced :=
  let df :=
    map (λ r, {| base := r;
                 unit_price :=
                   np_where (bool_decide (0 < Quantity r))
                            (fdiv (Some (Total_Sales r)) (Some (Quantity r)))
                            None |}) df in
  filter (λ p, 0 < Quantity (base p) ∧ RRP (base p) ≠ None ∧
               fgtb (RRP (base p)) (Some 0) = true ∧ unit_price p ≠ None)
         df.

Record Self := {
  df : list Priced;
  discount_threshold : Qc;
  min_days : Z
}.

Definition __init__ (df : DataFrame) (discount_threshold : Qc)
    (min_days : Z) : Self :=
  {| df := _prepare_data df;
     discount_threshold := discount_threshold;
     min_days := min_days |}.

(** The defaults of [__init__]. *)
Definition default_discount_threshold : Qc := dec 10 100.
Definition default_min_days : Z := 2.

(** A row of the frame [detect_promotions] returns. *)
Record Promo := {
  row : Priced;
  discount_pct : fval;
  is_promo_day : bool;
  promo_day_count : option nat;
  on_promotion : bool
}.

#[export] Instance Promo_eq_dec : EqDecision Promo.
Proof. solve_decision. Defined.

(** [(df['RRP'] - df['unit_price']) / df['RRP'] * 100] at one row. *)
Definition discount_of (p : Priced) : fval :=
  fmul (fdiv (fsub (RRP (base p)) (unit_price p)) (RRP (base p)))
       (Some (dec 100 1)).

(** [df['discount_pct'] >= self.discount_threshold * 100] at one row. *)
Definition promo_day_of (self : Self) (p : Priced) : bool :=
  fgeb (discount_of p) (Some (discount_threshold self * dec 100 1)).

(** [groupby(['Store Name', 'Item_Code', 'is_promo_day']).size()] *)
Definition promo_day_sizes (self : Self)
    : list ((string * (Z * bool)) * nat) :=
  map (λ '(k, g), (k, length g))
      (groupby (λ p, Some (Store_Name (base p),
                           (Item_Code (base p), promo_day_of self p)))
               (df self)).

(** [... .unstack(fill_value=0)], then the column [promo_day_count]:
    the column [True] when some row is a promo day, [0] otherwise;
    one line per (store, item) pair. *)
Definition promo_days_of (sizes : list ((string * (Z * bool)) * nat))
    : list ((string * Z) * nat) :=
  let index :=
    sort_keys (unique (map (λ e, ((e.1).1, ((e.1).2).1)) sizes)) in
  let has_True :=
    bool_decide (Exists (λ e, ((e.1).2).2 = true) sizes) in
  map (λ k, (k, if has_True
                then default 0%nat (assoc (k.1, (k.2, true)) sizes)
                else 0%nat)) index.

Definition promo_days (self : Self) : list ((string * Z) * nat) :=
  promo_days_of (promo_day_sizes self).

Definition detect_promotions (self : Self) : list Promo :=
  let promo_days := promo_days self in
  map (λ p,
         let is_promo_day := promo_day_of self p in
         (* the left merge on ['Store Name', 'Item_Code'] *)
         let promo_day_count :=
           assoc (Store_Name (base p), Item_Code (base p)) promo_days in
         {| row := p;
            discount_pct := discount_of p;
            is_promo_day := is_promo_day;
            promo_day_count := promo_day_count;
            on_promotion :=
              is_promo_day &&
              match promo_day_count with
              | Some n => bool_decide (min_days self ≤ Z.of_nat n)%Z
              | None => false
              end |})
      (df self).

(** *** KPIs *)

(** A row of [agg_df]: one per (item, description, supplier,
    on_promotion) group. *)
Record Agg := {
  a_Item_Code : Z;
  a_Description : string;
  a_Supplier : string;
  a_on_promotion : bool;
  total_quantity : Qc;
  total_sales : Qc;
  store_count : nat;
  day_count : nat;
  avg_unit_price : fval;
  avg_rrp : fval;
  avg_discount_pct : fval
}.

(** A row of the returned [detailed_data].  The columns the code
    does not force into the table are optional: [None] says that the
    table has no such column. *)
Record Detail := {
  d_Item_Code : Z;
  d_Description : string;
  d_Supplier : string;
  avg_discount_pct_baseline : option Qc;
  avg_discount_pct_promo : Qc;
  avg_unit_price_baseline : Qc;
  avg_unit_price_promo : Qc;
  store_count_baseline : Qc;
  store_count_promo : Qc;
  total_quantity_baseline : Qc;
  total_quantity_promo : Qc;
  total_sales_baseline : option Qc;
  total_sales_promo : option Qc;
  quantity_uplift_pct : Qc;
  promo_coverage_pct : Qc
}.

Record TopSku := {
  t_Description : string;
  t_Supplier : string;
  t_quantity_uplift_pct : Qc;
  t_promo_coverage_pct : Qc;
  t_avg_discount_pct_promo : Qc;
  t_avg_unit_price_baseline : Qc;
  t_avg_unit_price_promo : Qc
}.

Record Summary := {
  total_skus_analyzed : nat;
  skus_with_promos : nat;
  avg_promo_uplift : Qc;
  avg_promo_coverage : fval;
  avg_discount_depth : Qc
}.

Record Kpis := {
  summary : Summary;
  top_performing_skus : list TopSku;
  detailed_data : list Detail
}.

Section kpis.

(** [Series.str.contains(pat, case=False, na=False)] at one
    non-null cell: [str_contains pat s].  The pattern is a regular
    expression for pandas; any matcher can stand here. *)
Variable str_contains : string → string → bool.

(** The frame the KPIs are computed on: the detected promotions,
    restricted to the suppliers the filter matches when a filter
    is given.  A null supplier matches no filter. *)
Definition supplier_matches (pat : string) (r : Promo) : bool :=
  match Supplier (base (row r)) with
  | Some s => str_contains pat s
  | None => false
  end.

Definition filter_supplier (supplier_filter : option string)
    (df_promo : list Promo) : list Promo :=
  match supplier_filter with
  | Some pat =>
      if bool_decide (pat = "") then df_promo
      else filter (λ r, supplier_matches pat r = true) df_promo
  | None => df_promo
  end.

Definition agg_key (r : Promo) : option (Z * (string * (string * bool))) :=
  s ← Supplier (base (row r));
  Some (Item_Code (base (row r)),
        (Description (base (row r)), (s, on_promotion r))).

Definition aggregate (df_promo : list Promo) : list Agg :=
  map (λ '(k, g),
         {| a_Item_Code := k.1;
            a_Description := (k.2).1;
            a_Supplier := ((k.2).2).1;
            a_on_promotion := ((k.2).2).2;
            total_quantity := Qcsum (map (λ r, Quantity (base (row r))) g);
            total_sales := Qcsum (map (λ r, Total_Sales (base (row r))) g);
            store_count := nunique (map (λ r, Store_Name (base (row r))) g);
            day_count := nunique (map (λ r, Date_Of_Sale (base (row r))) g);
            avg_unit_price := fmean (map (λ r, unit_price (row r)) g);
            avg_rrp := fmean (map (λ r, RRP (base (row r))) g);
            avg_discount_pct := fmean (map discount_pct g) |})
      (groupby agg_key df_promo).

(** The value columns of the pivot, as float columns. *)
Definition v_total_quantity (a : Agg) : fval := Some (total_quantity a).
Definition v_total_sales (a : Agg) : fval := Some (total_sales a).
Definition v_store_count (a : Agg) : fval :=
  Some (Qc_of_nat (store_count a)).

Definition sku_key (a : Agg) : Z * (string * string) :=
  (a_Item_Code a, (a_Description a, a_Supplier a)).

(** [pivot_table(index=SKU, columns='on_promotion', aggfunc='first')]:
    one line per SKU, keys ascending; the cell of value [v] under
    flag [f] is that of the SKU's aggregate row with this flag, NaN
    when there is none; the column ([v], [f]) is in the table when
    some cell of it is not NaN. *)
Definition pivot_index (agg_df : list Agg) : list (Z * (string * string)) :=
  sort_keys (unique (map sku_key agg_df)).

Definition pivot_side (agg_df : list Agg) (k : Z * (string * string))
    (f : bool) : option Agg :=
  head (filter (λ a, sku_key a = k ∧ a_on_promotion a = f) agg_df).

Definition pivot_cell (v : Agg → fval) (side : option Agg) : fval :=
  side ≫= v.

Definition has_col (agg_df : list Agg) (v : Agg → fval) (f : bool) : bool :=
  bool_decide (Exists (λ a, a_on_promotion a = f ∧ v a ≠ None) agg_df).

(** A column that the code adds with 0 when it is missing, after
    [fillna(0)]; and one that it does not add. *)
Definition ensured (present : bool) (cell : fval) : Qc :=
  if present then fillna0 cell else 0.

Definition optional (present : bool) (cell : fval) : option Qc :=
  if present then Some (fillna0 cell) else None.

Definition detail_row (agg_df : list Agg) (total_stores : nat)
    (k : Z * (string * string)) : Detail :=
  let baseline := pivot_side agg_df k false in
  let promo := pivot_side agg_df k true in
  let has := has_col agg_df in
  let quantity_uplift_pct : fval :=
    if has v_total_quantity false && has v_total_quantity true then
      np_where
        (fgtb (pivot_cell v_total_quantity baseline) (Some 0))
        (fmul (fdiv (fsub (pivot_cell v_total_quantity promo)
                          (pivot_cell v_total_quantity baseline))
                    (pivot_cell v_total_quantity baseline))
              (Some (dec 100 1)))
        None
    else None in
  let promo_coverage_pct : fval :=
    if has v_store_count true then
      fmul (fdiv (pivot_cell v_store_count promo)
                 (Some (Qc_of_nat total_stores)))
           (Some (dec 100 1))
    else Some 0 in
  {| d_Item_Code := k.1;
     d_Description := (k.2).1;
     d_Supplier := (k.2).2;
     avg_discount_pct_baseline :=
       optional (has avg_discount_pct false)
                (pivot_cell avg_discount_pct baseline);
     avg_discount_pct_promo :=
       ensured (has avg_discount_pct true)
               (pivot_cell avg_discount_pct promo);
     avg_unit_price_baseline :=
       ensured (has avg_unit_price false)
               (pivot_cell avg_unit_price baseline);
     avg_unit_price_promo :=
       ensured (has avg_unit_price true)
               (pivot_cell avg_unit_price promo);
     store_count_baseline :=
       ensured (has v_store_count false)
               (pivot_cell v_store_count baseline);
     store_count_promo :=
       ensured (has v_store_count true)
               (pivot_cell v_store_count promo);
     total_quantity_baseline :=
       ensured (has v_total_quantity false)
               (pivot_cell v_total_quantity baseline);
     total_quantity_promo :=
       ensured (has v_total_quantity true)
               (pivot_cell v_total_quantity promo);
     total_sales_baseline :=
       optional (has v_total_sales false)
                (pivot_cell v_total_sales baseline);
     total_sales_promo :=
       optional (has v_total_sales true)
                (pivot_cell v_total_sales promo);
     quantity_uplift_pct := fillna0 quantity_uplift_pct;
     promo_coverage_pct := fillna0 promo_coverage_pct |}.

(** [pivot_df] after [fillna(0)].  Of an empty [agg_df] the pivot
    has no line. *)
Definition pivot (df_promo : list Promo) : list Detail :=
  let agg_df := aggregate df_promo in
  let total_stores :=
    nunique (map (λ r, Store_Name (base (row r))) df_promo) in
  map (detail_row agg_df total_stores) (pivot_index agg_df).

Definition top_sku (d : Detail) : TopSku :=
  {| t_Description := d_Description d;
     t_Supplier := d_Supplier d;
     t_quantity_uplift_pct := quantity_uplift_pct d;
     t_promo_coverage_pct := promo_coverage_pct d;
     t_avg_discount_pct_promo := avg_discount_pct_promo d;
     t_avg_unit_price_baseline := avg_unit_price_baseline d;
     t_avg_unit_price_promo := avg_unit_price_promo d |}.

(** [float(x) if not pd.isna(x) else 0.0] *)
Definition nan_to_zero (x : fval) : Qc := default 0 x.

(** The KPIs of the (filtered) frame of detected promotions. *)
Definition kpis_of (df_promo : list Promo) : Kpis :=
  let pivot_df := pivot df_promo in
  let top_skus := map top_sku (nlargest 10 quantity_uplift_pct pivot_df) in
  let avg_uplift :=
    mean (map quantity_uplift_pct
              (filter (λ d, 0 < quantity_uplift_pct d) pivot_df)) in
  let avg_discount :=
    mean (map avg_discount_pct_promo
              (filter (λ d, 0 < avg_discount_pct_promo d) pivot_df)) in
  {| summary := {|
       total_skus_analyzed := length pivot_df;
       skus_with_promos :=
         length (filter (λ d, 0 < promo_coverage_pct d) pivot_df);
       avg_promo_uplift := nan_to_zero avg_uplift;
       avg_promo_coverage := mean (map promo_coverage_pct pivot_df);
       avg_discount_depth := nan_to_zero avg_discount
     |};
     top_performing_skus := top_skus;
     detailed_data := pivot_df |}.

Definition calculate_kpis (self : Self) (supplier_filter : option string)
    : Kpis :=
  let df_promo := filter_supplier supplier_filter (detect_promotions self) in
  kpis_of df_promo.

End kpis.

(** *** The sum of a group in binary64

    [groupby(...).agg(... 'sum' ...)] adds the values of a group in
    frame order.  pandas accumulates them with Kahan's compensation
    ([group_sum] of [pandas/_libs/groupby.pyx]) and returns the running
    sum; the plain accumulation is given next to it.  Every operation
    is rounded to binary64. *)
Import Binary64.

Definition kahan_add (acc : Qc * Qc) (val : Qc) : Qc * Qc :=
  let sumx := acc.1 in
  let compensation := acc.2 in
  let y := sub64 val compensation in
  let t := add64 sumx y in
  (t, sub64 (sub64 t sumx) y).

Definition group_sum64 (l : list Qc) : Qc := (foldl kahan_add (0, 0) l).1.

Definition plain_sum64 (l : list Qc) : Qc := foldl add64 0 l.

(** The cell [total_sales_baseline] of a SKU in [detailed_data]: the
    sum of [Total Sales] over the rows of the SKU that are not on
    promotion, 0 when there is none. *)
Definition baseline_rows (df_promo : list Promo) (k : Z * (string * string))
    : list Promo :=
  filter (λ r, agg_key r = Some (k.1, ((k.2).1, ((k.2).2, false)))) df_promo.

Definition total_sales_baseline64 (sum : list Qc → Qc)
    (df_promo : list Promo) (k : Z * (string * string)) : Qc :=
  sum (map (λ r, Total_Sales (base (row r))) (baseline_rows df_promo k)).

End PromotionAnalyzer.

(* ================================================================== *)
(** * Price index ([modules/pricing_index.py]) *)

(** [np.average(a, weights=w)]: weights that sum to zero raise. *)
Definition np_average (a weights : list Qc) : result Qc :=
  let scl := Qcsum weights in
  if bool_decide (scl = 0) then
    Err (ZeroDivisionError "Weights sum to zero, can't be normalized")
  else Ok (Qcsum (zip_with Qcmult a weights) / scl).

(** The order of [sort_values] on a float column: NaN last. *)
Definition fle_asc (a b : fval) : Prop :=
  match a, b with
  | Some x, Some y => x ≤ y
  | Some _, None => True
  | None, Some _ => False
  | None, None => True
  end.

Definition fle_desc (a b : fval) : Prop :=
  match a, b with
  | Some x, Some y => y ≤ x
  | Some _, None => True
  | None, Some _ => False
  | None, None => True
  end.

#[export] Instance fle_asc_dec : RelDecision fle_asc.
Proof. intros [x|] [y|]; simpl; apply _. Defined.

#[export] Instance fle_desc_dec : RelDecision fle_desc.
Proof. intros [x|] [y|]; simpl; apply _. Defined.

Definition on_rel {A B} (R : relation B) (f : A → B) : relation A :=
  λ a b, R (f a) (f b).

#[export] Instance on_rel_dec {A B} (R : relation B) `{!RelDecision R}
  (f : A → B) : RelDecision (on_rel R f).
Proof. intros a b. unfold on_rel. apply _. Defined.

Module PricingIndexAnalyzer.

(** A row of the prepared frame: the source columns, [unit_price]
    and [discount_from_rrp_pct]. *)
Record Priced := {
  base : Row;
  unit_price : fval;
  discount_from_rrp_pct : fval
}.

Definition _prepare_data (df : DataFrame) : list Priced :=
  let df :=
    map (λ r,
           let unit_price :=
             np_where (bool_decide (0 < Quantity r))
                      (fdiv (Some (Total_Sales r)) (Some (Quantity r)))
                      None in
           {| base := r;
              unit_price := unit_price;
              discount_from_rrp_pct :=
                np_where (bool_decide (RRP r ≠ None) &&
                          fgtb (RRP r) (Some 0))
                         (fmul (fdiv (fsub (RRP r) unit_price) (RRP r))
                               (Some (dec 100 1)))
                         None |}) df in
  filter (λ p, 0 < Quantity (base p) ∧ unit_price p ≠ None ∧
               Supplier (base p) ≠ None) df.

Definition __init__ (df : DataFrame) : list Priced := _prepare_data df.

Definition _categorize_positioning (price_index : fval) : string :=
  match price_index with
  | None => "No Competition"
  | Some price_index =>
      if bool_decide (dec 110 1 ≤ price_index) then "Premium"
      else if bool_decide (dec 105 1 ≤ price_index) then "Slight Premium"
      else if bool_decide (dec 95 1 ≤ price_index) then "At Market"
      else if bool_decide (dec 90 1 ≤ price_index) then "Slight Discount"
      else "Discount"
  end.

(** A row of [store_category_prices]. *)
Record StoreCategoryPrice := {
  store : string;
  sub_department : string;
  section : string;
  supplier : string;
  avg_unit_price : fval;
  avg_rrp : fval;
  total_quantity : Qc;
  total_sales : Qc;
  avg_discount_from_rrp : fval
}.

Record MarketAvg := {
  m_key : string * (string * string);
  market_avg_unit_price : fval;
  market_avg_rrp : fval;
  market_total_quantity : Qc
}.

(** A row of the frame [calculate_store_level_index] returns. *)
Record Comparison := {
  target : StoreCategoryPrice;
  c_market_avg_unit_price : fval;
  c_market_avg_rrp : fval;
  c_market_total_quantity : fval;
  price_index : fval;
  positioning : string;
  rrp_vs_market_pct : fval
}.

Definition store_category_prices (self : list Priced)
    : list StoreCategoryPrice :=
  map (λ '(k, g),
         {| store := k.1;
            sub_department := (k.2).1;
            section := ((k.2).2).1;
            supplier := ((k.2).2).2;
            avg_unit_price := fmean (map unit_price g);
            avg_rrp := fmean (map (λ p, RRP (base p)) g);
            total_quantity := Qcsum (map (λ p, Quantity (base p)) g);
            total_sales := Qcsum (map (λ p, Total_Sales (base p)) g);
            avg_discount_from_rrp := fmean (map discount_from_rrp_pct g) |})
      (groupby (λ p, s ← Supplier (base p);
                     Some (Store_Name (base p),
                           (Sub_Department (base p),
                            (Section_ (base p), s))))
               self).

Definition category_key (r : StoreCategoryPrice)
    : string * (string * string) :=
  (store r, (sub_department r, section r)).

Definition market_avg (target_supplier : string)
    (prices : list StoreCategoryPrice) : list MarketAvg :=
  map (λ '(k, g),
         {| m_key := k;
            market_avg_unit_price := fmean (map avg_unit_price g);
            market_avg_rrp := fmean (map avg_rrp g);
            market_total_quantity := Qcsum (map total_quantity g) |})
      (groupby (λ r, Some (category_key r))
               (filter (λ r, supplier r ≠ target_supplier) prices)).

Definition compare (market : list MarketAvg) (t : StoreCategoryPrice)
    : Comparison :=
  (* the left merge on ['store', 'sub_department', 'section'] *)
  let m := head (filter (λ m, m_key m = category_key t) market) in
  let market_avg_unit_price := m ≫= market_avg_unit_price in
  let market_avg_rrp := m ≫= market_avg_rrp in
  let price_index :=
    np_where (fgtb market_avg_unit_price (Some 0))
             (fmul (fdiv (avg_unit_price t) market_avg_unit_price)
                   (Some (dec 100 1)))
             None in
  {| target := t;
     c_market_avg_unit_price := market_avg_unit_price;
     c_market_avg_rrp := market_avg_rrp;
     c_market_total_quantity := market_total_quantity <$> m;
     price_index := price_index;
     positioning := _categorize_positioning price_index;
     rrp_vs_market_pct :=
       np_where (fgtb market_avg_rrp (Some 0))
                (fmul (fdiv (fsub (avg_rrp t) market_avg_rrp) market_avg_rrp)
                      (Some (dec 100 1)))
                None |}.

Definition calculate_store_level_index (self : list Priced)
    (target_supplier : string) : list Comparison :=
  let prices := store_category_prices self in
  let market_avg := market_avg target_supplier prices in
  let target_data := filter (λ r, supplier r = target_supplier) prices in
  map (compare market_avg) target_data.

(** The default of [target_supplier]. *)
Definition default_target_supplier : string := "BIDCO AFRICA LIMITED".

Record CategorySummary := {
  cs_key : string * string;
  cs_price_index : fval;
  cs_avg_unit_price : fval;
  cs_market_avg_unit_price : fval;
  cs_total_quantity : Qc;
  cs_avg_discount_from_rrp : fval
}.

Record Positioning := {
  overall_price_index : Qc;
  overall_positioning : string;
  positioning_distribution : list (string * nat);
  top_categories : list CategorySummary;
  premium_categories : list ((string * string) * fval);
  discount_categories : list ((string * string) * fval)
}.

Definition by_category (c : Comparison) : option (string * string) :=
  Some (sub_department (target c), section (target c)).

(** [Series.value_counts().to_dict()]: the labels with their counts,
    most frequent first. *)
Definition value_counts (l : list string) : list (string * nat) :=
  merge_sort (on_rel (flip Nat.le) snd)
             (map (λ v, (v, count_key v l)) (unique l)).

(** [frame.groupby(['sub_department', 'section'])['price_index'].mean()] *)
Definition mean_index_by_category (rows : list Comparison)
    : list ((string * string) * fval) :=
  map (λ '(k, g), (k, fmean (map price_index g))) (groupby by_category rows).

Definition calculate_overall_positioning (self : list Priced)
    (target_supplier : string) : result Positioning :=
  let store_index := calculate_store_level_index self target_supplier in
  let defined := filter (λ c, price_index c ≠ None) store_index in
  weighted_index ←
    np_average (dropna (map price_index store_index))
               (map (λ c, total_quantity (target c)) defined);
  let positioning_dist := value_counts (map positioning store_index) in
  let category_summary :=
    merge_sort (on_rel (flip Qcle) cs_total_quantity)
      (map (λ '(k, g),
              {| cs_key := k;
                 cs_price_index := fmean (map price_index g);
                 cs_avg_unit_price :=
                   fmean (map (λ c, avg_unit_price (target c)) g);
                 cs_market_avg_unit_price :=
                   fmean (map c_market_avg_unit_price g);
                 cs_total_quantity :=
                   Qcsum (map (λ c, total_quantity (target c)) g);
                 cs_avg_discount_from_rrp :=
                   fmean (map (λ c, avg_discount_from_rrp (target c)) g) |})
           (groupby by_category store_index)) in
  mret {|
    overall_price_index := weighted_index;
    overall_positioning := _categorize_positioning (Some weighted_index);
    positioning_distribution := positioning_dist;
    top_categories := take 10 category_summary;
    premium_categories :=
      take 5 (merge_sort (on_rel fle_desc snd)
                (mean_index_by_category
                   (filter (λ c, positioning c ∈ ["Premium"; "Slight Premium"])
                           store_index)));
    discount_categories :=
      take 5 (merge_sort (on_rel fle_asc snd)
                (mean_index_by_category
                   (filter (λ c, positioning c ∈ ["Discount"; "Slight Discount"])
                           store_index)))
  |}.

End PricingIndexAnalyzer.

(* ================================================================== *)
(** * The engines over a store of dataframes *)

(** A dataframe is an object.  The frame a caller hands to an engine is
    the caller's own object, [df.copy()] and [df[mask]] make new
    objects, and [df['c'] = ...] updates an object in place.  The store
    holds the dataframes that exist, a handle is the position of one,
    and the methods of the engines are programs over the store.  They
    follow the source statement by statement in what they copy, select
    and assign; the tables that [groupby], [pivot_table] and [merge]
    build are new values, and the value a method returns is that of
    the function of the same name above, on the rows of [self.df]. *)

Inductive cell :=
  | Num (x : fval)
  | Flag (b : bool)
  | Count (n : option nat).

(** A row of a stored frame: the source columns, and the columns added
    since, by name. *)
Record HRow := {
  source : Row;
  added : list (string * cell)
}.

(** A frame is a list of rows, the store a list of frames, a handle a
    position in the store. *)
Abbreviation frame := (list HRow) (only parsing).
Abbreviation store := (list (list HRow)) (only parsing).
Abbreviation handle := nat (only parsing).

(** A frame as loaded: the source columns only. *)
Definition loaded (df : DataFrame) : frame :=
  map (λ r, {| source := r; added := [] |}) df.

Definition num (c : string) (r : HRow) : fval :=
  match assoc c (added r) with
  | Some (Num x) => x
  | _ => None
  end.

Definition flag (c : string) (r : HRow) : bool :=
  match assoc c (added r) with
  | Some (Flag b) => b
  | _ => false
  end.

Definition count (c : string) (r : HRow) : option nat :=
  match assoc c (added r) with
  | Some (Count n) => n
  | _ => None
  end.

(** [row[c] = v]: the column is replaced when the row has it, added
    after the others when not. *)
Fixpoint set_assoc (c : string) (v : cell) (l : list (string * cell))
    : list (string * cell) :=
  match l with
  | [] => [(c, v)]
  | (c', v') :: l' =>
      if bool_decide (c' = c) then (c, v) :: l'
      else (c', v') :: set_assoc c v l'
  end.

Definition set_col (c : string) (v : HRow → cell) (r : HRow) : HRow :=
  {| source := source r; added := set_assoc c (v r) (added r) |}.

(** Programs over the store. *)
Definition St (A : Type) : Type := store → A * store.

#[export] Instance St_ret : MRet St := λ A a σ, (a, σ).

#[export] Instance St_bind : MBind St := λ A B k m σ,
  let '(a, σ') := m σ in k a σ'.

Definition frame_at (h : handle) (σ : store) : frame := default [] (σ !! h).

(** Reading the rows of a frame. *)
Definition read (h : handle) : St frame := λ σ, (frame_at h σ, σ).

(** [df.copy()] *)
Definition copy (h : handle) : St handle :=
  λ σ, (length σ, σ ++ [frame_at h σ]).

(** [df[mask]] *)
Definition getitem (h : handle) (mask : HRow → bool) : St handle :=
  λ σ, (length σ, σ ++ [filter (λ r, mask r = true) (frame_at h σ)]).

(** A frame built by an operation ([merge]). *)
Definition new_frame (f : frame) : St handle := λ σ, (length σ, σ ++ [f]).

(** [df[c] = v], in place. *)
Definition setitem (h : handle) (c : string) (v : HRow → cell) : St unit :=
  λ σ, (tt, alter (map (set_col c v)) h σ).

(** The source columns of the rows of a stored frame. *)
Definition sources (f : frame) : DataFrame := map source f.

Module Stateful.

Module DataQualityChecker.

(** [self.df = df.copy()] *)
Definition __init__ (df : handle) : St handle := copy df.

Definition check_missing_values (self : handle)
    : St (list DataQualityChecker.MissingStat) :=
  rows ← read self;
  mret (DataQualityChecker.check_missing_values (sources rows)).

Definition check_duplicates (self : handle)
    : St (list DataQualityChecker.DupSummary) :=
  rows ← read self;
  mret (DataQualityChecker.check_duplicates (sources rows)).

Definition check_outliers (self : handle)
    : St (list (string * DataQualityChecker.Bucket)) :=
  rows ← read self;
  neg_qty ← getitem self (λ r, bool_decide (Quantity (source r) < 0));
  zero_qty_with_sales ←
    getitem self (λ r, bool_decide (Quantity (source r) = 0) &&
                       bool_decide (0 < Total_Sales (source r)));
  neg_sales ← getitem self (λ r, bool_decide (Total_Sales (source r) < 0));
  positive ← getitem self (λ r, bool_decide (0 < Quantity (source r)));
  df_with_unit_price ← copy positive;
  _ ← setitem df_with_unit_price "unit_price"
        (λ r, Num (fdiv (Some (Total_Sales (source r)))
                        (Some (Quantity (source r)))));
  with_rrp ← getitem df_with_unit_price
               (λ r, bool_decide (RRP (source r) ≠ None));
  price_check ← copy with_rrp;
  extreme_high ←
    getitem price_check
      (λ r, fgtb (num "unit_price" r)
                 (fmul (RRP (source r)) (Some (dec 10 1))));
  extreme_low ←
    getitem price_check
      (λ r, fltb (num "unit_price" r)
                 (fmul (RRP (source r)) (Some (dec 1 100))));
  mret (DataQualityChecker.check_outliers (sources rows)).

Definition calculate_store_health_score (self : handle)
    : St (result (list DataQualityChecker.StoreHealth)) :=
  rows ← read self;
  mret (DataQualityChecker.calculate_store_health_score (sources rows)).

Definition calculate_supplier_health_score (self : handle)
    : St (result (list DataQualityChecker.SupplierHealth)) :=
  rows ← read self;
  mret (DataQualityChecker.calculate_supplier_health_score (sources rows)).

Definition generate_summary_report (self : handle)
    : St (result DataQualityChecker.Report) :=
  _ ← check_missing_values self;
  _ ← check_duplicates self;
  _ ← check_outliers self;
  _ ← calculate_store_health_score self;
  _ ← calculate_supplier_health_score self;
  rows ← read self;
  mret (DataQualityChecker.generate_summary_report (sources rows)).

Inductive method :=
  | CheckMissingValues
  | CheckDuplicates
  | CheckOutliers
  | CalculateStoreHealthScore
  | CalculateSupplierHealthScore
  | GenerateSummaryReport.

(** A call of a method, its value dropped. *)
Definition call (self : handle) (m : method) : St unit :=
  match m with
  | CheckMissingValues => _ ← check_missing_values self; mret tt
  | CheckDuplicates => _ ← check_duplicates self; mret tt
  | CheckOutliers => _ ← check_outliers self; mret tt
  | CalculateStoreHealthScore => _ ← calculate_store_health_score self; mret tt
  | CalculateSupplierHealthScore =>
      _ ← calculate_supplier_health_score self; mret tt
  | GenerateSummaryReport => _ ← generate_summary_report self; mret tt
  end.

End DataQualityChecker.

Module PromotionAnalyzer.

Record Self := {
  df : handle;
  discount_threshold : Qc;
  min_days : Z
}.

Definition _prepare_data (df : handle) : St handle :=
  df ← copy df;
  _ ← setitem df "unit_price"
        (λ r, Num (np_where (bool_decide (0 < Quantity (source r)))
                            (fdiv (Some (Total_Sales (source r)))
                                  (Some (Quantity (source r))))
                            None));
  valid ← getitem df
            (λ r, bool_decide (0 < Quantity (source r)) &&
                  bool_decide (RRP (source r) ≠ None) &&
                  fgtb (RRP (source r)) (Some 0) &&
                  bool_decide (num "unit_price" r ≠ None));
  copy valid.

Definition __init__ (df : handle) (discount_threshold : Qc) (min_days : Z)
    : St Self :=
  df ← _prepare_data df;
  mret {| df := df;
          discount_threshold := discount_threshold;
          min_days := min_days |}.

(** The rows of a prepared frame and of a frame of detected
    promotions, read from the store. *)
Definition priced (r : HRow) : PromotionAnalyzer.Priced :=
  {| PromotionAnalyzer.base := source r;
     PromotionAnalyzer.unit_price := num "unit_price" r |}.

Definition promo (r : HRow) : PromotionAnalyzer.Promo :=
  {| PromotionAnalyzer.row := priced r;
     PromotionAnalyzer.discount_pct := num "discount_pct" r;
     PromotionAnalyzer.is_promo_day := flag "is_promo_day" r;
     PromotionAnalyzer.promo_day_count := count "promo_day_count" r;
     PromotionAnalyzer.on_promotion := flag "on_promotion" r |}.

Definition promo_day_key (r : HRow) : option (string * (Z * bool)) :=
  Some (Store_Name (source r), (Item_Code (source r), flag "is_promo_day" r)).

Definition detect_promotions (self : Self) : St handle :=
  df ← copy (df self);
  _ ← setitem df "discount_pct"
        (λ r, Num (fmul (fdiv (fsub (RRP (source r)) (num "unit_price" r))
                              (RRP (source r)))
                        (Some (dec 100 1))));
  _ ← setitem df "is_promo_day"
        (λ r, Flag (fgeb (num "discount_pct" r)
                         (Some (discount_threshold self * dec 100 1))));
  rows ← read df;
  let promo_days :=
    PromotionAnalyzer.promo_days_of
      (map (λ '(k, g), (k, length g)) (groupby promo_day_key rows)) in
  df ← new_frame
         (map (set_col "promo_day_count"
                 (λ r, Count (assoc (Store_Name (source r),
                                     Item_Code (source r)) promo_days)))
              rows);
  _ ← setitem df "on_promotion"
        (λ r, Flag (flag "is_promo_day" r &&
                    match count "promo_day_count" r with
                    | Some n => bool_decide (min_days self ≤ Z.of_nat n)%Z
                    | None => false
                    end));
  mret df.

Section kpis.

Variable str_contains : string → string → bool.

Definition supplier_matches (pat : string) (r : HRow) : bool :=
  match Supplier (source r) with
  | Some s => str_contains pat s
  | None => false
  end.

Definition calculate_kpis (self : Self) (supplier_filter : option string)
    : St PromotionAnalyzer.Kpis :=
  df_promo ← detect_promotions self;
  df_promo ←
    match supplier_filter with
    | Some pat =>
        if bool_decide (pat = "") then mret df_promo
        else (matching ← getitem df_promo (supplier_matches pat);
              copy matching)
    | None => mret df_promo
    end;
  rows ← read df_promo;
  mret (PromotionAnalyzer.kpis_of (map promo rows)).

(** The insights are read off the KPIs and off the frames selected
    here; their own tables and texts are not part of the model. *)
Definition get_bidco_insights (self : Self) : St PromotionAnalyzer.Kpis :=
  bidco_kpis ← calculate_kpis self (Some "BIDCO");
  df_promo ← detect_promotions self;
  matching ← getitem df_promo (supplier_matches "BIDCO");
  bidco_df ← copy matching;
  promoted ← getitem bidco_df (flag "on_promotion");
  mret bidco_kpis.

Definition generate_commercial_insights (self : Self)
    (supplier_filter : option string) : St unit :=
  kpis ← calculate_kpis self supplier_filter;
  mret tt.

Inductive method :=
  | DetectPromotions
  | CalculateKpis (supplier_filter : option string)
  | GetBidcoInsights
  | GenerateCommercialInsights (supplier_filter : option string).

Definition call (self : Self) (m : method) : St unit :=
  match m with
  | DetectPromotions => _ ← detect_promotions self; mret tt
  | CalculateKpis f => _ ← calculate_kpis self f; mret tt
  | GetBidcoInsights => _ ← get_bidco_insights self; mret tt
  | GenerateCommercialInsights f => generate_commercial_insights self f
  end.

End kpis.

End PromotionAnalyzer.

Module PricingIndexAnalyzer.

Definition _prepare_data (df : handle) : St handle :=
  df ← copy df;
  _ ← setitem df "unit_price"
        (λ r, Num (np_where (bool_decide (0 < Quantity (source r)))
                            (fdiv (Some (Total_Sales (source r)))
                                  (Some (Quantity (source r))))
                            None));
  _ ← setitem df "discount_from_rrp_pct"
        (λ r, Num (np_where (bool_decide (RRP (source r) ≠ None) &&
                             fgtb (RRP (source r)) (Some 0))
                            (fmul (fdiv (fsub (RRP (source r))
                                              (num "unit_price" r))
                                        (RRP (source r)))
                                  (Some (dec 100 1)))
                            None));
  valid ← getitem df
            (λ r, bool_decide (0 < Quantity (source r)) &&
                  bool_decide (num "unit_price" r ≠ None) &&
                  bool_decide (Supplier (source r) ≠ None));
  copy valid.

(** [self.df = self._prepare_data(df)] *)
Definition __init__ (df : handle) : St handle := _prepare_data df.

Definition priced (r : HRow) : PricingIndexAnalyzer.Priced :=
  {| PricingIndexAnalyzer.base := source r;
     PricingIndexAnalyzer.unit_price := num "unit_price" r;
     PricingIndexAnalyzer.discount_from_rrp_pct :=
       num "discount_from_rrp_pct" r |}.

(** The benchmark table is a [groupby] of [self.df]; it is not part of
    the model. *)
Definition calculate_category_avg_prices (self : handle) : St unit :=
  rows ← read self;
  mret tt.

Definition calculate_store_level_index (self : handle)
    (target_supplier : string) : St (list PricingIndexAnalyzer.Comparison) :=
  rows ← read self;
  mret (PricingIndexAnalyzer.calculate_store_level_index
          (map priced rows) target_supplier).

Definition calculate_overall_positioning (self : handle)
    (target_supplier : string) : St (result PricingIndexAnalyzer.Positioning) :=
  store_index ← calculate_store_level_index self target_supplier;
  rows ← read self;
  mret (PricingIndexAnalyzer.calculate_overall_positioning
          (map priced rows) target_supplier).

(** The comparison table is a [groupby] of the selected rows; it is not
    part of the model.  An empty [section] counts as none. *)
Definition compare_suppliers_by_category (self : handle) (category : string)
    (section : option string) : St unit :=
  matching ← getitem self
               (λ r, bool_decide (Sub_Department (source r) = category));
  df_filtered ← copy matching;
  df_filtered ←
    match section with
    | Some sec =>
        if bool_decide (sec = "") then mret df_filtered
        else getitem df_filtered
               (λ r, bool_decide (Section_ (source r) = sec))
    | None => mret df_filtered
    end;
  rows ← read df_filtered;
  mret tt.

Definition generate_bidco_pricing_insights (self : handle) : St unit :=
  overall ← calculate_overall_positioning self "BIDCO AFRICA LIMITED";
  store_index ← calculate_store_level_index self "BIDCO AFRICA LIMITED";
  mret tt.

Definition get_detailed_comparison (self : handle) (target_supplier : string)
    : St unit :=
  store_level ← calculate_store_level_index self target_supplier;
  overall ← calculate_overall_positioning self target_supplier;
  _ ← generate_bidco_pricing_insights self;
  mret tt.

Inductive method :=
  | CalculateCategoryAvgPrices
  | CalculateStoreLevelIndex (target_supplier : string)
  | CalculateOverallPositioning (target_supplier : string)
  | CompareSuppliersByCategory (category : string) (section : option string)
  | GenerateBidcoPricingInsights
  | GetDetailedComparison (target_supplier : string).

Definition call (self : handle) (m : method) : St unit :=
  match m with
  | CalculateCategoryAvgPrices => calculate_category_avg_prices self
  | CalculateStoreLevelIndex t => _ ← calculate_store_level_index self t; mret tt
  | CalculateOverallPositioning t =>
      _ ← calculate_overall_positioning self t; mret tt
  | CompareSuppliersByCategory c sec => compare_suppliers_by_category self c sec
  | GenerateBidcoPricingInsights => generate_bidco_pricing_insights self
  | GetDetailedComparison t => get_detailed_comparison self t
  end.

End PricingIndexAnalyzer.

End Stateful.

(** Calls in sequence, on the same engine. *)
Fixpoint calls {S M} (call : S → M → St unit) (self : S) (ms : list M)
    : St unit :=
  match ms with
  | [] => mret tt
  | m :: ms' => _ ← call self m; calls call self ms'
  end.

(** The life of an engine: it is constructed, then its methods are
    called; the engine is returned. *)
Definition run_engine {S M} (init : St S) (call : S → M → St unit)
    (ms : list M) : St S :=
  self ← init;
  _ ← calls call self ms;
  mret self.

(* ================================================================== *)
(** * The tables of the price-index engine *)

Module PricingIndexTables.
Import PricingIndexAnalyzer.

(** A row of the frame [calculate_category_avg_prices] returns. *)
Record CategoryAvg := {
  ca_sub_department : string;
  ca_section : string;
  ca_supplier : string;
  ca_avg_unit_price : fval;
  ca_avg_rrp : fval;
  ca_total_quantity : Qc;
  ca_total_sales : Qc
}.

Definition calculate_category_avg_prices (self : list Priced)
    : list CategoryAvg :=
  map (λ '(k, g),
         {| ca_sub_department := k.1;
            ca_section := (k.2).1;
            ca_supplier := (k.2).2;
            ca_avg_unit_price := fmean (map unit_price g);
            ca_avg_rrp := fmean (map (λ p, RRP (base p)) g);
            ca_total_quantity := Qcsum (map (λ p, Quantity (base p)) g);
            ca_total_sales := Qcsum (map (λ p, Total_Sales (base p)) g) |})
      (groupby (λ p, s ← Supplier (base p);
                     Some (Sub_Department (base p), (Section_ (base p), s)))
               self).

(** A row of the frame [compare_suppliers_by_category] returns. *)
Record SupplierComparison := {
  sc_supplier : string;
  sc_avg_unit_price : fval;
  sc_avg_rrp : fval;
  sc_total_quantity : Qc;
  sc_total_sales : Qc;
  sc_avg_discount_from_rrp : fval;
  sc_store_count : nat;
  quantity_share_pct : fval;
  value_share_pct : fval;
  price_rank : nat
}.

(** The aggregate of one supplier, before the shares and the rank. *)
Definition supplier_line (k : string) (g : list Priced) : SupplierComparison :=
  {| sc_supplier := k;
     sc_avg_unit_price := fmean (map unit_price g);
     sc_avg_rrp := fmean (map (λ p, RRP (base p)) g);
     sc_total_quantity := Qcsum (map (λ p, Quantity (base p)) g);
     sc_total_sales := Qcsum (map (λ p, Total_Sales (base p)) g);
     sc_avg_discount_from_rrp := fmean (map discount_from_rrp_pct g);
     sc_store_count := nunique (map (λ p, Store_Name (base p)) g);
     quantity_share_pct := None;
     value_share_pct := None;
     price_rank := 0 |}.

Definition set_shares (quantity_sum sales_sum : Qc) (r : SupplierComparison)
    : SupplierComparison :=
  {| sc_supplier := sc_supplier r;
     sc_avg_unit_price := sc_avg_unit_price r;
     sc_avg_rrp := sc_avg_rrp r;
     sc_total_quantity := sc_total_quantity r;
     sc_total_sales := sc_total_sales r;
     sc_avg_discount_from_rrp := sc_avg_discount_from_rrp r;
     sc_store_count := sc_store_count r;
     quantity_share_pct :=
       fmul (fdiv (Some (sc_total_quantity r)) (Some quantity_sum))
            (Some (dec 100 1));
     value_share_pct :=
       fmul (fdiv (Some (sc_total_sales r)) (Some sales_sum))
            (Some (dec 100 1));
     price_rank := price_rank r |}.

Definition set_rank (r : SupplierComparison) (n : nat) : SupplierComparison :=
  {| sc_supplier := sc_supplier r;
     sc_avg_unit_price := sc_avg_unit_price r;
     sc_avg_rrp := sc_avg_rrp r;
     sc_total_quantity := sc_total_quantity r;
     sc_total_sales := sc_total_sales r;
     sc_avg_discount_from_rrp := sc_avg_discount_from_rrp r;
     sc_store_count := sc_store_count r;
     quantity_share_pct := quantity_share_pct r;
     value_share_pct := value_share_pct r;
     price_rank := n |}.

(** [section] is optional: [None] and the empty string both mean the
    whole category ([if section:]). *)
Definition compare_suppliers_by_category (self : list Priced)
    (category : string) (section : option string)
    : list SupplierComparison :=
  let df_filtered :=
    filter (λ p, Sub_Department (base p) = category) self in
  let df_filtered :=
    match section with
    | Some sec =>
        if bool_decide (sec = "") then df_filtered
        else filter (λ p, Section_ (base p) = sec) df_filtered
    | None => df_filtered
    end in
  let supplier_comparison :=
    map (λ '(k, g), supplier_line k g)
        (groupby (λ p, Supplier (base p)) df_filtered) in
  let quantity_sum := Qcsum (map sc_total_quantity supplier_comparison) in
  let sales_sum := Qcsum (map sc_total_sales supplier_comparison) in
  let supplier_comparison :=
    map (set_shares quantity_sum sales_sum) supplier_comparison in
  let supplier_comparison :=
    merge_sort (on_rel fle_desc sc_avg_unit_price) supplier_comparison in
  zip_with set_rank supplier_comparison
           (seq 1 (length supplier_comparison)).

End PricingIndexTables.

(* ================================================================== *)
(** * The insights of the promotion engine *)

(** [f"{x:.1f}"]: one decimal, half to even on the exact value; the
    sign is that of the value, also when it rounds to zero. *)
Definition format_1f (x : fval) : string :=
  match x with
  | None => "nan"
  | Some q =>
      let c := round_half_even (Qmult (this q) (10 # 1)) in
      let a := Z.abs c in
      (if bool_decide (q < 0) then "-" else "") +:+
      pretty (a / 10)%Z +:+ "." +:+ pretty (a mod 10)%Z
  end.

(** [f"{x}"] of an optional string. *)
Definition format_str (x : option string) : string :=
  match x with
  | Some s => s
  | None => "None"
  end.

Module PromotionInsights.
Import PromotionAnalyzer.

(** A row of [category_breakdown]. *)
Record CategoryPerf := {
  cp_sub_department : string;
  cp_section : string;
  cp_on_promotion : bool;
  cp_Quantity : Qc;
  cp_Total_Sales : Qc;
  cp_discount_pct : fval
}.

(** A row of [top_promo_stores]. *)
Record StorePerf := {
  sp_store : string;
  promo_quantity : Qc;
  promo_sales : Qc;
  sku_count : nat;
  avg_discount : fval
}.

Record Insights := {
  bidco_kpis : Kpis;
  top_promo_stores : list StorePerf;
  category_breakdown : list CategoryPerf
}.

Section insights.
Variable str_contains : string → string → bool.

Definition get_bidco_insights (self : Self) : Insights :=
  let bidco_kpis := calculate_kpis str_contains self (Some "BIDCO") in
  let df_promo := detect_promotions self in
  let bidco_df :=
    filter (λ r, supplier_matches str_contains "BIDCO" r = true) df_promo in
  let category_perf :=
    map (λ '(k, g),
           {| cp_sub_department := k.1;
              cp_section := (k.2).1;
              cp_on_promotion := (k.2).2;
              cp_Quantity := Qcsum (map (λ r, Quantity (base (row r))) g);
              cp_Total_Sales :=
                Qcsum (map (λ r, Total_Sales (base (row r))) g);
              cp_discount_pct := fmean (map discount_pct g) |})
        (groupby (λ r, Some (Sub_Department (base (row r)),
                             (Section_ (base (row r)), on_promotion r)))
                 bidco_df) in
  let store_perf :=
    map (λ '(k, g),
           {| sp_store := k;
              promo_quantity := Qcsum (map (λ r, Quantity (base (row r))) g);
              promo_sales :=
                Qcsum (map (λ r, Total_Sales (base (row r))) g);
              sku_count := nunique (map (λ r, Item_Code (base (row r))) g);
              avg_discount := fmean (map discount_pct g) |})
        (groupby (λ r, Some (Store_Name (base (row r))))
                 (filter (λ r, on_promotion r = true) bidco_df)) in
  let store_perf := merge_sort (on_rel (flip Qcle) promo_sales) store_perf in
  {| bidco_kpis := bidco_kpis;
     top_promo_stores := take 10 store_perf;
     category_breakdown := category_perf |}.

(** The four sentences of [generate_commercial_insights]. *)
Definition uplift_line (supplier_filter : option string) (summary : Summary)
    : string :=
  "Promotions drive an average "
  +:+ format_1f (Some (avg_promo_uplift summary))
  +:+ "% quantity uplift for " +:+ format_str supplier_filter
  +:+ " SKUs, with an average discount depth of "
  +:+ format_1f (Some (avg_discount_depth summary)) +:+ "%.".

Definition coverage_line (summary : Summary) : string :=
  "Promo coverage is low at "
  +:+ format_1f (avg_promo_coverage summary)
  +:+ "% of stores on average. Expanding promotional execution to "
  +:+ "more stores could drive significant volume gains.".

Definition top_performer_line (top_sku : TopSku) : string :=
  "Top performer: '" +:+ t_Description top_sku +:+ "' delivers "
  +:+ format_1f (Some (t_quantity_uplift_pct top_sku))
  +:+ "% uplift with "
  +:+ format_1f (Some (t_promo_coverage_pct top_sku))
  +:+ "% store coverage at "
  +:+ format_1f (Some (t_avg_discount_pct_promo top_sku))
  +:+ "% discount.".

Definition opportunity_line (sku : TopSku) : string :=
  "Opportunity: '" +:+ t_Description sku +:+ "' shows "
  +:+ format_1f (Some (t_quantity_uplift_pct sku))
  +:+ "% uplift but only runs in "
  +:+ format_1f (Some (t_promo_coverage_pct sku))
  +:+ "% of stores. Scale this promo for higher ROI.".

Definition generate_commercial_insights (self : Self)
    (supplier_filter : option string) : list string :=
  let kpis := calculate_kpis str_contains self supplier_filter in
  let summary := summary kpis in
  let top_skus := top_performing_skus kpis in
  let insight1 :=
    if bool_decide (0 < avg_promo_uplift summary)
    then [uplift_line supplier_filter summary] else [] in
  let insight2 :=
    if fltb (avg_promo_coverage summary) (Some (dec 50 1))
    then [coverage_line summary] else [] in
  let insight3 :=
    match top_skus with
    | top_sku :: _ => [top_performer_line top_sku]
    | [] => []
    end in
  let high_uplift_low_coverage :=
    filter (λ sku, dec 50 1 < t_quantity_uplift_pct sku ∧
                   t_promo_coverage_pct sku < dec 30 1) top_skus in
  let insight4 :=
    match high_uplift_low_coverage with
    | sku :: _ => [opportunity_line sku]
    | [] => []
    end in
  insight1 ++ insight2 ++ insight3 ++ insight4.

End insights.

End PromotionInsights.

(* ================================================================== *)
(** * A literal matcher *)

(** [str.contains(pat, case=False)] for a pattern without regular
    expression metacharacters: [pat] occurs in the cell, letter case
    apart. *)
Definition lower_ascii (c : Ascii.ascii) : Ascii.ascii :=
  let n := Ascii.nat_of_ascii c in
  if bool_decide (65 ≤ n ≤ 90)%nat then Ascii.ascii_of_nat (n + 32) else c.

Fixpoint lower (s : string) : string :=
  match s with
  | EmptyString => EmptyString
  | String c s' => String (lower_ascii c) (lower s')
  end.

Fixpoint occurs_in (pat s : string) : bool :=
  String.prefix pat s ||
  match s with
  | EmptyString => false
  | String _ s' => occurs_in pat s'
  end.

Definition contains_nocase (pat s : string) : bool :=
  occurs_in (lower pat) (lower s).

(* ================================================================== *)
(** * Sample frames *)

(** A sale of the category FOODS / OILS. *)
Definition sale (store : string) (supplier : option string) (item : Z)
    (description : string) (day : Z) (quantity total_sales : Qc) (rrp : fval)
    : Row :=
  {| Store_Name := store; Supplier := supplier; Item_Code := item;
     Description := description; Sub_Department := "FOODS";
     Section_ := "OILS"; Date_Of_Sale := day; Quantity := quantity;
     Total_Sales := total_sales; RRP := rrp |}.

(** Two stores, two suppliers.  Item 1 sells in store S1 at 20% below
    its RRP on days 1 and 2 and at its RRP on day 3 (twice: the key
    (S1, 1, 3) is duplicated), and in store S2 at 20% below on one day.
    Item 2 sells once at exactly 10% below, and once without RRP.  The
    last row is a return with no supplier and no RRP. *)
Definition sample_df : DataFrame :=
  [ sale "S1" (Some "BIDCO AFRICA LIMITED") 1 "OIL 1L" 1
         (dec 2 1) (dec 16 1) (Some (dec 10 1));
    sale "S1" (Some "BIDCO AFRICA LIMITED") 1 "OIL 1L" 2
         (dec 3 1) (dec 24 1) (Some (dec 10 1));
    sale "S1" (Some "BIDCO AFRICA LIMITED") 1 "OIL 1L" 3
         (dec 1 1) (dec 10 1) (Some (dec 10 1));
    sale "S1" (Some "BIDCO AFRICA LIMITED") 1 "OIL 1L" 3
         (dec 1 1) (dec 10 1) (Some (dec 10 1));
    sale "S2" (Some "BIDCO AFRICA LIMITED") 1 "OIL 1L" 1
         (dec 2 1) (dec 16 1) (Some (dec 10 1));
    sale "S1" (Some "RIVAL LTD") 2 "OIL 2L" 1
         (dec 1 1) (dec 9 1) (Some (dec 10 1));
    sale "S1" (Some "RIVAL LTD") 2 "OIL 2L" 2
         (dec 4 1) (dec 40 1) None;
    sale "S2" None 3 "OIL 5L" 1
         (dec (-1) 1) (dec (-5) 1) None ].

(** A sample row: two units sold in store "S1" for 10, no RRP. *)
Definition row_no_rrp : Row :=
  {| Store_Name := "S1"; Supplier := Some "BIDCO AFRICA LIMITED";
     Item_Code := 1; Description := "OIL 1L"; Sub_Department := "FOODS";
     Section_ := "OILS"; Date_Of_Sale := 1;
     Quantity := dec 2 1; Total_Sales := dec 10 1; RRP := None |}.

(** The same sale a day later, with an RRP of 6. *)
Definition row_with_rrp : Row :=
  {| Store_Name := "S1"; Supplier := Some "BIDCO AFRICA LIMITED";
     Item_Code := 1; Description := "OIL 1L"; Sub_Department := "FOODS";
     Section_ := "OILS"; Date_Of_Sale := 2;
     Quantity := dec 2 1; Total_Sales := dec 10 1; RRP := Some (dec 6 1) |}.

(** The five sales of the target supplier in [sample_df]: no other
    supplier is left. *)
Definition bidco_only_df : DataFrame :=
  filter (λ r, Supplier r = Some PricingIndexAnalyzer.default_target_supplier) sample_df.



(** Nine sales of one store: two have no RRP, and two repeat the key
    of an earlier row.  In exact arithmetic the score is
    30 * (1 - 2/18) + 40 + 30 * (1 - 2/9) = 90. *)
Definition ninety_row (i : nat) : Row :=
  {| Store_Name := "S"; Supplier := Some "ACME";
     Item_Code := Z.of_nat (i `mod` 7); Description := "ITEM";
     Sub_Department := "FOODS"; Section_ := "OILS"; Date_Of_Sale := 1;
     Quantity := dec 1 1; Total_Sales := dec 1 1;
     RRP := if bool_decide (i < 2)%nat then None else Some (dec 1 1) |}.

Definition ninety_df : DataFrame := map ninety_row (seq 0 9).

(** Three sales of one item in one store, at 4%, 0% and 6% below an
    RRP of 10: none is a discount-day.  The amounts are the binary64
    numbers the decimals 9.6, 30.0 and 18.8 are read as. *)
Definition order_df : DataFrame :=
  [ sale "S1" (Some "BIDCO AFRICA LIMITED") 1 "OIL 1L" 1
         (dec 1 1) (Binary64.rnd64 (dec 96 10)) (Some (dec 10 1));
    sale "S1" (Some "BIDCO AFRICA LIMITED") 1 "OIL 1L" 2
         (dec 3 1) (Binary64.rnd64 (dec 30 1)) (Some (dec 10 1));
    sale "S1" (Some "BIDCO AFRICA LIMITED") 1 "OIL 1L" 3
         (dec 2 1) (Binary64.rnd64 (dec 188 10)) (Some (dec 10 1)) ].

(* ================================================================== *)
(** * Properties *)

(** ** Arithmetic on [Qc] *)

Lemma Qc_of_nat_this (n : nat) : this (Qc_of_nat n) = inject_Z (Z.of_nat n).
Proof. reflexivity. Qed.

Lemma Qc_of_nat_nonneg (n : nat) : 0 ≤ Qc_of_nat n.
Proof.
  unfold Qcle. rewrite Qc_of_nat_this. simpl.
  unfold Qle. simpl. lia.
Qed.

Lemma Qc_of_nat_pos (n : nat) : (0 < n)%nat → 0 < Qc_of_nat n.
Proof.
  intros Hn. unfold Qclt. rewrite Qc_of_nat_this. simpl.
  unfold Qlt. simpl. lia.
Qed.

Lemma Qc_of_nat_le (n m : nat) : (n ≤ m)%nat → Qc_of_nat n ≤ Qc_of_nat m.
Proof.
  intros Hn. unfold Qcle. rewrite !Qc_of_nat_this.
  unfold Qle. simpl. lia.
Qed.

Lemma Qc_not_le_lt (x y : Qc) : ¬ x ≤ y ↔ y < x.
Proof. split; [apply Qcnot_le_lt|apply Qclt_not_le]. Qed.

Lemma Qcmax_spec (a b : Qc) : a ≤ Qcmax a b ∧ b ≤ Qcmax a b ∧
  (Qcmax a b = a ∨ Qcmax a b = b).
Proof.
  unfold Qcmax. case_bool_decide as H.
  - repeat split; [done|apply Qcle_refl|by right].
  - apply Qc_not_le_lt in H. repeat split;
      [apply Qcle_refl|by apply Qclt_le_weak|by left].
Qed.

(** Order goals between rationals, settled over [Q]. *)
Ltac qc_order :=
  repeat (progress (unfold Qcle, Qclt, Qcplus, Qcminus, Qcopp, Qcmult, dec in *;
                    cbn [this Q2Qc] in *));
  rewrite ?Qred_correct in *; lra.

(** ** Rounding to binary64

    [rnd64] rounds to a nearest binary64 number: the result is within
    half a unit in the last place of the argument, a binary64 number
    is left as it is, and rounding is monotone. *)

Section binary64_facts.
Import Binary64.
Local Open Scope Q_scope.

Lemma round_half_even_floor (q : Q) :
  (Qfloor q <= round_half_even q <= Qfloor q + 1)%Z.
Proof.
  unfold round_half_even. cbn zeta.
  destruct (Qcompare _ _); [destruct (Z.even _)|..]; lia.
Qed.

Lemma round_half_even_le (q : Q) (K : Z) :
  q <= inject_Z K → (round_half_even q <= K)%Z.
Proof.
  intros Hq. pose proof (Qfloor_le q) as Hf.
  assert (Hle : (Qfloor q <= K)%Z).
  { rewrite Zle_Qle. lra. }
  destruct (Z.eq_dec (Qfloor q) K) as [Heq|Hne].
  - unfold round_half_even. cbn zeta.
    assert (Hr : q - inject_Z (Qfloor q) < 1 # 2) by (rewrite Heq; lra).
    rewrite Qlt_alt in Hr. rewrite Hr. lia.
  - pose proof (round_half_even_floor q). lia.
Qed.

Lemma round_half_even_ge (q : Q) (K : Z) :
  inject_Z K <= q → (K <= round_half_even q)%Z.
Proof.
  intros Hq. pose proof (round_half_even_floor q).
  assert (K <= Qfloor q)%Z; [|lia].
  rewrite <- (Qfloor_Z K). by apply Qfloor_resp_le.
Qed.

Lemma round_half_even_Z (K : Z) : round_half_even (inject_Z K) = K.
Proof.
  apply Z.le_antisymm.
  - apply round_half_even_le. lra.
  - apply round_half_even_ge. lra.
Qed.

Lemma round_half_even_mono (p q : Q) :
  p <= q → (round_half_even p <= round_half_even q)%Z.
Proof.
  intros Hpq. pose proof (Qfloor_resp_le _ _ Hpq) as Hf.
  destruct (Z.eq_dec (Qfloor p) (Qfloor q)) as [Heq|Hne].
  - unfold round_half_even. cbn zeta. rewrite Heq.
    destruct (Qcompare (p - inject_Z (Qfloor q)) (1 # 2)) eqn:Hp;
      destruct (Qcompare (q - inject_Z (Qfloor q)) (1 # 2)) eqn:Hq;
      try (destruct (Z.even (Qfloor q))); try lia; exfalso;
      repeat match goal with
      | H : (_ ?= _) = Eq |- _ => apply Qeq_alt in H
      | H : (_ ?= _) = Lt |- _ => apply Qlt_alt in H
      | H : (_ ?= _) = Gt |- _ => apply Qgt_alt in H
      end; lra.
  - pose proof (round_half_even_floor p). pose proof (round_half_even_floor q).
    lia.
Qed.

Lemma pow2_pos (k : Z) : 0 < pow2 k.
Proof. apply Qpower_0_lt. lra. Qed.

Lemma pow2_plus (a b : Z) : pow2 (a + b) == pow2 a * pow2 b.
Proof. apply Qpower_plus. lra. Qed.

Lemma pow2_le (a b : Z) : (a <= b)%Z → pow2 a <= pow2 b.
Proof. intros. apply Qpower_le_compat_l; [done|lra]. Qed.

Lemma pow2_lt (a b : Z) : (a < b)%Z → pow2 a < pow2 b.
Proof. intros. apply Qpower_lt_compat_l; [done|lra]. Qed.

Lemma pow2_lt_inv (a b : Z) : pow2 a < pow2 b → (a < b)%Z.
Proof. intros. eapply Qpower_lt_compat_l_inv; [done|lra]. Qed.

Lemma pow2_Z (k : Z) : (0 <= k)%Z → pow2 k == inject_Z (2 ^ k).
Proof. intros. symmetry. by apply Zpower_Qpower. Qed.

(** The multiples of [2^k]. *)
Definition multiple (k : Z) (c : Q) : Prop :=
  ∃ M : Z, c == inject_Z M * pow2 k.

Lemma multiple_le (k k' : Z) (c : Q) :
  (k <= k')%Z → multiple k' c → multiple k c.
Proof.
  intros Hk [M HM]. exists (M * 2 ^ (k' - k))%Z.
  rewrite inject_Z_mult, <- pow2_Z by lia. rewrite HM.
  replace k' with ((k' - k) + k)%Z at 1 by lia. rewrite pow2_plus. ring.
Qed.

Lemma multiple_0 (k : Z) : multiple k 0.
Proof. exists 0%Z. ring. Qed.

Lemma multiple_opp (k : Z) (c : Q) : multiple k c → multiple k (- c).
Proof.
  intros [M HM]. exists (- M)%Z. rewrite inject_Z_opp, HM. ring.
Qed.

Lemma multiple_pow2 (k e : Z) : (k <= e)%Z → multiple k (pow2 e).
Proof.
  intros. apply (multiple_le k e); [done|]. exists 1%Z. ring.
Qed.

Lemma round_at_le (k : Z) (x c : Q) :
  multiple k c → x <= c → round_at k x <= c.
Proof.
  intros [M HM] Hx. pose proof (pow2_pos k) as Hp.
  unfold round_at. rewrite HM.
  apply Qmult_le_compat_r; [|lra].
  rewrite <- Zle_Qle. apply round_half_even_le.
  apply Qle_shift_div_r; [done|]. by rewrite <- HM.
Qed.

Lemma round_at_ge (k : Z) (x c : Q) :
  multiple k c → c <= x → c <= round_at k x.
Proof.
  intros [M HM] Hx. pose proof (pow2_pos k) as Hp.
  unfold round_at. rewrite HM.
  apply Qmult_le_compat_r; [|lra].
  rewrite <- Zle_Qle. apply round_half_even_ge.
  apply Qle_shift_div_l; [done|]. by rewrite <- HM.
Qed.

Lemma round_at_multiple (k : Z) (c : Q) : multiple k c → round_at k c == c.
Proof.
  intros Hc. apply Qle_antisym.
  - apply round_at_le; [done|lra].
  - apply round_at_ge; [done|lra].
Qed.

Lemma round_at_mono (k : Z) (x y : Q) :
  x <= y → round_at k x <= round_at k y.
Proof.
  intros Hxy. pose proof (pow2_pos k) as Hp. unfold round_at.
  apply Qmult_le_compat_r; [|lra].
  rewrite <- Zle_Qle. apply round_half_even_mono.
  apply Qmult_le_compat_r; [done|]. apply Qinv_le_0_compat. lra.
Qed.


Lemma pow2_succ (k : Z) : pow2 (k + 1) == 2 * pow2 k.
Proof. rewrite pow2_plus. unfold pow2 at 2. simpl. ring. Qed.

Lemma pow2_log2 (n : Z) :
  (0 < n)%Z →
  pow2 (Z.log2 n) <= inject_Z n ∧ inject_Z n < 2 * pow2 (Z.log2 n).
Proof.
  intros Hn. destruct (Z.log2_spec n Hn) as [Hlo Hhi].
  pose proof (Z.log2_nonneg n) as Hnn.
  split.
  - rewrite pow2_Z by lia. by rewrite <- Zle_Qle.
  - rewrite <- pow2_succ, pow2_Z by lia. unfold Qlt.
    cbn [inject_Z Qnum Qden]. rewrite !Z.mul_1_r.
    by replace (Z.log2 n + 1)%Z with (Z.succ (Z.log2 n)) by lia.
Qed.

Lemma ilog2_spec (x : Q) :
  0 < x → pow2 (ilog2 x) <= x ∧ x < pow2 (ilog2 x + 1).
Proof.
  intros Hx. destruct x as [n d].
  assert (Hn : (0 < n)%Z).
  { unfold Qlt in Hx. simpl in Hx. lia. }
  destruct (pow2_log2 n Hn) as [Hn1 Hn2].
  destruct (pow2_log2 (Zpos d) eq_refl) as [Hd1 Hd2].
  pose proof (pow2_pos (Z.log2 n)) as Hpa.
  pose proof (pow2_pos (Z.log2 (Zpos d))) as Hpb.
  set (e := (Z.log2 n - Z.log2 (Zpos d))%Z).
  pose proof (pow2_pos e) as Hpe.
  assert (He : pow2 e * pow2 (Z.log2 (Zpos d)) == pow2 (Z.log2 n)).
  { rewrite <- pow2_plus. unfold e. by replace
      (Z.log2 n - Z.log2 (Z.pos d) + Z.log2 (Z.pos d))%Z with (Z.log2 n)
      by lia. }
  assert (Hxd : (n # d) * inject_Z (Zpos d) == inject_Z n).
  { rewrite (Qmake_Qdiv n d). field. unfold Qeq. simpl. lia. }
  assert (Hd0 : 0 < inject_Z (Zpos d)) by (unfold Qlt; simpl; lia).
  assert (Hlo : pow2 e < 2 * (n # d)).
  { apply Qnot_le_lt. intros Hc.
    assert (2 * (n # d) * pow2 (Z.log2 (Zpos d))
            <= pow2 e * pow2 (Z.log2 (Zpos d)))
      by (apply Qmult_le_compat_r; lra).
    assert ((n # d) * inject_Z (Zpos d)
            < (n # d) * (2 * pow2 (Z.log2 (Zpos d))))
      by (apply Qmult_lt_l; lra).
    lra. }
  assert (Hhi : (n # d) < 2 * pow2 e).
  { apply Qnot_le_lt. intros Hc.
    assert (2 * pow2 e * pow2 (Z.log2 (Zpos d))
            <= (n # d) * pow2 (Z.log2 (Zpos d)))
      by (apply Qmult_le_compat_r; lra).
    assert ((n # d) * pow2 (Z.log2 (Zpos d))
            <= (n # d) * inject_Z (Zpos d))
      by (apply Qmult_le_l; lra).
    lra. }
  unfold ilog2. cbn [Qnum Qden]. fold e.
  destruct (Qle_bool (pow2 e) (n # d)) eqn:Ht.
  - apply Qle_bool_iff in Ht. rewrite pow2_succ. split; lra.
  - assert (Hlt : (n # d) < pow2 e).
    { apply Qnot_le_lt. intros Hc. apply Qle_bool_iff in Hc. congruence. }
    replace (e - 1 + 1)%Z with e by lia.
    assert (pow2 e == 2 * pow2 (e - 1)).
    { rewrite <- pow2_succ. by replace (e - 1 + 1)%Z with e by lia. }
    split; lra.
Qed.

Lemma ilog2_mono (x y : Q) : 0 < x → x <= y → (ilog2 x <= ilog2 y)%Z.
Proof.
  intros Hx Hxy. destruct (ilog2_spec x Hx) as [Hx1 _].
  destruct (ilog2_spec y) as [_ Hy2]; [lra|].
  assert (ilog2 x < ilog2 y + 1)%Z; [|lia].
  apply pow2_lt_inv. lra.
Qed.

Lemma ilog2_lt (x : Q) (e : Z) : 0 < x → x < pow2 e → (ilog2 x < e)%Z.
Proof.
  intros Hx Hxe. destruct (ilog2_spec x Hx) as [Hx1 _].
  apply pow2_lt_inv. lra.
Qed.

Lemma ulp_exp_opp (x : Q) : ulp_exp (- x) = ulp_exp x.
Proof.
  unfold ulp_exp. f_equal. f_equal.
  unfold ilog2. destruct x as [n d]. unfold Qabs, Qopp. cbn [Qnum Qden].
  by rewrite Z.abs_opp.
Qed.

Lemma ulp_exp_pos (x : Q) :
  0 < x → ulp_exp x = Z.max (ilog2 x - 52) (-1074).
Proof.
  intros Hx. unfold ulp_exp. do 2 f_equal.
  destruct x as [n d]. unfold Qabs, ilog2. cbn [Qnum Qden].
  assert (0 < n)%Z by (unfold Qlt in Hx; simpl in Hx; lia).
  rewrite Z.abs_eq by lia. reflexivity.
Qed.

(** Rounding is monotone on the positive numbers. *)
Lemma round_Q_mono_pos (x y : Q) :
  0 < x → x <= y → round_Q x <= round_Q y.
Proof.
  intros Hx Hxy. unfold round_Q.
  rewrite !ulp_exp_pos by lra.
  pose proof (ilog2_mono x y Hx Hxy) as He.
  destruct (ilog2_spec x Hx) as [Hx1 Hx2].
  destruct (ilog2_spec y) as [Hy1 Hy2]; [lra|].
  destruct (Z.eq_dec (Z.max (ilog2 x - 52) (-1074))
                     (Z.max (ilog2 y - 52) (-1074))) as [Heq|Hne].
  - rewrite Heq. by apply round_at_mono.
  - assert (Hk : (ilog2 x < ilog2 y ∧ -1074 < ilog2 y - 52)%Z) by lia.
    destruct Hk as [Hlt Hbig].
    rewrite (Z.max_l (ilog2 y - 52)) by lia.
    apply Qle_trans with (pow2 (ilog2 y)).
    + apply round_at_le; [apply multiple_pow2; lia|].
      apply Qle_trans with (pow2 (ilog2 x + 1)); [lra|].
      apply pow2_le. lia.
    + apply round_at_ge; [apply multiple_pow2; lia|done].
Qed.

(** ... and on the negative ones. *)
Lemma round_Q_mono_neg (x y : Q) :
  y < 0 → x <= y → round_Q x <= round_Q y.
Proof.
  intros Hy Hxy. unfold round_Q.
  rewrite <- (ulp_exp_opp x), <- (ulp_exp_opp y), !ulp_exp_pos by lra.
  assert (Hx' : 0 < - x) by lra. assert (Hy' : 0 < - y) by lra.
  assert (He : (ilog2 (- y) <= ilog2 (- x))%Z)
    by (apply ilog2_mono; lra).
  destruct (ilog2_spec (- x) Hx') as [Hx1 Hx2].
  destruct (ilog2_spec (- y) Hy') as [Hy1 Hy2].
  destruct (Z.eq_dec (Z.max (ilog2 (- x) - 52) (-1074))
                     (Z.max (ilog2 (- y) - 52) (-1074))) as [Heq|Hne].
  - rewrite Heq. by apply round_at_mono.
  - assert (Hk : (ilog2 (- y) < ilog2 (- x) ∧ -1074 < ilog2 (- x) - 52)%Z)
      by lia.
    destruct Hk as [Hlt Hbig].
    rewrite (Z.max_l (ilog2 (- x) - 52)) by lia.
    apply Qle_trans with (- pow2 (ilog2 (- x))).
    + apply round_at_le; [apply multiple_opp, multiple_pow2; lia|lra].
    + apply round_at_ge; [apply multiple_opp, multiple_pow2; lia|].
      assert (pow2 (ilog2 (- y) + 1) <= pow2 (ilog2 (- x)))
        by (apply pow2_le; lia).
      lra.
Qed.

Lemma round_Q_nonneg (x : Q) : 0 <= x → 0 <= round_Q x.
Proof. intros. apply round_at_ge; [apply multiple_0|done]. Qed.

Lemma round_Q_nonpos (x : Q) : x <= 0 → round_Q x <= 0.
Proof. intros. apply round_at_le; [apply multiple_0|done]. Qed.

(** Rounding to binary64 is monotone. *)
Lemma round_Q_mono (x y : Q) : x <= y → round_Q x <= round_Q y.
Proof.
  intros Hxy. destruct (Qlt_le_dec 0 x) as [Hx|Hx].
  - by apply round_Q_mono_pos.
  - destruct (Qlt_le_dec y 0) as [Hy|Hy].
    + by apply round_Q_mono_neg.
    + apply Qle_trans with 0;
        [by apply round_Q_nonpos|by apply round_Q_nonneg].
Qed.

(** A number [M * 2^k] with [|M| < 2^53] and [k] not below the
    exponent of the smallest subnormal is a binary64 number: rounding
    leaves it as it is. *)
Lemma round_Q_representable (c : Q) (M k : Z) :
  c == inject_Z M * pow2 k → (Z.abs M < 2 ^ 53)%Z → (-1074 <= k)%Z →
  round_Q c == c.
Proof.
  intros Hc HM Hk. unfold round_Q. apply round_at_multiple.
  pose proof (pow2_pos k) as Hp.
  destruct (Z.eq_dec M 0%Z) as [->|HM0].
  { exists 0%Z. etransitivity; [exact Hc|ring]. }
  apply (multiple_le _ k); [|by exists M].
  unfold ulp_exp. apply Z.max_lub; [|done].
  assert (Habs : Qabs c == inject_Z (Z.abs M) * pow2 k).
  { rewrite Hc, Qabs_Qmult, (Qabs_pos (pow2 k)) by lra.
    apply Qmult_comp; [|reflexivity].
    unfold Qabs, inject_Z. reflexivity. }
  assert (H1 : 1 <= inject_Z (Z.abs M))
    by (unfold Qle; cbn [inject_Z Qnum Qden]; lia).
  assert (H2 : inject_Z (Z.abs M) < inject_Z (2 ^ 53))
    by (unfold Qlt; cbn [inject_Z Qnum Qden]; lia).
  rewrite <- pow2_Z in H2 by lia.
  assert (ilog2 (Qabs c) < 53 + k)%Z; [|lia].
  apply ilog2_lt.
  - rewrite Habs. apply Qmult_lt_0_compat; lra.
  - rewrite Habs, pow2_plus. apply Qmult_lt_r; lra.
Qed.


(** The rounded value is a nearest multiple of the unit in the last
    place: it is off by at most half a unit. *)
Lemma round_half_even_error (q : Q) :
  - (1 # 2) <= inject_Z (round_half_even q) - q <= 1 # 2.
Proof.
  pose proof (Qfloor_le q) as Hlo. pose proof (Qlt_floor q) as Hhi.
  rewrite inject_Z_plus in Hhi. unfold round_half_even. cbn zeta.
  destruct (Qcompare (q - inject_Z (Qfloor q)) (1 # 2)) eqn:Hc;
    [apply Qeq_alt in Hc; destruct (Z.even (Qfloor q))
    |apply Qlt_alt in Hc|apply Qgt_alt in Hc];
    rewrite ?inject_Z_plus; change (inject_Z 1) with 1 in *; split; lra.
Qed.

Lemma round_Q_error (x : Q) :
  Qabs (round_Q x - x) <= pow2 (ulp_exp x) * (1 # 2).
Proof.
  unfold round_Q, round_at. set (k := ulp_exp x).
  pose proof (pow2_pos k) as Hp.
  pose proof (round_half_even_error (x / pow2 k)) as [Hlo Hhi].
  set (m := inject_Z (round_half_even (x / pow2 k))) in *.
  assert (Hx : x == (x / pow2 k) * pow2 k) by (field; lra).
  assert (Hd : m * pow2 k - x == (m - x / pow2 k) * pow2 k)
    by (field; lra).
  rewrite Hd, Qabs_Qmult, (Qabs_pos (pow2 k)), Qmult_comm by lra.
  apply Qmult_le_l; [done|]. apply Qabs_Qle_condition. split; lra.
Qed.

End binary64_facts.

Section rnd64_facts.
Import Binary64.

Lemma rnd64_mono (x y : Qc) : x ≤ y → rnd64 x ≤ rnd64 y.
Proof.
  intros Hxy. unfold rnd64, Qcle. cbn [this Q2Qc].
  rewrite !Qred_correct. by apply round_Q_mono.
Qed.

(** The integers below [2^53] are binary64 numbers. *)
Lemma rnd64_Z (M : Z) : (Z.abs M < 2 ^ 53)%Z → rnd64 (Qc_of_Z M) = Qc_of_Z M.
Proof.
  intros HM. apply Qc_is_canon. unfold rnd64. cbn [this Q2Qc Qc_of_Z].
  etransitivity; [apply Qred_correct|].
  apply (round_Q_representable _ M 0); [|done|lia].
  unfold pow2. simpl. ring.
Qed.

Lemma rnd64_nonneg (x : Qc) : 0 ≤ x → 0 ≤ rnd64 x.
Proof.
  intros Hx. unfold rnd64, Qcle. cbn [this Q2Qc]. rewrite !Qred_correct.
  by apply round_Q_nonneg.
Qed.

Lemma rnd64_le_Z (x : Qc) (M : Z) :
  (Z.abs M < 2 ^ 53)%Z → x ≤ Qc_of_Z M → rnd64 x ≤ Qc_of_Z M.
Proof. intros HM Hx. rewrite <- (rnd64_Z M HM). by apply rnd64_mono. Qed.

Lemma rnd64_ge_Z (x : Qc) (M : Z) :
  (Z.abs M < 2 ^ 53)%Z → Qc_of_Z M ≤ x → Qc_of_Z M ≤ rnd64 x.
Proof. intros HM Hx. rewrite <- (rnd64_Z M HM). by apply rnd64_mono. Qed.

End rnd64_facts.

(** ** Price positioning bands *)

Section positioning.
Import PricingIndexAnalyzer.

Lemma categorize_positioning_cases (x : Qc) :
  (dec 110 1 ≤ x ∧ _categorize_positioning (Some x) = "Premium") ∨
  (dec 105 1 ≤ x < dec 110 1 ∧
   _categorize_positioning (Some x) = "Slight Premium") ∨
  (dec 95 1 ≤ x < dec 105 1 ∧
   _categorize_positioning (Some x) = "At Market") ∨
  (dec 90 1 ≤ x < dec 95 1 ∧
   _categorize_positioning (Some x) = "Slight Discount") ∨
  (x < dec 90 1 ∧ _categorize_positioning (Some x) = "Discount").
Proof.
  simpl. repeat case_bool_decide;
    repeat match goal with
           | H : ¬ _ ≤ _ |- _ => apply Qc_not_le_lt in H
           end; tauto.
Qed.

(** C5. [_categorize_positioning] gives a label to every index: an
    undefined index is "No Competition"; a defined one falls in the
    first band, from the top, whose lower bound it reaches, so that
    110, 105, 95 and 90 open the bands "Premium", "Slight Premium",
    "At Market" and "Slight Discount", and everything below 90 is
    "Discount". *)
Theorem categorize_positioning_bands :
  _categorize_positioning None = "No Competition" ∧
  (∀ x, _categorize_positioning (Some x) =
        "Premium" ↔ dec 110 1 ≤ x) ∧
  (∀ x, _categorize_positioning (Some x) =
        "Slight Premium" ↔ dec 105 1 ≤ x < dec 110 1) ∧
  (∀ x, _categorize_positioning (Some x) =
        "At Market" ↔ dec 95 1 ≤ x < dec 105 1) ∧
  (∀ x, _categorize_positioning (Some x) =
        "Slight Discount" ↔ dec 90 1 ≤ x < dec 95 1) ∧
  (∀ x, _categorize_positioning (Some x) = "Discount" ↔ x < dec 90 1) ∧
  _categorize_positioning (Some (dec 110 1)) = "Premium" ∧
  _categorize_positioning (Some (dec 105 1)) = "Slight Premium" ∧
  _categorize_positioning (Some (dec 95 1)) = "At Market" ∧
  _categorize_positioning (Some (dec 90 1)) = "Slight Discount" ∧
  (∀ i, _categorize_positioning i ∈
        ["No Competition"; "Premium"; "Slight Premium"; "At Market";
         "Slight Discount"; "Discount"]).
Proof.
  assert (Hiff : ∀ (x : Qc) (l : string) (P : Prop),
            (P → _categorize_positioning (Some x) = l) →
            (_categorize_positioning (Some x) = l → P) →
            _categorize_positioning (Some x) = l ↔ P) by (intros; tauto).
  split; [done|].
  do 5 (split; [intros x; apply Hiff;
    destruct (categorize_positioning_cases x)
      as [[? ->]|[[? ->]|[[? ->]|[[? ->]|[? ->]]]]];
    try done; intros; exfalso; qc_order|]).
  do 4 (split; [by vm_compute|]).
  intros [x|]; [|simpl; rewrite !elem_of_cons; tauto].
  destruct (categorize_positioning_cases x)
    as [[? ->]|[[? ->]|[[? ->]|[[? ->]|[? ->]]]]];
    rewrite !elem_of_cons; tauto.
Qed.

End positioning.

(** ** Rows without a recommended retail price *)

(** A row lacks a usable RRP when the column is null or not positive. *)
Definition lacks_rrp (r : Row) : Prop :=
  match RRP r with
  | None => True
  | Some x => x ≤ 0
  end.

Definition has_rrp (r : Row) : Prop := ∃ x, RRP r = Some x ∧ 0 < x.

Lemma lacks_rrp_not_has (r : Row) : lacks_rrp r ↔ ¬ has_rrp r.
Proof.
  unfold lacks_rrp, has_rrp. destruct (RRP r) as [x|]; split.
  - intros Hx (y & [= <-] & Hy). by apply (Qclt_not_le 0 x).
  - intros H. apply Qcnot_lt_le. intros Hx. apply H. by exists x.
  - intros _ (y & [=] & _).
  - done.
Qed.

Lemma fgtb_Some_0 (x : fval) : fgtb x (Some 0) = true ↔ ∃ y, x = Some y ∧ 0 < y.
Proof.
  destruct x as [y|]; simpl.
  - rewrite bool_decide_eq_true. split; [by exists y|].
    by intros (z & [= <-] & Hz).
  - split; [done|]. by intros (z & [=] & _).
Qed.


(** C1, as stated, fails on the price-index engine: its prepared frame
    keeps a row whose RRP is null. *)
Lemma pricing_prepared_keeps_null_rrp :
  ∃ p, p ∈ PricingIndexAnalyzer._prepare_data [row_no_rrp] ∧
       RRP (PricingIndexAnalyzer.base p) = None.
Proof. eexists. split; [by vm_compute; left|reflexivity]. Qed.

(** C1, amended.  The promotion engine's prepared frame holds no row
    whose RRP is null or not positive, and every row it holds gets a
    defined [discount_pct].  The price-index engine does not filter on
    RRP: it keeps every row with a positive quantity and a supplier
    (with or without an RRP), and a kept row that lacks an RRP has an
    undefined [discount_from_rrp_pct].  The data-quality engine keeps
    every row. *)
Theorem rows_without_rrp (df : DataFrame) :
  (∀ p, p ∈ PromotionAnalyzer._prepare_data df →
        has_rrp (PromotionAnalyzer.base p) ∧
        is_Some (PromotionAnalyzer.discount_of p)) ∧
  (∀ r, r ∈ df → lacks_rrp r →
        ∀ p, p ∈ PromotionAnalyzer._prepare_data df →
             PromotionAnalyzer.base p ≠ r) ∧
  (∀ r, r ∈ df →
        (∃ p, p ∈ PricingIndexAnalyzer._prepare_data df ∧
              PricingIndexAnalyzer.base p = r) ↔
        0 < Quantity r ∧ Supplier r ≠ None) ∧
  (∀ p, p ∈ PricingIndexAnalyzer._prepare_data df →
        lacks_rrp (PricingIndexAnalyzer.base p) →
        PricingIndexAnalyzer.discount_from_rrp_pct p = None) ∧
  DataQualityChecker.__init__ df = df.
Proof.
  assert (Hprom : ∀ p, p ∈ PromotionAnalyzer._prepare_data df →
            has_rrp (PromotionAnalyzer.base p) ∧
            is_Some (PromotionAnalyzer.discount_of p)).
  { intros p. unfold PromotionAnalyzer._prepare_data.
    rewrite list_elem_of_filter, list_elem_of_fmap.
    intros ((Hq & _ & Hr & Hu) & r & -> & Hin). simpl in *.
    apply fgtb_Some_0 in Hr as (x & Hx & Hpos). split; [by exists x|].
    unfold PromotionAnalyzer.discount_of. simpl. rewrite Hx.
    rewrite bool_decide_eq_true_2 by done. unfold np_where, fdiv. simpl.
    rewrite !bool_decide_eq_false_2; [by eexists|..].
    - intros ->. by apply (Qclt_not_eq 0 0).
    - intros E. rewrite E in Hq. by apply (Qclt_not_eq 0 0). }
  split; [done|]. split; [|split; [|split; [|done]]].
  - intros r _ Hlack p Hp <-. apply lacks_rrp_not_has in Hlack.
    by destruct (Hprom p Hp).
  - intros r Hin. unfold PricingIndexAnalyzer._prepare_data. split.
    + intros (p & Hp & <-). revert Hp.
      rewrite list_elem_of_filter. tauto.
    + intros [Hq Hs].
      refine (ex_intro _ (PricingIndexAnalyzer.Build_Priced r _ _) _).
      split; [|reflexivity].
      rewrite list_elem_of_filter, list_elem_of_fmap. split.
      2: { exists r. split; [reflexivity|done]. }
      simpl. split; [done|]. split; [|done].
      rewrite bool_decide_eq_true_2 by done. unfold np_where, fdiv.
      rewrite bool_decide_eq_false_2; [done|].
      intros E. rewrite E in Hq. by apply (Qclt_not_eq 0 0).
  - intros p. unfold PricingIndexAnalyzer._prepare_data.
    rewrite list_elem_of_filter, list_elem_of_fmap.
    intros (_ & r & -> & _). simpl. unfold lacks_rrp.
    destruct (RRP r) as [x|] eqn:Hx; simpl; [|done].
    intros Hle. rewrite (bool_decide_eq_false_2 (0 < x)); [done|].
    by apply Qcle_not_lt.
Qed.


(** The amended C1 at a two-row frame: the row without RRP is dropped
    by the promotion engine and kept by the price-index engine. *)
Lemma rows_without_rrp_witness :
  (∀ p, p ∈ PromotionAnalyzer._prepare_data [row_no_rrp; row_with_rrp] →
        PromotionAnalyzer.base p ≠ row_no_rrp) ∧
  (∃ p, p ∈ PricingIndexAnalyzer._prepare_data [row_no_rrp; row_with_rrp] ∧
        PricingIndexAnalyzer.base p = row_no_rrp).
Proof.
  pose proof (rows_without_rrp [row_no_rrp; row_with_rrp])
    as (_ & H2 & H3 & _).
  split.
  - apply (H2 row_no_rrp); [by left|exact I].
  - apply (H3 row_no_rrp); [by left|]. by vm_compute.
Defined.

(** ** [unique], [duplicated] and sorting *)

Section unique.
Context `{EqDecision K}.
Implicit Types l seen : list K.

Lemma elem_of_unique_from seen l x :
  x ∈ unique_from seen l ↔ x ∈ l ∧ x ∉ seen.
Proof.
  revert seen. induction l as [|y l IH]; intros seen; simpl.
  - rewrite elem_of_nil. tauto.
  - case_bool_decide as Hy.
    + rewrite IH, elem_of_cons. split; [tauto|].
      intros [[->|?] ?]; tauto.
    + rewrite !elem_of_cons, IH, elem_of_cons.
      destruct (decide (x = y)) as [->|]; tauto.
Qed.

Lemma elem_of_unique l x : x ∈ unique l ↔ x ∈ l.
Proof.
  unfold unique. rewrite elem_of_unique_from, elem_of_nil. tauto.
Qed.

Lemma NoDup_unique_from seen l : NoDup (unique_from seen l).
Proof.
  revert seen. induction l as [|y l IH]; intros seen; simpl.
  - constructor.
  - case_bool_decide; [apply IH|]. constructor; [|apply IH].
    rewrite elem_of_unique_from, elem_of_cons. tauto.
Qed.

Lemma NoDup_unique l : NoDup (unique l).
Proof. apply NoDup_unique_from. Qed.

Lemma unique_Permutation l1 l2 : l1 ≡ₚ l2 → unique l1 ≡ₚ unique l2.
Proof.
  intros Hp. apply NoDup_Permutation; try apply NoDup_unique.
  intros x. by rewrite !elem_of_unique, Hp.
Qed.

Lemma nunique_le_length l : (nunique l ≤ length l)%nat.
Proof.
  unfold nunique, unique. generalize (@nil K).
  induction l as [|y l IH]; intros seen; simpl; [lia|].
  case_bool_decide; simpl; [specialize (IH seen)|specialize (IH (y :: seen))];
    lia.
Qed.

Lemma nunique_mono l1 l2 : l1 ⊆ l2 → (nunique l1 ≤ nunique l2)%nat.
Proof.
  intros Hsub. unfold nunique. apply submseteq_length.
  apply NoDup_submseteq; [apply NoDup_unique|].
  intros x. rewrite !elem_of_unique. apply Hsub.
Qed.

Lemma nunique_pos l : l ≠ [] → (0 < nunique l)%nat.
Proof.
  destruct l as [|x l]; [done|]. intros _. unfold nunique, unique. simpl.
  lia.
Qed.

End unique.

Section sorting.
Context `{KeyOrder K}.

Lemma sort_keys_Permutation (l : list K) : sort_keys l ≡ₚ l.
Proof. apply merge_sort_Permutation. Qed.

Lemma elem_of_sort_keys (l : list K) x : x ∈ sort_keys l ↔ x ∈ l.
Proof. by rewrite sort_keys_Permutation. Qed.

(** The sorted list of keys depends on the keys only, not on the
    order in which they come. *)
Lemma sort_keys_perm (l1 l2 : list K) :
  l1 ≡ₚ l2 → sort_keys l1 = sort_keys l2.
Proof.
  intros Hp. apply (Sorted_unique key_le).
  - apply Sorted_merge_sort; apply _.
  - apply Sorted_merge_sort; apply _.
  - by rewrite !sort_keys_Permutation.
Qed.

Lemma NoDup_sort_keys (l : list K) : NoDup l → NoDup (sort_keys l).
Proof. intros. by rewrite sort_keys_Permutation. Qed.

End sorting.

Section groupby.
Context `{EqDecision K, KeyOrder K} {A : Type}.
Implicit Types (key : A → option K) (df : list A).

Lemma elem_of_group_keys key df k :
  k ∈ group_keys key df ↔ ∃ r, r ∈ df ∧ key r = Some k.
Proof.
  unfold group_keys.
  by rewrite elem_of_sort_keys, elem_of_unique, list_elem_of_omap.
Qed.

Lemma NoDup_group_keys key df : NoDup (group_keys key df).
Proof. apply NoDup_sort_keys, NoDup_unique. Qed.

Lemma length_groupby key df : length (groupby key df) = nunique (omap key df).
Proof.
  unfold groupby, group_keys, nunique. rewrite length_map.
  apply Permutation_length, sort_keys_Permutation.
Qed.

(** An aggregation over the groups, as a map over the group keys. *)
Lemma groupby_agg {B} (h : K → list A → B) key df :
  map (λ kg, h kg.1 kg.2) (groupby key df) =
  map (λ k, h k (filter (λ r, key r = Some k) df)) (group_keys key df).
Proof. unfold groupby. by rewrite <- list_fmap_compose. Qed.

(** The groups depend on the rows only, not on their order, as long as
    what is read from a group does not. *)
Lemma group_keys_perm key df df' :
  df ≡ₚ df' → group_keys key df = group_keys key df'.
Proof.
  intros Hp. unfold group_keys. apply sort_keys_perm, unique_Permutation.
  by rewrite Hp.
Qed.

End groupby.

Lemma assoc_map_key `{EqDecision K} {V} (f : K → V) (l : list K) (k : K) :
  assoc k (map (λ k, (k, f k)) l) = if decide (k ∈ l) then Some (f k) else None.
Proof.
  induction l as [|x l IH]; simpl; [done|].
  case_bool_decide as Hx.
  - subst. rewrite decide_True; [done|left].
  - rewrite IH. destruct (decide (k ∈ l)) as [Hin|Hin].
    + rewrite decide_True; [done|by right].
    + rewrite decide_False; [done|]. rewrite elem_of_cons.
      intros [E|?]; [by symmetry in E|done].
Qed.

(** ** Health scores *)

Lemma Qc_rate_nonneg (n m : nat) : 0 ≤ Qc_of_nat n / Qc_of_nat m.
Proof.
  unfold Qcdiv, Qcle, Qcmult, Qcinv. cbn [this Q2Qc].
  rewrite !Qred_correct, !Qc_of_nat_this.
  apply Qmult_le_0_compat.
  - unfold Qle. simpl. lia.
  - apply Qinv_le_0_compat. unfold Qle. simpl. lia.
Qed.

Lemma filter_not_nil {A} (P : A → Prop) `{∀ x, Decision (P x)}
    (l : list A) (x : A) :
  x ∈ l → P x → filter P l ≠ [].
Proof.
  intros Hin HP Hnil. assert (Hx : x ∈ filter P l).
  { by apply list_elem_of_filter. }
  rewrite Hnil in Hx. by apply elem_of_nil in Hx.
Qed.

Lemma filter_nil_intro {A} (P : A → Prop) `{∀ x, Decision (P x)}
    (l : list A) :
  (∀ x, x ∈ l → ¬ P x) → filter P l = [].
Proof.
  induction l as [|y l IH]; intros Hl; [done|].
  rewrite filter_cons. rewrite decide_False by (apply Hl; left).
  apply IH. intros x Hx. apply Hl. by right.
Qed.

Section health.
Import Binary64 DataQualityChecker.

Lemma weighted_term_bounds (r w : Qc) :
  0 ≤ r → 0 ≤ w → 0 ≤ Qcmax 0 ((1 - r) * w) ≤ w.
Proof.
  intros Hr Hw. destruct (Qcmax_spec 0 ((1 - r) * w)) as (H0 & _ & [E|E]);
    rewrite E in *; [split; [apply Qcle_refl|done]|]. split; [done|].
  replace ((1 - r) * w) with (w - r * w) by ring.
  assert (0 ≤ r * w).
  { replace 0 with (0 * w) by ring. by apply Qcmult_le_compat_r. }
  qc_order.
Qed.

Lemma categorize_cases (x : Qc) :
  (dec 90 1 ≤ x ∧ categorize x = "Excellent") ∨
  (dec 75 1 ≤ x < dec 90 1 ∧ categorize x = "Good") ∨
  (dec 60 1 ≤ x < dec 75 1 ∧ categorize x = "Fair") ∨
  (x < dec 60 1 ∧ categorize x = "Poor").
Proof.
  unfold categorize. repeat case_bool_decide;
    repeat match goal with
           | H : ¬ _ ≤ _ |- _ => apply Qc_not_le_lt in H
           end; tauto.
Qed.

Lemma categorize_bands (x : Qc) :
  (categorize x = "Excellent" ↔ dec 90 1 ≤ x) ∧
  (categorize x = "Good" ↔ dec 75 1 ≤ x < dec 90 1) ∧
  (categorize x = "Fair" ↔ dec 60 1 ≤ x < dec 75 1) ∧
  (categorize x = "Poor" ↔ x < dec 60 1).
Proof.
  assert (Hiff : ∀ (l : string) (P : Prop),
            (P → categorize x = l) → (categorize x = l → P) →
            categorize x = l ↔ P) by (intros; tauto).
  split; [|split; [|split]]; apply Hiff;
    destruct (categorize_cases x) as [[? ->]|[[? ->]|[[? ->]|[? ->]]]];
    try done; intros; exfalso; qc_order.
Qed.

Lemma sort_values_desc_elem {A} (by_ : A → Qc) label (rows sorted : list A) r :
  sort_values_desc by_ label rows = Ok sorted → r ∈ sorted ↔ r ∈ rows.
Proof.
  unfold sort_values_desc. destruct rows as [|x rows]; [done|].
  intros [= <-]. by rewrite merge_sort_Permutation.
Qed.

(** Every line of the store table is the line of a store of the
    frame. *)
Lemma store_health_rows (df : DataFrame) rows r :
  calculate_store_health_score df = Ok rows → r ∈ rows →
  r = store_row df (store r) ∧ store r ∈ map Store_Name df.
Proof.
  intros Hok Hr. apply (sort_values_desc_elem _ _ _ _ _ Hok) in Hr.
  unfold store_scores in Hr. apply list_elem_of_fmap in Hr as (s & -> & Hs).
  rewrite elem_of_unique in Hs. split; [reflexivity|exact Hs].
Qed.

Lemma supplier_health_rows (df : DataFrame) rows r :
  calculate_supplier_health_score df = Ok rows → r ∈ rows →
  r = supplier_row df (supplier r) ∧
  Some (supplier r) ∈ map Supplier df.
Proof.
  intros Hok Hr. apply (sort_values_desc_elem _ _ _ _ _ Hok) in Hr.
  unfold supplier_scores in Hr.
  apply list_elem_of_fmap in Hr as (s & -> & Hs).
  rewrite elem_of_unique in Hs. split; [reflexivity|]. simpl.
  unfold dropna in Hs. apply list_elem_of_omap in Hs as (o & Ho & Hs).
  simpl in Hs. by subst.
Qed.

Lemma dec_Z (n : Z) : dec n 1 = Qc_of_Z n.
Proof.
  apply Qc_is_canon. unfold dec. cbn [this Q2Qc Qc_of_Z].
  apply Qred_correct.
Qed.

Lemma rate64_nonneg (a b : nat) : 0 ≤ rnd64 (Qc_of_nat a / Qc_of_nat b).
Proof. apply rnd64_nonneg, Qc_rate_nonneg. Qed.

Lemma weighted_term64_bounds (r : Qc) (w : Z) :
  0 ≤ r → (0 <= w < 2 ^ 53)%Z →
  0 ≤ Qcmax 0 (mul64 (sub64 1 r) (dec w 1)) ≤ dec w 1.
Proof.
  intros Hr Hw. rewrite dec_Z.
  assert (Hw0 : 0 ≤ Qc_of_Z w).
  { unfold Qcle. simpl. unfold Qle. simpl. lia. }
  assert (Hx : sub64 1 r ≤ 1).
  { unfold sub64. apply (rnd64_le_Z _ 1); [done|]. simpl.
    replace (Qc_of_Z 1) with (1 : Qc) by by apply Qc_is_canon.
    qc_order. }
  assert (Hy : mul64 (sub64 1 r) (Qc_of_Z w) ≤ Qc_of_Z w).
  { unfold mul64. apply rnd64_le_Z; [lia|].
    rewrite <- (Qcmult_1_l (Qc_of_Z w)) at 2.
    by apply Qcmult_le_compat_r. }
  unfold Qcmax. case_bool_decide; [done|]. split; [apply Qcle_refl|done].
Qed.

Lemma add64_bounds (a b : Qc) (wa wb : Z) :
  0 ≤ a ≤ dec wa 1 → 0 ≤ b ≤ dec wb 1 → (Z.abs (wa + wb) < 2 ^ 53)%Z →
  0 ≤ add64 a b ≤ dec (wa + wb) 1.
Proof.
  intros [Ha0 Ha] [Hb0 Hb] Hw. unfold add64. split.
  - apply rnd64_nonneg. qc_order.
  - rewrite dec_Z. apply rnd64_le_Z; [done|].
    rewrite !dec_Z in *.
    assert (Qc_of_Z (wa + wb) = Qc_of_Z wa + Qc_of_Z wb) as ->.
    { apply Qc_is_canon. unfold Qcplus. cbn [this Q2Qc Qc_of_Z].
      rewrite Qred_correct. by rewrite inject_Z_plus. }
    qc_order.
Qed.

Lemma weighted_score64_bounds (m o d : Qc) :
  0 ≤ m → 0 ≤ o → 0 ≤ d → 0 ≤ weighted_score64 m o d ≤ dec 100 1.
Proof.
  intros Hm Ho Hd. unfold weighted_score64. cbn zeta.
  apply (add64_bounds _ _ 70 30); [|by apply weighted_term64_bounds|done].
  apply (add64_bounds _ _ 30 40); [| |done];
    by apply weighted_term64_bounds.
Qed.

Lemma store_health_score64_bounds (g : DataFrame) :
  0 ≤ store_health_score64 g ≤ dec 100 1.
Proof.
  unfold store_health_score64, store_missing_rate, store_outlier_rate,
    dup_rate. cbn zeta.
  apply weighted_score64_bounds; apply rate64_nonneg.
Qed.

Lemma supplier_health_score64_bounds (g : DataFrame) :
  0 ≤ supplier_health_score64 g ≤ dec 100 1.
Proof.
  unfold supplier_health_score64, supplier_missing_rate,
    supplier_outlier_rate, dup_rate. cbn zeta.
  apply weighted_score64_bounds; apply rate64_nonneg.
Qed.

(** The rows [duplicated()] marks and the distinct keys make up the
    frame. *)
Lemma unique_from_ext `{EqDecision K} (seen seen' l : list K) :
  (∀ x, x ∈ seen ↔ x ∈ seen') → unique_from seen l = unique_from seen' l.
Proof.
  revert seen seen'. induction l as [|x l IH]; intros seen seen' Hs; [done|].
  simpl. destruct (decide (x ∈ seen)) as [Hx|Hx].
  - rewrite !bool_decide_eq_true_2 by (done || by apply Hs). by apply IH.
  - rewrite !bool_decide_eq_false_2 by (done || by rewrite <- Hs).
    f_equal. apply IH. intros y. rewrite !elem_of_cons, Hs. done.
Qed.

Lemma duplicated_from_count `{EqDecision K} (seen l : list K) :
  (count_true (duplicated_from seen l) + length (unique_from seen l))%nat
  = length l.
Proof.
  unfold count_true. revert seen.
  induction l as [|x l IH]; intros seen; [done|].
  simpl. rewrite filter_cons. destruct (decide (x ∈ seen)) as [Hx|Hx].
  - rewrite !bool_decide_eq_true_2 by done. rewrite decide_True by done.
    pose proof (IH (x :: seen)) as Hl.
    rewrite (unique_from_ext (x :: seen) seen) in Hl.
    + simpl. lia.
    + intros y. rewrite elem_of_cons. split; [by intros [->|?]|by right].
  - rewrite !bool_decide_eq_false_2 by done. rewrite decide_False by done.
    pose proof (IH (x :: seen)) as Hl. simpl. lia.
Qed.

Lemma length_unique_remove_dups `{EqDecision K} (l : list K) :
  length (unique l) = length (remove_dups l).
Proof.
  apply Permutation_length, NoDup_Permutation.
  - apply NoDup_unique.
  - apply NoDup_remove_dups.
  - intros x. by rewrite elem_of_unique, elem_of_remove_dups.
Qed.

Lemma duplicated_first_count `{EqDecision K} (l : list K) :
  count_true (duplicated_first l)
  = (length l - length (remove_dups l))%nat.
Proof.
  pose proof (duplicated_from_count [] l) as H.
  fold (duplicated_first l) in H. fold (unique l) in H.
  rewrite length_unique_remove_dups in H. lia.
Qed.


Lemma isnull_sum_Supplier (g : DataFrame) :
  isnull_sum "Supplier" g = length (filter (λ r, Supplier r = None) g).
Proof. reflexivity. Qed.

Lemma isnull_sum_RRP (g : DataFrame) :
  isnull_sum "RRP" g = length (filter (λ r, RRP r = None) g).
Proof. reflexivity. Qed.

Lemma category_bands (c : string) (x : Qc) :
  c = categorize x →
  (c = "Excellent" ↔ dec 90 1 ≤ x) ∧
  (c = "Good" ↔ dec 75 1 ≤ x < dec 90 1) ∧
  (c = "Fair" ↔ dec 60 1 ≤ x < dec 75 1) ∧
  (c = "Poor" ↔ x < dec 60 1).
Proof. intros ->. apply categorize_bands. Qed.

(** C4. For every store, and for every supplier, the loop computes the
    score
      max(0, (1 - missing_rate) * 30) + max(0, (1 - outlier_rate) * 40)
      + max(0, (1 - dup_rate) * 30)
    over the rows of that store (supplier), each operation rounded to
    binary64, where the rates are these counts over the number [n] of
    rows ([2 n] for the missing rate of a store):
    - missing: the rows without supplier plus the rows without RRP for
      a store, the rows without RRP for a supplier;
    - outliers: the rows of negative quantity plus the rows of negative
      sales, plus, for a supplier, the rows of zero quantity with
      positive sales;
    - duplicates: the rows less the distinct (store, item, date) keys.
    The score lies in [0, 100], and the category is "Excellent" from
    90, "Good" from 75, "Fair" from 60 and "Poor" below, each lower
    bound included: 90 is "Excellent", 89.99 is "Good". *)
Theorem health_score_formula_and_bands (df : DataFrame) :
  let rate := λ count total : nat,
    rnd64 (Qc_of_nat count / Qc_of_nat total) in
  let term := λ w rate, Qcmax 0 (rnd64 (rnd64 (1 - rate) * w)) in
  let score := λ missing_rate outlier_rate dup_rate,
    rnd64 (rnd64 (term (dec 30 1) missing_rate
                  + term (dec 40 1) outlier_rate)
           + term (dec 30 1) dup_rate) in
  let bands := λ (category : string) (x : Qc),
    (category = "Excellent" ↔ dec 90 1 ≤ x) ∧
    (category = "Good" ↔ dec 75 1 ≤ x < dec 90 1) ∧
    (category = "Fair" ↔ dec 60 1 ≤ x < dec 75 1) ∧
    (category = "Poor" ↔ x < dec 60 1) in
  let duplicates := λ g : DataFrame,
    (length g - length (remove_dups (map key_cols g)))%nat in
  (∀ s, s ∈ map Store_Name df ↔ s ∈ map h_name (store_scores64 df)) ∧
  (∀ l, l ∈ store_scores64 df →
     let g := filter (λ r, Store_Name r = h_name l) df in
     let n := length g in
     let missing_supplier := length (filter (λ r, Supplier r = None) g) in
     let missing_rrp := length (filter (λ r, RRP r = None) g) in
     let neg_qty := length (filter (λ r, Quantity r < 0) g) in
     let neg_sales := length (filter (λ r, Total_Sales r < 0) g) in
     (0 < n)%nat ∧
     h_score l = score (rate (missing_supplier + missing_rrp)%nat (n * 2)%nat)
                       (rate (neg_qty + neg_sales)%nat n)
                       (rate (duplicates g) n) ∧
     0 ≤ h_score l ≤ dec 100 1 ∧
     bands (h_category l) (h_score l)) ∧
  (∀ s, Some s ∈ map Supplier df ↔ s ∈ map h_name (supplier_scores64 df)) ∧
  (∀ l, l ∈ supplier_scores64 df →
     let g := filter (λ r, Supplier r = Some (h_name l)) df in
     let n := length g in
     let missing_rrp := length (filter (λ r, RRP r = None) g) in
     let neg_qty := length (filter (λ r, Quantity r < 0) g) in
     let neg_sales := length (filter (λ r, Total_Sales r < 0) g) in
     let zero_qty_with_sales :=
       length (filter (λ r, Quantity r = 0 ∧ 0 < Total_Sales r) g) in
     (0 < n)%nat ∧
     h_score l = score (rate missing_rrp n)
                       (rate (neg_qty + neg_sales + zero_qty_with_sales)%nat n)
                       (rate (duplicates g) n) ∧
     0 ≤ h_score l ≤ dec 100 1 ∧
     bands (h_category l) (h_score l)) ∧
  categorize (dec 90 1) = "Excellent" ∧
  categorize (rnd64 (dec 8999 100)) = "Good".
Proof.
  cbn zeta. split; [|split; [|split; [|split; [|split]]]].
  - intros s. unfold store_scores64. rewrite map_map. simpl.
    by rewrite map_id, elem_of_unique.
  - intros l Hl. unfold store_scores64 in Hl.
    apply list_elem_of_fmap in Hl as (s & -> & Hs).
    rewrite elem_of_unique in Hs. cbn [h_name h_score h_category].
    set (g := filter (λ r, Store_Name r = s) df).
    split; [|split; [|split]].
    + apply list_elem_of_fmap in Hs as (x & Hx & Hin).
      assert (Hne : g ≠ []) by by apply (filter_not_nil _ df x).
      destruct g; [done|simpl; lia].
    + unfold store_health_score64, weighted_score64, store_missing_rate,
        store_outlier_rate, dup_rate. cbn zeta.
      by rewrite isnull_sum_Supplier, isnull_sum_RRP, duplicated_first_count,
        length_map.
    + apply store_health_score64_bounds.
    + by apply category_bands.
  - intros s. unfold supplier_scores64. rewrite map_map. simpl.
    rewrite map_id, elem_of_unique. unfold dropna.
    rewrite list_elem_of_omap. split.
    + intros Hs. by exists (Some s).
    + intros (o & Ho & Hs). simpl in Hs. by subst.
  - intros l Hl. unfold supplier_scores64 in Hl.
    apply list_elem_of_fmap in Hl as (s & -> & Hs).
    rewrite elem_of_unique in Hs. cbn [h_name h_score h_category].
    set (g := filter (λ r, Supplier r = Some s) df).
    split; [|split; [|split]].
    + unfold dropna in Hs. apply list_elem_of_omap in Hs as (o & Ho & Hs).
      simpl in Hs. subst o.
      apply list_elem_of_fmap in Ho as (x & Hx & Hin).
      assert (Hne : g ≠ []) by by apply (filter_not_nil _ df x).
      destruct g; [done|simpl; lia].
    + unfold supplier_health_score64, weighted_score64,
        supplier_missing_rate, supplier_outlier_rate, dup_rate. cbn zeta.
      by rewrite isnull_sum_RRP, duplicated_first_count, length_map.
    + apply supplier_health_score64_bounds.
    + by apply category_bands.
  - reflexivity.
  - vm_compute. reflexivity.
Qed.





End health.

(** ** Duplicate clusters *)

Section duplicates.
Import DataQualityChecker.

(** The duplicate clusters of a frame: the distinct natural keys that
    more than one row carries. *)
Definition duplicate_clusters (df : DataFrame) : list (string * (Z * Z)) :=
  filter (λ k, (1 < count_key k (map key_cols df))%nat)
         (unique (map key_cols df)).

(** The rows [duplicated(keep=False)] marks. *)
Definition duplicated_rows (df : DataFrame) : DataFrame :=
  filter (λ r, duplicated_all (map key_cols df) (key_cols r) = true) df.

Lemma omap_Some {A B} (f : A → B) (l : list A) :
  omap (λ x, Some (f x)) l = map f l.
Proof. induction l as [|x l IH]; simpl; [done|]. by f_equal. Qed.


Lemma length_check_duplicates (df : DataFrame) :
  length (check_duplicates df) = length (duplicate_clusters df).
Proof.
  unfold check_duplicates. fold (duplicated_rows df).
  assert (Hlen : nunique (map key_cols (duplicated_rows df))
                 = length (duplicate_clusters df)).
  { unfold nunique. apply Permutation_length, NoDup_Permutation.
    - apply NoDup_unique.
    - apply list.NoDup_filter, NoDup_unique.
    - intros k. unfold duplicate_clusters, duplicated_rows.
      rewrite elem_of_unique, list_elem_of_fmap, list_elem_of_filter,
        elem_of_unique, list_elem_of_fmap.
      unfold duplicated_all. split.
      + intros (r & -> & Hr). apply list_elem_of_filter in Hr as [Hd Hr].
        apply bool_decide_eq_true in Hd. eauto.
      + intros (Hd & r & -> & Hr). exists r. split; [done|].
        apply list_elem_of_filter. split; [|done].
        by apply bool_decide_eq_true. }
  case_bool_decide as Hpos.
  - rewrite length_map, length_groupby, omap_Some. exact Hlen.
  - rewrite <- Hlen. destruct (duplicated_rows df); [done|].
    simpl in Hpos. lia.
Qed.

(** C9. In the summary report [duplicates_count] is the number of
    duplicate clusters (distinct (store, item, date) keys carried by
    more than one row), and, when there is one, the issue
    "Found N duplicate records" reports that same number. *)
Theorem duplicates_count_is_cluster_count (df : DataFrame) (rep : Report) :
  generate_summary_report df = Ok rep →
  duplicates_count rep = length (duplicate_clusters df) ∧
  ((0 < length (duplicate_clusters df))%nat →
   ("Found " +:+ pretty (length (duplicate_clusters df))
    +:+ " duplicate records") ∈ key_issues rep).
Proof.
  unfold generate_summary_report.
  destruct (calculate_store_health_score df) as [store_health|e]; [|done].
  destruct (calculate_supplier_health_score df) as [supplier_health|e];
    [|done].
  intros [= <-]. cbn [duplicates_count key_issues].
  split; [apply length_check_duplicates|].
  intros Hpos. unfold _identify_key_issues. cbn zeta.
  rewrite !elem_of_app. right. left.
  rewrite length_check_duplicates.
  rewrite bool_decide_eq_true_2 by done. apply list_elem_of_singleton.
  reflexivity.
Qed.

End duplicates.

(** The report of [sample_df]: one duplicate cluster, made of two rows. *)
Lemma duplicates_count_sample :
  ∃ rep, DataQualityChecker.generate_summary_report sample_df = Ok rep ∧
    DataQualityChecker.duplicates_count rep = 1%nat ∧
    "Found 1 duplicate records" ∈ DataQualityChecker.key_issues rep ∧
    length (duplicated_rows sample_df) = 2%nat.
Proof.
  destruct (DataQualityChecker.generate_summary_report sample_df)
    as [rep|e] eqn:Hok; [|by vm_compute in Hok].
  exists rep. split; [reflexivity|].
  destruct (duplicates_count_is_cluster_count sample_df rep Hok) as [H1 H2].
  assert (Hc : length (duplicate_clusters sample_df) = 1%nat)
    by (vm_compute; reflexivity).
  rewrite Hc in H1, H2. split; [exact H1|].
  split; [apply H2; lia|vm_compute; reflexivity].
Defined.

(** C4 at [ninety_df] and at [sample_df].  On [ninety_df] the rates
    are 2/18, 0 and 2/9, and the exact value of the formula is 90; the
    float operations give 89.99999999999999, one unit in the last
    place below, and the store is "Good".  In [sample_df] the store S1
    scores 92.5 and is "Excellent", the store S2 scores 45 and is
    "Poor". *)
Lemma health_score_sample :
  (∃ l, DataQualityChecker.store_scores64 ninety_df = [l] ∧
        DataQualityChecker.h_score l
        = Q2Qc (6333186975989759 # 70368744177664) ∧
        DataQualityChecker.h_score l < dec 90 1 ∧
        DataQualityChecker.h_category l = "Good" ∧
        DataQualityChecker.store_health_score ninety_df = dec 90 1) ∧
  (∃ l1 l2, DataQualityChecker.store_scores64 sample_df = [l1; l2] ∧
        DataQualityChecker.h_name l1 = "S1" ∧
        DataQualityChecker.h_score l1 = dec 925 10 ∧
        DataQualityChecker.h_category l1 = "Excellent" ∧
        DataQualityChecker.h_name l2 = "S2" ∧
        DataQualityChecker.h_score l2 = dec 45 1 ∧
        DataQualityChecker.h_category l2 = "Poor").
Proof.
  split.
  - destruct (health_score_formula_and_bands ninety_df) as (_ & H & _).
    cbn zeta in H.
    destruct (DataQualityChecker.store_scores64 ninety_df) as [|l [|l' t]]
      eqn:Hl; [by vm_compute in Hl| |by vm_compute in Hl].
    assert (Hs : DataQualityChecker.h_score l
                 = Q2Qc (6333186975989759 # 70368744177664)).
    { assert (Hh : head (DataQualityChecker.store_scores64 ninety_df)
                   = Some l) by by rewrite Hl.
      apply Qc_is_canon. vm_compute in Hh. injection Hh as <-.
      vm_compute. reflexivity. }
    destruct (H l) as (_ & _ & _ & _ & [_ HG] & _); [left|].
    exists l. split; [done|]. split; [done|]. rewrite Hs in *.
    assert (Hlt : Q2Qc (6333186975989759 # 70368744177664) < dec 90 1)
      by done.
    split; [done|]. split.
    + apply HG. split; [done|exact Hlt].
    + apply Qc_is_canon. vm_compute. reflexivity.
  - do 2 eexists. split; [reflexivity|].
    cbn [DataQualityChecker.h_name DataQualityChecker.h_score
         DataQualityChecker.h_category].
    split; [done|]. split; [apply Qc_is_canon; vm_compute; reflexivity|].
    split; [vm_compute; reflexivity|]. split; [done|].
    split; [apply Qc_is_canon; vm_compute; reflexivity|].
    vm_compute; reflexivity.
Defined.

(** ** Promotion detection *)

Section promotions.
Import PromotionAnalyzer.

(** The discount-days of a (store, item) pair: the rows of the prepared
    frame, of that store and item, whose discount reaches the
    threshold. *)
Definition discount_days (self : Self) (s : string) (i : Z) : nat :=
  length (filter (λ p, Store_Name (base p) = s ∧ Item_Code (base p) = i ∧
                       promo_day_of self p = true) (df self)).

Definition promo_key (self : Self) (p : Priced)
    : option (string * (Z * bool)) :=
  Some (Store_Name (base p), (Item_Code (base p), promo_day_of self p)).

Lemma promo_day_sizes_eq (self : Self) :
  promo_day_sizes self =
  map (λ k, (k, length (filter (λ p, promo_key self p = Some k) (df self))))
      (group_keys (promo_key self) (df self)).
Proof.
  unfold promo_day_sizes. fold (promo_key self).
  rewrite <- (groupby_agg (λ k g, (k, length g))).
  apply map_ext. by intros [k g].
Qed.

Lemma promo_key_filter (self : Self) (s : string) (i : Z) :
  length (filter (λ p, promo_key self p = Some (s, (i, true))) (df self))
  = discount_days self s i.
Proof.
  unfold discount_days. f_equal. apply list_filter_iff. intros p.
  unfold promo_key. split.
  - by intros [= -> -> ->].
  - by intros (-> & -> & ->).
Qed.

Lemma promo_days_lookup (self : Self) (p : Priced) :
  p ∈ df self →
  assoc (Store_Name (base p), Item_Code (base p)) (promo_days self)
  = Some (discount_days self (Store_Name (base p)) (Item_Code (base p))).
Proof.
  intros Hp. unfold promo_days, promo_days_of. cbn zeta.
  rewrite (assoc_map_key
    (λ k, if bool_decide (Exists (λ e, ((e.1).2).2 = true)
                                  (promo_day_sizes self))
          then default 0%nat (assoc (k.1, (k.2, true)) (promo_day_sizes self))
          else 0%nat)).
  rewrite decide_True.
  2: { rewrite elem_of_sort_keys, elem_of_unique, list_elem_of_fmap.
       exists (Store_Name (base p), (Item_Code (base p), promo_day_of self p),
               length (filter (λ q, promo_key self q = promo_key self p)
                              (df self))).
       split; [reflexivity|]. rewrite promo_day_sizes_eq, list_elem_of_fmap.
       exists (Store_Name (base p), (Item_Code (base p), promo_day_of self p)).
       split; [reflexivity|]. apply elem_of_group_keys. by exists p. }
  f_equal. cbn [fst snd].
  set (s := Store_Name (base p)). set (i := Item_Code (base p)).
  rewrite <- promo_key_filter.
  case_bool_decide as Hex.
  - rewrite promo_day_sizes_eq, (assoc_map_key (λ k, length _)).
    destruct (decide _) as [Hin|Hin]; [done|]. simpl. symmetry.
    apply length_zero_iff_nil, filter_nil_intro.
    intros q Hq Hk. apply Hin, elem_of_group_keys. by exists q.
  - symmetry. apply length_zero_iff_nil, filter_nil_intro.
    intros q Hq Hk. apply Hex, list.Exists_exists.
    exists (s, (i, true), length (filter (λ q, promo_key self q = Some (s, (i, true))) (df self))).
    split; [|done]. rewrite promo_day_sizes_eq, list_elem_of_fmap.
    exists (s, (i, true)). split; [done|]. apply elem_of_group_keys.
    by exists q.
Qed.

(** C3. [detect_promotions] keeps every prepared row, in order.  A row
    is a discount-day iff its [discount_pct] is defined and at least
    [discount_threshold * 100]; its [promo_day_count] is the number of
    discount-days of its (store, item) pair in the whole prepared frame;
    and it is on promotion iff it is a discount-day and that number is
    at least [min_days].  The defaults are 10% and 2 days. *)
Theorem detect_promotions_rule (self : Self) :
  map row (detect_promotions self) = df self ∧
  (∀ r, r ∈ detect_promotions self →
     let n := discount_days self (Store_Name (base (row r)))
                                 (Item_Code (base (row r))) in
     discount_pct r = discount_of (row r) ∧
     (is_promo_day r = true ↔
      ∃ d, discount_pct r = Some d ∧ discount_threshold self * dec 100 1 ≤ d) ∧
     promo_day_count r = Some n ∧
     (on_promotion r = true ↔
      is_promo_day r = true ∧ (min_days self ≤ Z.of_nat n)%Z)) ∧
  default_discount_threshold * dec 100 1 = dec 10 1 ∧
  default_min_days = 2%Z.
Proof.
  split; [|split; [|split; [by apply Qc_is_canon|done]]].
  - unfold detect_promotions. rewrite <- list_fmap_compose.
    apply list_fmap_id.
  - intros r Hr. unfold detect_promotions in Hr.
    apply list_elem_of_fmap in Hr as (p & -> & Hp).
    cbn [row discount_pct is_promo_day promo_day_count on_promotion].
    cbn zeta. rewrite (promo_days_lookup self p Hp).
    split; [done|]. split; [|split; [done|]].
    + unfold promo_day_of, fgeb. destruct (discount_of p) as [d|].
      * rewrite bool_decide_eq_true. split; [by exists d|].
        by intros (d' & [= <-] & Hd).
      * split; [done|]. by intros (d' & [=] & _).
    + by rewrite andb_true_iff, bool_decide_eq_true.
Qed.

End promotions.

(** ** Uplift and coverage *)

Section kpis_facts.
Import PromotionAnalyzer.
Context (str_contains : string → string → bool).

Definition promo_store (r : Promo) : string := Store_Name (base (row r)).

(** [aggregate], one line per group key. *)
Definition agg_of (k : Z * (string * (string * bool))) (g : list Promo) : Agg :=
  {| a_Item_Code := k.1;
     a_Description := (k.2).1;
     a_Supplier := ((k.2).2).1;
     a_on_promotion := ((k.2).2).2;
     total_quantity := Qcsum (map (λ r, Quantity (base (row r))) g);
     total_sales := Qcsum (map (λ r, Total_Sales (base (row r))) g);
     store_count := nunique (map (λ r, Store_Name (base (row r))) g);
     day_count := nunique (map (λ r, Date_Of_Sale (base (row r))) g);
     avg_unit_price := fmean (map (λ r, unit_price (row r)) g);
     avg_rrp := fmean (map (λ r, RRP (base (row r))) g);
     avg_discount_pct := fmean (map discount_pct g) |}.

Lemma aggregate_eq (df_promo : list Promo) :
  aggregate df_promo =
  map (λ k, agg_of k (filter (λ r, agg_key r = Some k) df_promo))
      (group_keys agg_key df_promo).
Proof.
  unfold aggregate. rewrite <- (groupby_agg agg_of).
  apply map_ext. by intros [k g].
Qed.

Lemma aggregate_store_count (df_promo : list Promo) (a : Agg) :
  a ∈ aggregate df_promo →
  (store_count a ≤ nunique (map promo_store df_promo))%nat.
Proof.
  rewrite aggregate_eq, list_elem_of_fmap. intros (k & -> & _).
  cbn [store_count agg_of]. apply nunique_mono.
  intros s. rewrite !list_elem_of_fmap. intros (r & -> & Hr).
  apply list_elem_of_filter in Hr as [_ Hr]. by exists r.
Qed.

Lemma pivot_side_elem (agg_df : list Agg) k f a :
  pivot_side agg_df k f = Some a →
  a ∈ agg_df ∧ sku_key a = k ∧ a_on_promotion a = f.
Proof.
  unfold pivot_side. intros Hh. apply head_Some_elem_of in Hh.
  apply list_elem_of_filter in Hh. tauto.
Qed.

Lemma Qc_share_bounds (n m : nat) :
  (n ≤ m)%nat → (0 < m)%nat →
  0 ≤ Qc_of_nat n / Qc_of_nat m * dec 100 1 ≤ dec 100 1.
Proof.
  intros Hnm Hm.
  assert (Hm' : 0 < Qc_of_nat m) by by apply Qc_of_nat_pos.
  assert (Hne : Qc_of_nat m ≠ 0).
  { intros E. rewrite E in Hm'. by apply (Qclt_not_eq 0 0). }
  assert (H0 : 0 ≤ Qc_of_nat n / Qc_of_nat m) by apply Qc_rate_nonneg.
  assert (H1 : Qc_of_nat n / Qc_of_nat m ≤ 1).
  { apply (Qcmult_lt_0_le_reg_r _ _ (Qc_of_nat m) Hm').
    unfold Qcdiv. rewrite <- Qcmult_assoc, (Qcmult_comm (/ _)),
      Qcmult_inv_r, Qcmult_1_r, Qcmult_1_l by done.
    by apply Qc_of_nat_le. }
  set (x := Qc_of_nat n / Qc_of_nat m) in *. clearbody x.
  split; qc_order.
Qed.

Lemma detail_row_uplift (agg_df : list Agg) (total_stores : nat) k :
  let d := detail_row agg_df total_stores k in
  (total_quantity_baseline d = 0 → quantity_uplift_pct d = 0) ∧
  (pivot_side agg_df k false = None →
   total_quantity_baseline d = 0 ∧ quantity_uplift_pct d = 0).
Proof.
  cbn zeta. cbn [total_quantity_baseline quantity_uplift_pct detail_row].
  assert (Hz : ∀ c : fval, fillna0 c = 0 →
            fillna0 (np_where (fgtb c (Some 0))
              (fmul (fdiv (fsub
                 (pivot_cell v_total_quantity (pivot_side agg_df k true)) c) c)
                 (Some (dec 100 1))) None) = 0).
  { intros [c|]; simpl; [|done]. intros ->.
    by rewrite bool_decide_eq_false_2 by apply (Qcle_not_lt 0 0), Qcle_refl. }
  split.
  - unfold ensured.
    destruct (has_col agg_df v_total_quantity false); [|done].
    destruct (has_col agg_df v_total_quantity true); [|done]. simpl.
    apply Hz.
  - intros ->. unfold ensured. simpl.
    split; [by destruct (has_col _ _ false)|].
    by destruct (has_col _ _ false), (has_col _ _ true).
Qed.

Lemma detail_row_coverage (df_promo : list Promo) k :
  let d := detail_row (aggregate df_promo)
                      (nunique (map promo_store df_promo)) k in
  0 ≤ promo_coverage_pct d ≤ dec 100 1.
Proof.
  cbn zeta. cbn [promo_coverage_pct detail_row].
  assert (Hz : 0 ≤ 0 ≤ dec 100 1) by done.
  destruct (has_col _ v_store_count true); [|exact Hz].
  destruct (pivot_side (aggregate df_promo) k true) as [a|] eqn:Ha;
    [|exact Hz].
  apply pivot_side_elem in Ha as (Ha & _ & _).
  apply aggregate_store_count in Ha. simpl. case_bool_decide as Ht.
  - exact Hz.
  - simpl. apply Qc_share_bounds; [done|].
    destruct (nunique (map promo_store df_promo)); [|lia].
    destruct Ht. by apply Qc_is_canon.
Qed.

(** C6. In the detailed data of [calculate_kpis], a SKU whose baseline
    quantity is 0 has an uplift of exactly 0, in particular a SKU with
    no baseline side; and the promo coverage of every SKU lies in
    [0, 100]. *)
Theorem uplift_zero_and_coverage_bounds (self : Self)
    (supplier_filter : option string) (d : Detail) :
  d ∈ detailed_data (calculate_kpis str_contains self supplier_filter) →
  (total_quantity_baseline d = 0 → quantity_uplift_pct d = 0) ∧
  (pivot_side
     (aggregate (filter_supplier str_contains supplier_filter
                                 (detect_promotions self)))
     (d_Item_Code d, (d_Description d, d_Supplier d)) false = None →
   total_quantity_baseline d = 0 ∧ quantity_uplift_pct d = 0) ∧
  0 ≤ promo_coverage_pct d ≤ dec 100 1.
Proof.
  unfold calculate_kpis, kpis_of. cbn [detailed_data]. unfold pivot.
  intros Hd. apply list_elem_of_fmap in Hd as ([i [ds su]] & -> & _).
  split; [|split].
  - apply detail_row_uplift.
  - apply (detail_row_uplift _ _ (i, (ds, su))).
  - apply detail_row_coverage.
Qed.

End kpis_facts.

(** ** Independence of the row order *)

Lemma Qcsum_perm (l1 l2 : list Qc) : l1 ≡ₚ l2 → Qcsum l1 = Qcsum l2.
Proof.
  induction 1 as [|x l1 l2 _ IH|x y l|l1 l2 l3 _ IH1 _ IH2]; simpl.
  - done.
  - by rewrite IH.
  - ring.
  - congruence.
Qed.

Lemma mean_perm (l1 l2 : list Qc) : l1 ≡ₚ l2 → mean l1 = mean l2.
Proof.
  intros Hp. unfold mean.
  destruct l1 as [|x l1], l2 as [|y l2]; try done.
  - by apply Permutation_nil_cons in Hp.
  - symmetry in Hp. by apply Permutation_nil_cons in Hp.
  - by rewrite (Qcsum_perm _ _ Hp), (Permutation_length Hp).
Qed.

Lemma fmean_perm (l1 l2 : list fval) : l1 ≡ₚ l2 → fmean l1 = fmean l2.
Proof. intros Hp. unfold fmean, dropna. apply mean_perm. by rewrite Hp. Qed.

Lemma nunique_perm `{EqDecision K} (l1 l2 : list K) :
  l1 ≡ₚ l2 → nunique l1 = nunique l2.
Proof. intros Hp. by apply Permutation_length, unique_Permutation. Qed.

Lemma omap_ext_eq {A B} (f g : A → option B) (l : list A) :
  (∀ x, f x = g x) → omap f l = omap g l.
Proof.
  intros Hfg. induction l as [|x l IH]; [done|]. simpl.
  rewrite Hfg. destruct (g x); [|exact IH]. by f_equal.
Qed.

Section order.
Import PromotionAnalyzer.
Context (str_contains : string → string → bool).

Lemma prepare_data_perm (df df' : DataFrame) :
  df ≡ₚ df' → _prepare_data df ≡ₚ _prepare_data df'.
Proof. intros Hp. unfold _prepare_data. by rewrite Hp. Qed.

(** What [detect_promotions] adds to one row. *)
Definition annotate (self : Self) (p : Priced) : Promo :=
  let n := assoc (Store_Name (base p), Item_Code (base p)) (promo_days self) in
  {| row := p;
     discount_pct := discount_of p;
     is_promo_day := promo_day_of self p;
     promo_day_count := n;
     on_promotion :=
       promo_day_of self p &&
       match n with
       | Some n => bool_decide (min_days self ≤ Z.of_nat n)%Z
       | None => false
       end |}.

Lemma detect_promotions_annotate (self : Self) :
  detect_promotions self = map (annotate self) (df self).
Proof. reflexivity. Qed.

(** Two analyzers with the same parameters over the same rows. *)
Definition same_rows (self self' : Self) : Prop :=
  df self ≡ₚ df self' ∧
  discount_threshold self = discount_threshold self' ∧
  min_days self = min_days self'.

Lemma promo_day_sizes_perm (self self' : Self) :
  same_rows self self' → promo_day_sizes self = promo_day_sizes self'.
Proof.
  intros (Hp & Ht & _). rewrite !promo_day_sizes_eq.
  assert (Hk : ∀ p, promo_key self p = promo_key self' p).
  { intros p. unfold promo_key, promo_day_of. by rewrite Ht. }
  rewrite (group_keys_perm _ _ _ Hp).
  assert (group_keys (promo_key self) (df self')
          = group_keys (promo_key self') (df self')) as ->.
  { unfold group_keys. f_equal. f_equal. apply omap_ext_eq, Hk. }
  apply map_ext. intros k. f_equal. rewrite Hp.
  f_equal. apply list_filter_iff. intros p. by rewrite Hk.
Qed.

Lemma annotate_perm (self self' : Self) (p : Priced) :
  same_rows self self' → annotate self p = annotate self' p.
Proof.
  intros Hs. pose proof Hs as (Hp & Ht & Hm). unfold annotate, promo_days.
  rewrite (promo_day_sizes_perm _ _ Hs). unfold promo_day_of.
  by rewrite Ht, Hm.
Qed.

Lemma detect_promotions_perm (self self' : Self) :
  same_rows self self' → detect_promotions self ≡ₚ detect_promotions self'.
Proof.
  intros Hs. rewrite !detect_promotions_annotate.
  rewrite (map_ext _ _ (λ p, annotate_perm self self' p Hs)).
  apply fmap_Permutation, Hs.
Qed.

Lemma agg_of_perm k (g g' : list Promo) : g ≡ₚ g' → agg_of k g = agg_of k g'.
Proof.
  intros Hp. unfold agg_of.
  rewrite (Qcsum_perm (map (λ r, Quantity (base (row r))) g)
                      (map (λ r, Quantity (base (row r))) g'))
    by by apply fmap_Permutation.
  rewrite (Qcsum_perm (map (λ r, Total_Sales (base (row r))) g)
                      (map (λ r, Total_Sales (base (row r))) g'))
    by by apply fmap_Permutation.
  rewrite (nunique_perm (map (λ r, Store_Name (base (row r))) g)
                        (map (λ r, Store_Name (base (row r))) g'))
    by by apply fmap_Permutation.
  rewrite (nunique_perm (map (λ r, Date_Of_Sale (base (row r))) g)
                        (map (λ r, Date_Of_Sale (base (row r))) g'))
    by by apply fmap_Permutation.
  rewrite (fmean_perm (map (λ r, unit_price (row r)) g)
                      (map (λ r, unit_price (row r)) g'))
    by by apply fmap_Permutation.
  rewrite (fmean_perm (map (λ r, RRP (base (row r))) g)
                      (map (λ r, RRP (base (row r))) g'))
    by by apply fmap_Permutation.
  rewrite (fmean_perm (map discount_pct g) (map discount_pct g'))
    by by apply fmap_Permutation.
  reflexivity.
Qed.

Lemma aggregate_perm (df_promo df_promo' : list Promo) :
  df_promo ≡ₚ df_promo' → aggregate df_promo = aggregate df_promo'.
Proof.
  intros Hp. rewrite !aggregate_eq, (group_keys_perm _ _ _ Hp).
  apply map_ext. intros k. apply agg_of_perm. by rewrite Hp.
Qed.

Lemma pivot_perm (df_promo df_promo' : list Promo) :
  df_promo ≡ₚ df_promo' → pivot df_promo = pivot df_promo'.
Proof.
  intros Hp. unfold pivot. rewrite (aggregate_perm _ _ Hp).
  rewrite (nunique_perm (map (λ r, Store_Name (base (row r))) df_promo)
                        (map (λ r, Store_Name (base (row r))) df_promo'))
    by by apply fmap_Permutation.
  reflexivity.
Qed.

Lemma filter_supplier_perm supplier_filter (l l' : list Promo) :
  l ≡ₚ l' →
  filter_supplier str_contains supplier_filter l
  ≡ₚ filter_supplier str_contains supplier_filter l'.
Proof.
  intros Hp. unfold filter_supplier. destruct supplier_filter as [pat|]; [|done].
  case_bool_decide; [done|]. by rewrite Hp.
Qed.

Lemma calculate_kpis_perm (self self' : Self) supplier_filter :
  same_rows self self' →
  calculate_kpis str_contains self supplier_filter
  = calculate_kpis str_contains self' supplier_filter.
Proof.
  intros Hs. unfold calculate_kpis, kpis_of. cbn zeta.
  by rewrite (pivot_perm _ _
    (filter_supplier_perm supplier_filter _ _
       (detect_promotions_perm self self' Hs))).
Qed.

(** The columns of a line of [detailed_data] that are counts or are
    made of counts: the key of the SKU, the two store counts and the
    promo coverage.  No sum of a float column enters them. *)
Definition detail_counts (d : Detail)
    : Z * string * string * Qc * Qc * Qc :=
  (d_Item_Code d, d_Description d, d_Supplier d,
   store_count_baseline d, store_count_promo d, promo_coverage_pct d).

(** C7. Permuting the rows of the input frame permutes the rows
    [detect_promotions] returns and changes nothing else in them: a
    row gets the same [promo_day_count] and [on_promotion] (and the
    same other added columns) in both orders.  [calculate_kpis] then
    groups the same rows: every (SKU, flag) group holds the same rows
    up to their order, the table has the same SKU lines in the same
    order with the same store counts and promo coverage, and the
    summary has the same [total_skus_analyzed], [skus_with_promos] and
    [avg_promo_coverage].  Nothing is said of the sums and means of a
    group, which are accumulated in row order. *)
Theorem promotions_order_independent (df df' : DataFrame)
    (discount_threshold : Qc) (min_days : Z)
    (supplier_filter : option string) :
  df ≡ₚ df' →
  let self := __init__ df discount_threshold min_days in
  let self' := __init__ df' discount_threshold min_days in
  let rows :=
    filter_supplier str_contains supplier_filter (detect_promotions self) in
  let rows' :=
    filter_supplier str_contains supplier_filter (detect_promotions self') in
  let k := calculate_kpis str_contains self supplier_filter in
  let k' := calculate_kpis str_contains self' supplier_filter in
  detect_promotions self ≡ₚ detect_promotions self' ∧
  (∀ r r', r ∈ detect_promotions self → r' ∈ detect_promotions self' →
           row r = row r' → r = r') ∧
  (∀ key, filter (λ r, agg_key r = Some key) rows
          ≡ₚ filter (λ r, agg_key r = Some key) rows') ∧
  map detail_counts (detailed_data k) = map detail_counts (detailed_data k') ∧
  total_skus_analyzed (summary k) = total_skus_analyzed (summary k') ∧
  skus_with_promos (summary k) = skus_with_promos (summary k') ∧
  avg_promo_coverage (summary k) = avg_promo_coverage (summary k').
Proof.
  intros Hp self self' rows rows' k k'.
  assert (Hs : same_rows self self').
  { split; [|done]. by apply prepare_data_perm. }
  assert (Hk : k = k') by by apply calculate_kpis_perm.
  split; [by apply detect_promotions_perm|]. split; [|split].
  - intros r r'. rewrite !detect_promotions_annotate, !list_elem_of_fmap.
    intros (p & -> & _) (p' & -> & _). simpl. intros ->.
    by apply annotate_perm.
  - intros key. apply filter_Permutation.
    by apply filter_supplier_perm, detect_promotions_perm.
  - by rewrite Hk.
Qed.

End order.

(** ** The properties at [sample_df] *)

Section samples.
Import PromotionAnalyzer.

(** C3 at [sample_df] with the default parameters: item 1 has two
    discount-days in store S1 and one in store S2. *)
Lemma detect_promotions_sample :
  let self := __init__ sample_df default_discount_threshold default_min_days in
  Forall (λ r, promo_day_count r
               = Some (discount_days self (Store_Name (base (row r)))
                                          (Item_Code (base (row r)))))
         (detect_promotions self) ∧
  discount_days self "S1" 1 = 2%nat ∧
  discount_days self "S2" 1 = 1%nat ∧
  map on_promotion (detect_promotions self)
  = [true; true; false; false; false; false].
Proof.
  cbn zeta. split; [|by vm_compute].
  apply list.Forall_forall. intros r Hr.
  destruct (detect_promotions_rule
              (__init__ sample_df default_discount_threshold default_min_days))
    as (_ & H & _).
  destruct (H r Hr) as (_ & _ & Hc & _). exact Hc.
Defined.

(** C6 at [sample_df] with one day enough for a promotion: item 2 is
    then sold on promotion only, its baseline quantity is 0 and so is
    its uplift; it is on promotion in one store of two. *)
Lemma uplift_zero_sample :
  let self := __init__ sample_df default_discount_threshold 1 in
  let d := detail_row (aggregate (detect_promotions self)) 2
                      (2%Z, ("OIL 2L", "RIVAL LTD")) in
  pivot_side (aggregate (detect_promotions self))
             (2%Z, ("OIL 2L", "RIVAL LTD")) false = None ∧
  total_quantity_baseline d = 0 ∧
  quantity_uplift_pct d = 0 ∧
  0 ≤ promo_coverage_pct d ≤ dec 100 1 ∧
  promo_coverage_pct d = dec 50 1.
Proof.
  cbn zeta.
  set (self := __init__ sample_df default_discount_threshold 1).
  set (d := detail_row (aggregate (detect_promotions self)) 2
                       (2%Z, ("OIL 2L", "RIVAL LTD"))).
  assert (Hd : d ∈ detailed_data (calculate_kpis contains_nocase self None)).
  { unfold calculate_kpis, kpis_of. cbn [detailed_data filter_supplier].
    unfold pivot.
    apply list_elem_of_fmap. exists (2%Z, ("OIL 2L", "RIVAL LTD")).
    split; [reflexivity|]. vm_compute. right. left. }
  destruct (uplift_zero_and_coverage_bounds contains_nocase self None d Hd)
    as (_ & H2 & H3).
  assert (Hside : pivot_side (aggregate (detect_promotions self))
                    (2%Z, ("OIL 2L", "RIVAL LTD")) false = None)
    by (vm_compute; reflexivity).
  split; [exact Hside|]. destruct (H2 Hside) as [Hq Hu].
  split; [exact Hq|]. split; [exact Hu|]. split; [exact H3|].
  apply Qc_is_canon. vm_compute. reflexivity.
Defined.

(** C7 at [sample_df] and its reversal, under the filter "bidco":
    one SKU line in either order, sold in two stores off promotion
    and in one store of two on promotion. *)
Lemma order_independent_sample :
  let k := calculate_kpis contains_nocase
             (__init__ sample_df default_discount_threshold default_min_days)
             (Some "bidco") in
  let k' := calculate_kpis contains_nocase
              (__init__ (reverse sample_df) default_discount_threshold
                        default_min_days)
              (Some "bidco") in
  map detail_counts (detailed_data k)
  = [(1%Z, "OIL 1L", "BIDCO AFRICA LIMITED", dec 2 1, dec 1 1, dec 50 1)] ∧
  map detail_counts (detailed_data k')
  = [(1%Z, "OIL 1L", "BIDCO AFRICA LIMITED", dec 2 1, dec 1 1, dec 50 1)] ∧
  skus_with_promos (summary k') = 1%nat ∧
  avg_promo_coverage (summary k') = Some (dec 50 1).
Proof.
  cbn zeta.
  destruct (promotions_order_independent contains_nocase sample_df
              (reverse sample_df) default_discount_threshold
              default_min_days (Some "bidco"))
    as (_ & _ & _ & Hd & _ & Hn & Hc).
  { symmetry. apply reverse_Permutation. }
  rewrite <- Hd, <- Hn, <- Hc.
  assert (Hk : map detail_counts
                 (detailed_data
                    (calculate_kpis contains_nocase
                       (__init__ sample_df default_discount_threshold
                                 default_min_days) (Some "bidco")))
               = [(1%Z, "OIL 1L", "BIDCO AFRICA LIMITED",
                   dec 2 1, dec 1 1, dec 50 1)]).
  { unfold calculate_kpis, kpis_of. cbn [detailed_data]. unfold pivot.
    cbn zeta. rewrite map_map.
    assert (pivot_index
              (aggregate
                 (filter_supplier contains_nocase (Some "bidco")
                    (detect_promotions
                       (__init__ sample_df default_discount_threshold
                                 default_min_days))))
            = [(1%Z, ("OIL 1L", "BIDCO AFRICA LIMITED"))]) as ->
      by (vm_compute; reflexivity).
    cbn [map]. f_equal. unfold detail_counts.
    repeat (f_equal; try (apply Qc_is_canon; vm_compute; reflexivity)). }
  split; [exact Hk|]. split; [exact Hk|]. split.
  - vm_compute. reflexivity.
  - f_equal; apply Qc_is_canon; vm_compute; reflexivity.
Defined.

(** C7, as stated, fails: the sum of a group depends on the order of
    its rows.  The three rows of [order_df] are off promotion and make
    up the baseline group of their SKU.  Adding their sales 9.6, 30.0 and 18.8 in that
    order gives 58.400000000000006 in binary64, and in the reverse
    order 58.4, with Kahan's compensation as without it: the cell
    [total_sales_baseline] of [detailed_data] is not the same for the
    two orders of the frame. *)
Lemma kpis_depend_on_row_order :
  let self := __init__ order_df default_discount_threshold default_min_days in
  let self' := __init__ (reverse order_df) default_discount_threshold
                        default_min_days in
  let sku := (1%Z, ("OIL 1L", "BIDCO AFRICA LIMITED")) in
  order_df ≡ₚ reverse order_df ∧
  map on_promotion (detect_promotions self) = [false; false; false] ∧
  map on_promotion (detect_promotions self') = [false; false; false] ∧
  total_sales_baseline64 group_sum64 (detect_promotions self) sku
  = Q2Qc (2054767329987789 # 35184372088832) ∧
  total_sales_baseline64 group_sum64 (detect_promotions self') sku
  = Binary64.rnd64 (dec 584 10) ∧
  total_sales_baseline64 plain_sum64 (detect_promotions self) sku
  = Q2Qc (2054767329987789 # 35184372088832) ∧
  total_sales_baseline64 plain_sum64 (detect_promotions self') sku
  = Binary64.rnd64 (dec 584 10) ∧
  total_sales_baseline64 group_sum64 (detect_promotions self) sku
  ≠ total_sales_baseline64 group_sum64 (detect_promotions self') sku.
Proof.
  cbn zeta.
  assert (H1 : total_sales_baseline64 group_sum64
                 (detect_promotions
                    (__init__ order_df default_discount_threshold
                              default_min_days))
                 (1%Z, ("OIL 1L", "BIDCO AFRICA LIMITED"))
               = Q2Qc (2054767329987789 # 35184372088832))
    by (apply Qc_is_canon; vm_compute; reflexivity).
  assert (H2 : total_sales_baseline64 group_sum64
                 (detect_promotions
                    (__init__ (reverse order_df) default_discount_threshold
                              default_min_days))
                 (1%Z, ("OIL 1L", "BIDCO AFRICA LIMITED"))
               = Binary64.rnd64 (dec 584 10))
    by (apply Qc_is_canon; vm_compute; reflexivity).
  split; [symmetry; apply reverse_Permutation|].
  split; [vm_compute; reflexivity|]. split; [vm_compute; reflexivity|].
  split; [exact H1|]. split; [exact H2|].
  split; [apply Qc_is_canon; vm_compute; reflexivity|].
  split; [apply Qc_is_canon; vm_compute; reflexivity|].
  rewrite H1, H2. intros E. apply (f_equal this) in E.
  vm_compute in E. discriminate E.
Qed.

End samples.

(** ** Operations that raise *)

Lemma Qcsum_pos (l : list Qc) :
  l ≠ [] → Forall (λ x, 0 < x) l → 0 < Qcsum l.
Proof.
  intros Hne Hl. induction Hl as [|x l Hx Hl IH]; [done|]. simpl.
  destruct l as [|y l].
  - simpl. by rewrite Qcplus_0_r.
  - apply Qcplus_pos_pos; [done|]. by apply IH.
Qed.

Section raises.
Import PricingIndexAnalyzer.

Lemma prepared_quantity_pos (df : DataFrame) (p : Priced) :
  p ∈ __init__ df → 0 < Quantity (base p).
Proof.
  unfold __init__, _prepare_data. rewrite list_elem_of_filter. tauto.
Qed.

Definition price_key (p : Priced) : option (string * (string * (string * string))) :=
  s ← Supplier (base p);
  Some (Store_Name (base p), (Sub_Department (base p), (Section_ (base p), s))).

Lemma store_category_quantity_pos (df : DataFrame) (r : StoreCategoryPrice) :
  r ∈ store_category_prices (__init__ df) → 0 < total_quantity r.
Proof.
  unfold store_category_prices. fold price_key.
  intros Hr. apply list_elem_of_fmap in Hr as ([k g] & -> & Hg).
  cbn [total_quantity]. unfold groupby in Hg.
  apply list_elem_of_fmap in Hg as (k' & [= -> ->] & Hk).
  apply elem_of_group_keys in Hk as (p & Hp & Hkey).
  apply Qcsum_pos.
  - intros Hnil. apply fmap_nil_inv in Hnil. revert Hnil.
    by apply (filter_not_nil _ _ p).
  - apply Forall_fmap, list.Forall_forall. intros q Hq.
    apply list_elem_of_filter in Hq as [_ Hq]. simpl.
    by apply (prepared_quantity_pos df).
Qed.

(** [calculate_overall_positioning] returns exactly when the target
    supplier has a defined price index somewhere. *)
Lemma overall_positioning_Ok_iff (df : DataFrame) (target_supplier : string) :
  is_Ok (calculate_overall_positioning (__init__ df) target_supplier) ↔
  ∃ c, c ∈ calculate_store_level_index (__init__ df) target_supplier ∧
       price_index c ≠ None.
Proof.
  unfold calculate_overall_positioning. cbn zeta.
  set (store_index := calculate_store_level_index (__init__ df) target_supplier).
  set (defined := filter (λ c, price_index c ≠ None) store_index).
  assert (Hpos : Forall (λ x, 0 < x)
                   (map (λ c, total_quantity (target c)) defined)).
  { apply Forall_fmap, list.Forall_forall. intros c Hc. simpl.
    apply list_elem_of_filter in Hc as [_ Hc].
    unfold store_index, calculate_store_level_index in Hc.
    apply list_elem_of_fmap in Hc as (t & -> & Ht).
    apply list_elem_of_filter in Ht as [_ Ht]. simpl.
    by apply (store_category_quantity_pos df). }
  unfold np_average. cbn zeta. case_bool_decide as Hz; simpl.
  - split; [done|]. intros (c & Hc & Hdef). exfalso.
    assert (Hne : map (λ c, total_quantity (target c)) defined ≠ []).
    { intros Hnil. apply fmap_nil_inv in Hnil. revert Hnil.
      by apply (filter_not_nil _ _ c). }
    pose proof (Qcsum_pos _ Hne Hpos) as Hlt. rewrite Hz in Hlt.
    by apply (Qclt_not_eq 0 0).
  - split; [|done]. intros _. destruct defined as [|c l] eqn:Hd.
    + by destruct Hz.
    + exists c. assert (Hc : c ∈ defined) by (rewrite Hd; left).
      apply list_elem_of_filter in Hc. tauto.
Qed.


(** C2 fails on the code.  [calculate_overall_positioning] raises
    [ZeroDivisionError] whenever the target supplier has no defined
    price index: on [bidco_only_df], where it has no competitor, and on
    the empty frame.  [calculate_store_health_score] and
    [generate_summary_report] raise [KeyError] on the empty frame, and
    so does [calculate_supplier_health_score] when no row has a
    supplier. *)
Theorem engines_raise_on_degenerate_input :
  (∀ df target_supplier,
     (∀ c, c ∈ calculate_store_level_index (__init__ df) target_supplier →
           price_index c = None) →
     ¬ is_Ok (calculate_overall_positioning (__init__ df) target_supplier)) ∧
  calculate_overall_positioning (__init__ bidco_only_df) default_target_supplier
  = Err (ZeroDivisionError "Weights sum to zero, can't be normalized") ∧
  calculate_overall_positioning (__init__ []) default_target_supplier
  = Err (ZeroDivisionError "Weights sum to zero, can't be normalized") ∧
  DataQualityChecker.calculate_store_health_score []
  = Err (KeyError "health_score") ∧
  DataQualityChecker.generate_summary_report [] = Err (KeyError "health_score") ∧
  DataQualityChecker.calculate_supplier_health_score
    [sale "S2" None 3 "OIL 5L" 1 (dec 1 1) (dec 5 1) None]
  = Err (KeyError "health_score").
Proof.
  split; [|by vm_compute].
  intros df t Hall. rewrite overall_positioning_Ok_iff.
  intros (c & Hc & Hdef). by apply Hdef, Hall.
Qed.

End raises.

(** ** The input frame is never updated *)

(** [keeps n m Q]: run from a store with at least [n] frames, the
    program [m] leaves the first [n] frames as they are, and returns a
    value that satisfies [Q]. *)
Definition keeps {A} (n : nat) (m : St A) (Q : A → Prop) : Prop :=
  ∀ σ, (n ≤ length σ)%nat →
    take n (m σ).2 = take n σ ∧ (n ≤ length (m σ).2)%nat ∧ Q (m σ).1.

(** A new frame is out of the first [n]. *)
Definition fresh (n : nat) (h : handle) : Prop := (n ≤ h)%nat.

Definition any {A} (a : A) : Prop := True.

Section keeps.
Context (n : nat).

Lemma keeps_ret {A} (a : A) (Q : A → Prop) : Q a → keeps n (mret a) Q.
Proof. intros Ha σ Hσ. by repeat split. Qed.

Lemma keeps_bind {A B} (m : St A) (k : A → St B) Q R :
  keeps n m Q → (∀ a, Q a → keeps n (k a) R) → keeps n (m ≫= k) R.
Proof.
  intros Hm Hk σ Hσ. unfold mbind, St_bind.
  destruct (Hm σ Hσ) as (Ht & Hl & Ha). destruct (m σ) as [a σ']. simpl in *.
  destruct (Hk a Ha σ' Hl) as (Ht' & Hl' & Hb).
  split; [by rewrite Ht'|done].
Qed.

Lemma keeps_weaken {A} (m : St A) (Q R : A → Prop) :
  keeps n m Q → (∀ a, Q a → R a) → keeps n m R.
Proof.
  intros Hm HQR σ Hσ. destruct (Hm σ Hσ) as (? & ? & ?). auto.
Qed.

Lemma keeps_append {A} (f : store → frame) (a : store → A) (Q : A → Prop) :
  (∀ σ, (n ≤ length σ)%nat → Q (a σ)) →
  keeps n (λ σ, (a σ, σ ++ [f σ])) Q.
Proof.
  intros HQ σ Hσ. simpl. rewrite take_app_le, length_app by done.
  split; [done|]. split; [lia|by apply HQ].
Qed.

Lemma keeps_read h : keeps n (read h) any.
Proof. intros σ Hσ. by repeat split. Qed.

Lemma keeps_copy h : keeps n (copy h) (fresh n).
Proof. by apply (keeps_append (frame_at h) length). Qed.

Lemma keeps_getitem h mask : keeps n (getitem h mask) (fresh n).
Proof.
  by apply (keeps_append
              (λ σ, filter (λ r, mask r = true) (frame_at h σ)) length).
Qed.

Lemma keeps_new_frame f : keeps n (new_frame f) (fresh n).
Proof. by apply (keeps_append (λ _, f) length). Qed.

(** An assignment in place keeps the first [n] frames when its target
    is not one of them. *)
Lemma keeps_setitem h c v : fresh n h → keeps n (setitem h c v) any.
Proof.
  intros Hh σ Hσ. unfold setitem. cbn [fst snd].
  rewrite take_alter_ge, length_alter by done. by repeat split.
Qed.

End keeps.

Create HintDb keeps.
#[export] Hint Resolve keeps_read keeps_copy keeps_getitem keeps_new_frame
  keeps_setitem : keeps.

(** One statement after the other. *)
Ltac keeps_step :=
  first [ solve [eauto with keeps]
        | eapply keeps_bind; [solve [eauto with keeps]|cbn beta; intros ? ?]
        | apply keeps_ret; solve [done | exact I] ].

Ltac keeps_auto := repeat keeps_step.

(** *** The data-quality engine *)

Section dq_store.
Import Stateful.DataQualityChecker.
Context (n : nat).

Lemma keeps_dq_init df : keeps n (__init__ df) (fresh n).
Proof. apply keeps_copy. Qed.

Lemma keeps_check_missing_values self :
  keeps n (check_missing_values self) any.
Proof. unfold check_missing_values. keeps_auto. Qed.

Lemma keeps_check_duplicates self : keeps n (check_duplicates self) any.
Proof. unfold check_duplicates. keeps_auto. Qed.

Lemma keeps_check_outliers self : keeps n (check_outliers self) any.
Proof. unfold check_outliers. keeps_auto. Qed.

Lemma keeps_store_health self :
  keeps n (calculate_store_health_score self) any.
Proof. unfold calculate_store_health_score. keeps_auto. Qed.

Lemma keeps_supplier_health self :
  keeps n (calculate_supplier_health_score self) any.
Proof. unfold calculate_supplier_health_score. keeps_auto. Qed.

Hint Resolve keeps_check_missing_values keeps_check_duplicates
  keeps_check_outliers keeps_store_health keeps_supplier_health : keeps.

Lemma keeps_summary_report self : keeps n (generate_summary_report self) any.
Proof. unfold generate_summary_report. keeps_auto. Qed.

Hint Resolve keeps_summary_report : keeps.

Lemma keeps_dq_call self m : keeps n (call self m) any.
Proof. destruct m; unfold call; keeps_auto. Qed.

End dq_store.

(** *** The promotion engine *)

Section promo_store.
Import Stateful.PromotionAnalyzer.
Context (n : nat) (str_contains : string → string → bool).

Lemma keeps_promo_prepare df : keeps n (_prepare_data df) (fresh n).
Proof. unfold _prepare_data. keeps_auto. Qed.

Hint Resolve keeps_promo_prepare : keeps.

Lemma keeps_promo_init df discount_threshold min_days :
  keeps n (__init__ df discount_threshold min_days) any.
Proof. unfold __init__. keeps_auto. Qed.

Lemma keeps_detect_promotions self : keeps n (detect_promotions self) (fresh n).
Proof. unfold detect_promotions. keeps_auto. Qed.

Hint Resolve keeps_detect_promotions : keeps.

Lemma keeps_calculate_kpis self supplier_filter :
  keeps n (calculate_kpis str_contains self supplier_filter) any.
Proof.
  unfold calculate_kpis. eapply keeps_bind; [eauto with keeps|].
  intros df_promo Hfresh. eapply (keeps_bind _ _ _ (fresh n)).
  - destruct supplier_filter as [pat|]; [|by apply keeps_ret].
    case_bool_decide; [by apply keeps_ret|]. keeps_auto.
  - intros df_promo' Hfresh'. keeps_auto.
Qed.

Hint Resolve keeps_calculate_kpis : keeps.

Lemma keeps_get_bidco_insights self :
  keeps n (get_bidco_insights str_contains self) any.
Proof. unfold get_bidco_insights. keeps_auto. Qed.

Lemma keeps_commercial_insights self supplier_filter :
  keeps n (generate_commercial_insights str_contains self supplier_filter) any.
Proof. unfold generate_commercial_insights. keeps_auto. Qed.

Hint Resolve keeps_get_bidco_insights keeps_commercial_insights : keeps.

Lemma keeps_promo_call self m : keeps n (call str_contains self m) any.
Proof. destruct m; unfold call; keeps_auto. Qed.

End promo_store.

(** *** The price-index engine *)

Section pricing_store.
Import Stateful.PricingIndexAnalyzer.
Context (n : nat).

Lemma keeps_pricing_prepare df : keeps n (_prepare_data df) (fresh n).
Proof. unfold _prepare_data. keeps_auto. Qed.

Lemma keeps_pricing_init df : keeps n (__init__ df) (fresh n).
Proof. apply keeps_pricing_prepare. Qed.

Lemma keeps_category_avg_prices self :
  keeps n (calculate_category_avg_prices self) any.
Proof. unfold calculate_category_avg_prices. keeps_auto. Qed.

Lemma keeps_store_level_index self target_supplier :
  keeps n (calculate_store_level_index self target_supplier) any.
Proof. unfold calculate_store_level_index. keeps_auto. Qed.

Hint Resolve keeps_category_avg_prices keeps_store_level_index : keeps.

Lemma keeps_overall_positioning self target_supplier :
  keeps n (calculate_overall_positioning self target_supplier) any.
Proof. unfold calculate_overall_positioning. keeps_auto. Qed.

Hint Resolve keeps_overall_positioning : keeps.

Lemma keeps_compare_suppliers self category section :
  keeps n (compare_suppliers_by_category self category section) any.
Proof.
  unfold compare_suppliers_by_category.
  eapply keeps_bind; [eauto with keeps|]. intros matching Hm.
  eapply keeps_bind; [eauto with keeps|]. intros df_filtered Hf.
  eapply (keeps_bind _ _ _ (fresh n)).
  - destruct section as [sec|]; [|by apply keeps_ret].
    case_bool_decide; [by apply keeps_ret|]. keeps_auto.
  - intros df_filtered' Hf'. keeps_auto.
Qed.

Lemma keeps_pricing_insights self :
  keeps n (generate_bidco_pricing_insights self) any.
Proof. unfold generate_bidco_pricing_insights. keeps_auto. Qed.

Hint Resolve keeps_compare_suppliers keeps_pricing_insights : keeps.

Lemma keeps_detailed_comparison self target_supplier :
  keeps n (get_detailed_comparison self target_supplier) any.
Proof. unfold get_detailed_comparison. keeps_auto. Qed.

Hint Resolve keeps_detailed_comparison : keeps.

Lemma keeps_pricing_call self m : keeps n (call self m) any.
Proof. destruct m; unfold call; keeps_auto. Qed.

End pricing_store.

Lemma keeps_calls {S M} (call : S → M → St unit) (n : nat) (self : S)
    (ms : list M) :
  (∀ m, keeps n (call self m) any) → keeps n (calls call self ms) any.
Proof.
  intros Hcall. induction ms as [|m ms IH]; simpl.
  - by apply keeps_ret.
  - eapply keeps_bind; [apply Hcall|]. intros _ _. exact IH.
Qed.

(** *** What the constructors store *)

Lemma frame_at_app_l (σ τ : store) (h : handle) :
  (h < length σ)%nat → frame_at h (σ ++ τ) = frame_at h σ.
Proof. intros Hh. unfold frame_at. by rewrite lookup_app_l. Qed.

Lemma frame_at_last (σ : store) (f : frame) :
  frame_at (length σ) (σ ++ [f]) = f.
Proof. unfold frame_at. by rewrite list_lookup_middle. Qed.

Lemma alter_last (σ : store) (f : frame) (g : frame → frame) :
  alter g (length σ) (σ ++ [f]) = σ ++ [g f].
Proof.
  rewrite alter_app_r_alt by lia. by rewrite Nat.sub_diag.
Qed.

Lemma filter_fmap {A B} (f : A → B) (P : B → Prop) `{∀ x, Decision (P x)}
    (l : list A) :
  filter P (map f l) = map f (filter (λ x, P (f x)) l).
Proof.
  induction l as [|x l IH]; [done|]. simpl.
  rewrite !filter_cons. case_decide; simpl; by rewrite IH.
Qed.

Lemma sources_loaded (rows : DataFrame) : sources (loaded rows) = rows.
Proof.
  unfold sources, loaded. rewrite <- list_fmap_compose. apply list_fmap_id.
Qed.

Section constructors.
Context (σ : store) (df : handle) (rows : DataFrame).
Hypothesis Hdf : σ !! df = Some (loaded rows).

Lemma frame_at_input : frame_at df σ = loaded rows.
Proof. unfold frame_at. by rewrite Hdf. Qed.

Lemma dq_init_run :
  Stateful.DataQualityChecker.__init__ df σ
  = (length σ, σ ++ [loaded rows]).
Proof.
  unfold Stateful.DataQualityChecker.__init__, copy.
  by rewrite frame_at_input.
Qed.

(** The frames the promotion engine makes: the copy with its
    [unit_price], and the valid rows of it. *)
Definition promo_priced_frame : frame :=
  map (λ r, {| source := r;
               added := [("unit_price",
                          Num (np_where (bool_decide (0 < Quantity r))
                                 (fdiv (Some (Total_Sales r))
                                       (Some (Quantity r)))
                                 None))] |}) rows.

Definition promo_valid_frame : frame :=
  filter (λ r, (bool_decide (0 < Quantity (source r)) &&
                bool_decide (RRP (source r) ≠ None) &&
                fgtb (RRP (source r)) (Some 0) &&
                bool_decide (num "unit_price" r ≠ None)) = true)
         promo_priced_frame.

Lemma promo_prepare_run :
  Stateful.PromotionAnalyzer._prepare_data df σ
  = ((length σ + 2)%nat,
     σ ++ [promo_priced_frame; promo_valid_frame; promo_valid_frame]).
Proof.
  unfold Stateful.PromotionAnalyzer._prepare_data, mbind, St_bind, copy,
    setitem, getitem.
  rewrite frame_at_input, alter_last, frame_at_last.
  rewrite !length_app. cbn [length].
  assert (Hf : map (set_col "unit_price"
                 (λ r, Num (np_where (bool_decide (0 < Quantity (source r)))
                              (fdiv (Some (Total_Sales (source r)))
                                    (Some (Quantity (source r))))
                              None))) (loaded rows)
               = promo_priced_frame).
  { unfold loaded, promo_priced_frame. by rewrite <- list_fmap_compose. }
  rewrite Hf. fold promo_valid_frame.
  replace (length σ + 1)%nat with (length (σ ++ [promo_priced_frame]))
    by (rewrite length_app; simpl; lia).
  rewrite frame_at_last. rewrite length_app. cbn [length].
  f_equal; [lia|]. by rewrite <- !app_assoc.
Qed.

Lemma promo_valid_frame_priced :
  map Stateful.PromotionAnalyzer.priced promo_valid_frame
  = PromotionAnalyzer._prepare_data rows.
Proof.
  unfold promo_valid_frame, promo_priced_frame,
    PromotionAnalyzer._prepare_data.
  rewrite !filter_fmap, <- list_fmap_compose.
  f_equal. apply list_filter_iff. intros r. simpl.
  rewrite !andb_true_iff, !bool_decide_eq_true. tauto.
Qed.

(** The frames the price-index engine makes. *)
Definition pricing_priced_frame : frame :=
  map (λ r,
         let unit_price :=
           np_where (bool_decide (0 < Quantity r))
                    (fdiv (Some (Total_Sales r)) (Some (Quantity r)))
                    None in
         {| source := r;
            added := [("unit_price", Num unit_price);
                      ("discount_from_rrp_pct",
                       Num (np_where (bool_decide (RRP r ≠ None) &&
                                      fgtb (RRP r) (Some 0))
                                     (fmul (fdiv (fsub (RRP r) unit_price)
                                                 (RRP r))
                                           (Some (dec 100 1)))
                                     None))] |}) rows.

Definition pricing_valid_frame : frame :=
  filter (λ r, (bool_decide (0 < Quantity (source r)) &&
                bool_decide (num "unit_price" r ≠ None) &&
                bool_decide (Supplier (source r) ≠ None)) = true)
         pricing_priced_frame.

Lemma pricing_prepare_run :
  Stateful.PricingIndexAnalyzer._prepare_data df σ
  = ((length σ + 2)%nat,
     σ ++ [pricing_priced_frame; pricing_valid_frame; pricing_valid_frame]).
Proof.
  unfold Stateful.PricingIndexAnalyzer._prepare_data, mbind, St_bind, copy,
    setitem, getitem.
  rewrite frame_at_input, !alter_last, frame_at_last.
  rewrite !length_app. cbn [length].
  assert (Hf : map (set_col "discount_from_rrp_pct"
                 (λ r, Num (np_where (bool_decide (RRP (source r) ≠ None) &&
                                      fgtb (RRP (source r)) (Some 0))
                              (fmul (fdiv (fsub (RRP (source r))
                                                (num "unit_price" r))
                                          (RRP (source r)))
                                    (Some (dec 100 1)))
                              None)))
                 (map (set_col "unit_price"
                    (λ r, Num (np_where (bool_decide (0 < Quantity (source r)))
                                 (fdiv (Some (Total_Sales (source r)))
                                       (Some (Quantity (source r))))
                                 None))) (loaded rows))
               = pricing_priced_frame).
  { unfold loaded, pricing_priced_frame. by rewrite <- !list_fmap_compose. }
  rewrite Hf. fold pricing_valid_frame.
  replace (length σ + 1)%nat with (length (σ ++ [pricing_priced_frame]))
    by (rewrite length_app; simpl; lia).
  rewrite frame_at_last. rewrite length_app. cbn [length].
  f_equal; [lia|]. by rewrite <- !app_assoc.
Qed.

Lemma pricing_valid_frame_priced :
  map Stateful.PricingIndexAnalyzer.priced pricing_valid_frame
  = PricingIndexAnalyzer._prepare_data rows.
Proof.
  unfold pricing_valid_frame, pricing_priced_frame,
    PricingIndexAnalyzer._prepare_data.
  rewrite !filter_fmap, <- list_fmap_compose.
  f_equal. apply list_filter_iff. intros r. simpl.
  rewrite !andb_true_iff, !bool_decide_eq_true. tauto.
Qed.

End constructors.

(** *** The engines *)

Lemma run_engine_spec {S M} (init : St S) (call : S → M → St unit)
    (hd : S → handle) (σ τ : store) (self : S) (k : nat) (F : frame)
    (df : handle) (ms : list M) :
  init σ = (self, σ ++ τ) →
  hd self = (length σ + k)%nat → τ !! k = Some F →
  (∀ n m, keeps n (call self m) any) →
  (df < length σ)%nat →
  let r := run_engine init call ms σ in
  r.1 = self ∧ r.2 !! df = σ !! df ∧ take (length σ) r.2 = σ ∧
  hd r.1 ≠ df ∧ frame_at (hd r.1) r.2 = F.
Proof.
  intros Hinit Hhd HF Hcall Hdf. cbn zeta.
  unfold run_engine, mbind, St_bind. rewrite Hinit.
  destruct (keeps_calls call (length (σ ++ τ)) self ms
              (Hcall (length (σ ++ τ))) (σ ++ τ)) as (Ht & Hl & _); [done|].
  destruct (calls call self ms (σ ++ τ)) as [[] σ'].
  unfold mret, St_ret. cbn [fst snd] in *.
  rewrite (take_ge (σ ++ τ)) in Ht by done.
  assert (Hold : ∀ h, (h < length (σ ++ τ))%nat → σ' !! h = (σ ++ τ) !! h).
  { intros h Hh. by rewrite <- Ht, lookup_take_lt. }
  split; [done|]. split; [|split; [|split]].
  - rewrite Hold by (rewrite length_app; lia). by apply lookup_app_l.
  - assert (take (length σ) σ'
            = take (length σ) (take (length (σ ++ τ)) σ')) as ->.
    { rewrite take_take. f_equal. rewrite length_app. lia. }
    rewrite Ht. apply take_app_length.
  - lia.
  - unfold frame_at. rewrite Hold.
    + rewrite Hhd, lookup_app_r, Nat.add_comm, Nat.add_sub by lia.
      by rewrite HF.
    + rewrite length_app, Hhd. apply lookup_lt_Some in HF. lia.
Qed.

(** C8. Whatever the input frame holds, constructing an engine on it
    and calling its methods, any of them, in any number and order,
    leaves the input frame, and every other frame that existed, as it
    was.  The engine works on a frame of its own, made by the
    constructor: a copy of the input for the data-quality engine, the
    prepared frame for the two others. *)
Theorem engines_never_mutate_input (σ : store) (df : handle)
    (rows : DataFrame) :
  σ !! df = Some (loaded rows) →
  (∀ ms,
     let r := run_engine (Stateful.DataQualityChecker.__init__ df)
                         Stateful.DataQualityChecker.call ms σ in
     r.2 !! df = Some (loaded rows) ∧ take (length σ) r.2 = σ ∧
     r.1 ≠ df ∧
     sources (frame_at r.1 r.2) = DataQualityChecker.__init__ rows) ∧
  (∀ str_contains discount_threshold min_days ms,
     let r := run_engine
                (Stateful.PromotionAnalyzer.__init__ df discount_threshold
                                                     min_days)
                (Stateful.PromotionAnalyzer.call str_contains) ms σ in
     r.2 !! df = Some (loaded rows) ∧ take (length σ) r.2 = σ ∧
     Stateful.PromotionAnalyzer.df r.1 ≠ df ∧
     map Stateful.PromotionAnalyzer.priced
         (frame_at (Stateful.PromotionAnalyzer.df r.1) r.2)
     = PromotionAnalyzer.df
         (PromotionAnalyzer.__init__ rows discount_threshold min_days)) ∧
  (∀ ms,
     let r := run_engine (Stateful.PricingIndexAnalyzer.__init__ df)
                         Stateful.PricingIndexAnalyzer.call ms σ in
     r.2 !! df = Some (loaded rows) ∧ take (length σ) r.2 = σ ∧
     r.1 ≠ df ∧
     map Stateful.PricingIndexAnalyzer.priced (frame_at r.1 r.2)
     = PricingIndexAnalyzer.__init__ rows).
Proof.
  intros Hdf. pose proof (lookup_lt_Some _ _ _ Hdf) as Hlt.
  split; [|split].
  - intros ms.
    destruct (run_engine_spec (Stateful.DataQualityChecker.__init__ df)
                Stateful.DataQualityChecker.call (λ self, self) σ
                [loaded rows] (length σ) 0 (loaded rows) df ms
                (dq_init_run σ df rows Hdf) (eq_sym (Nat.add_0_r _))
                eq_refl (λ n m, keeps_dq_call n _ m) Hlt)
      as (_ & H1 & H2 & H3 & H4).
    cbn zeta. rewrite H1, Hdf. repeat split; try done.
    cbn beta in H4. rewrite H4. apply sources_loaded.
  - intros str_contains discount_threshold min_days ms.
    assert (Hinit : Stateful.PromotionAnalyzer.__init__ df discount_threshold
                      min_days σ
              = ({| Stateful.PromotionAnalyzer.df := length σ + 2;
                    Stateful.PromotionAnalyzer.discount_threshold :=
                      discount_threshold;
                    Stateful.PromotionAnalyzer.min_days := min_days |},
                 σ ++ [promo_priced_frame rows; promo_valid_frame rows;
                       promo_valid_frame rows])).
    { unfold Stateful.PromotionAnalyzer.__init__, mbind, St_bind.
      by rewrite (promo_prepare_run σ df rows Hdf). }
    destruct (run_engine_spec _
                (Stateful.PromotionAnalyzer.call str_contains)
                Stateful.PromotionAnalyzer.df σ _ _ 2
                (promo_valid_frame rows) df ms Hinit eq_refl eq_refl
                (λ n m, keeps_promo_call n str_contains _ m) Hlt)
      as (_ & H1 & H2 & H3 & H4).
    cbn zeta. rewrite H1, Hdf. repeat split; try done.
    rewrite H4. apply promo_valid_frame_priced.
  - intros ms.
    destruct (run_engine_spec (Stateful.PricingIndexAnalyzer.__init__ df)
                Stateful.PricingIndexAnalyzer.call (λ self, self) σ _ _ 2
                (pricing_valid_frame rows) df ms
                (pricing_prepare_run σ df rows Hdf) eq_refl eq_refl
                (λ n m, keeps_pricing_call n _ m) Hlt)
      as (_ & H1 & H2 & H3 & H4).
    cbn zeta. rewrite H1, Hdf. repeat split; try done.
    cbn beta in H4. rewrite H4. apply pricing_valid_frame_priced.
Qed.

(** C8 at a store that holds [sample_df] alone. *)
Lemma engines_sample :
  (run_engine (Stateful.DataQualityChecker.__init__ 0)
     Stateful.DataQualityChecker.call
     [Stateful.DataQualityChecker.CheckOutliers;
      Stateful.DataQualityChecker.GenerateSummaryReport]
     [loaded sample_df]).2 !! 0%nat = Some (loaded sample_df) ∧
  (run_engine
     (Stateful.PromotionAnalyzer.__init__ 0
        PromotionAnalyzer.default_discount_threshold
        PromotionAnalyzer.default_min_days)
     (Stateful.PromotionAnalyzer.call contains_nocase)
     [Stateful.PromotionAnalyzer.CalculateKpis (Some "bidco");
      Stateful.PromotionAnalyzer.GetBidcoInsights]
     [loaded sample_df]).2 !! 0%nat = Some (loaded sample_df) ∧
  (run_engine (Stateful.PricingIndexAnalyzer.__init__ 0)
     Stateful.PricingIndexAnalyzer.call
     [Stateful.PricingIndexAnalyzer.CalculateOverallPositioning
        "BIDCO AFRICA LIMITED";
      Stateful.PricingIndexAnalyzer.CompareSuppliersByCategory "FOODS" None]
     [loaded sample_df]).2 !! 0%nat = Some (loaded sample_df).
Proof.
  destruct (engines_never_mutate_input [loaded sample_df] 0 sample_df eq_refl)
    as (H1 & H2 & H3).
  split; [apply H1|]. split; [apply H2|apply H3].
Defined.

(** *** The stored frame of detected promotions *)

Lemma assoc_set_assoc_eq (c : string) (v : cell) (l : list (string * cell)) :
  assoc c (set_assoc c v l) = Some v.
Proof.
  induction l as [|[c' v'] l IH]; simpl.
  - by rewrite bool_decide_eq_true_2.
  - case_bool_decide as Hc; simpl.
    + by rewrite bool_decide_eq_true_2.
    + by rewrite bool_decide_eq_false_2.
Qed.

Lemma assoc_set_assoc_ne (c c' : string) (v : cell) (l : list (string * cell)) :
  c ≠ c' → assoc c' (set_assoc c v l) = assoc c' l.
Proof.
  intros Hne. induction l as [|[c0 v0] l IH]; simpl.
  - by rewrite bool_decide_eq_false_2.
  - case_bool_decide as Hc; simpl.
    + subst. by rewrite !bool_decide_eq_false_2.
    + case_bool_decide; [done|exact IH].
Qed.

Lemma source_set_col c v r : source (set_col c v r) = source r.
Proof. reflexivity. Qed.

Lemma num_set_col_ne c c' v r : c ≠ c' → num c' (set_col c v r) = num c' r.
Proof. intros Hne. unfold num, set_col. simpl. by rewrite assoc_set_assoc_ne. Qed.

Lemma flag_set_col_ne c c' v r : c ≠ c' → flag c' (set_col c v r) = flag c' r.
Proof. intros Hne. unfold flag, set_col. simpl. by rewrite assoc_set_assoc_ne. Qed.

Lemma count_set_col_ne c c' v r :
  c ≠ c' → count c' (set_col c v r) = count c' r.
Proof.
  intros Hne. unfold count, set_col. simpl. by rewrite assoc_set_assoc_ne.
Qed.

Lemma num_set_col_eq c (x : HRow → fval) r :
  num c (set_col c (λ r, Num (x r)) r) = x r.
Proof. unfold num, set_col. simpl. by rewrite assoc_set_assoc_eq. Qed.

Lemma flag_set_col_eq c (b : HRow → bool) r :
  flag c (set_col c (λ r, Flag (b r)) r) = b r.
Proof. unfold flag, set_col. simpl. by rewrite assoc_set_assoc_eq. Qed.

Lemma count_set_col_eq c (k : HRow → option nat) r :
  count c (set_col c (λ r, Count (k r)) r) = k r.
Proof. unfold count, set_col. simpl. by rewrite assoc_set_assoc_eq. Qed.

Create Rewrite HintDb columns.
#[export] Hint Rewrite source_set_col num_set_col_eq flag_set_col_eq
  count_set_col_eq : columns.
#[export] Hint Rewrite num_set_col_ne flag_set_col_ne count_set_col_ne
  using done : columns.

Lemma sizes_fmap `{EqDecision K, KeyOrder K} {A B} (f : A → B)
    (key : B → option K) (key' : A → option K) (l : list A) :
  (∀ x, key (f x) = key' x) →
  map (λ '(k, g), (k, length g)) (groupby key (map f l))
  = map (λ '(k, g), (k, length g)) (groupby key' l).
Proof.
  intros Hk.
  rewrite (map_ext (λ '(k, g), (k, length g)) (λ kg, (kg.1, length kg.2)))
    by by intros [].
  rewrite (map_ext (λ '(k, g), (k, length g)) (λ kg, (kg.1, length kg.2))
             (λ kg, match kg with (k, g) => eq_refl end) (groupby key' l)).
  rewrite !(groupby_agg (λ k g, (k, length g))).
  assert (Ho : omap key (map f l) = omap key' l).
  { induction l as [|x l IH]; [done|]. simpl. rewrite Hk.
    destruct (key' x); [|exact IH]. by f_equal. }
  unfold group_keys. rewrite Ho. apply map_ext. intros k. f_equal.
  rewrite filter_fmap, length_map. f_equal. apply list_filter_iff.
  intros x. by rewrite Hk.
Qed.

Section detect_store.
Import Stateful.PromotionAnalyzer.

(** The analyzer the pure functions see in a stored one. *)
Definition analyzer (self : Self) (σ : store) : PromotionAnalyzer.Self :=
  {| PromotionAnalyzer.df := map priced (frame_at (df self) σ);
     PromotionAnalyzer.discount_threshold := discount_threshold self;
     PromotionAnalyzer.min_days := min_days self |}.

(** The stored [detect_promotions] makes the frame that the function
    [detect_promotions] describes, and leaves every frame of the store
    as it was. *)
Lemma detect_promotions_run (self : Self) (σ : store) :
  let r := detect_promotions self σ in
  map promo (frame_at r.1 r.2)
  = PromotionAnalyzer.detect_promotions (analyzer self σ) ∧
  take (length σ) r.2 = σ.
Proof.
  cbn zeta. unfold detect_promotions, mbind, St_bind, mret, St_ret, copy,
    setitem, read, new_frame.
  set (f0 := frame_at (df self) σ).
  rewrite !alter_last, !frame_at_last. cbn [fst snd].
  rewrite frame_at_last.
  split; [|rewrite <- app_assoc; apply take_app_length].
  rewrite detect_promotions_annotate.
  unfold analyzer at 2. cbn [PromotionAnalyzer.df]. fold f0.
  set (A := analyzer self σ).
  rewrite <- !list_fmap_compose.
  rewrite (sizes_fmap _ promo_day_key (λ r, promo_key A (priced r))).
  2: { intros r. unfold compose, promo_day_key, promo_key,
         PromotionAnalyzer.promo_day_of, PromotionAnalyzer.discount_of, priced.
       autorewrite with columns. reflexivity. }
  assert (Hsizes : map (λ '(k, g), (k, length g))
                     (groupby (λ r, promo_key A (priced r)) f0)
                   = PromotionAnalyzer.promo_day_sizes A).
  { symmetry. unfold PromotionAnalyzer.promo_day_sizes.
    apply (sizes_fmap priced). done. }
  rewrite Hsizes. apply map_ext. intros r.
  unfold compose, promo, annotate, priced,
    PromotionAnalyzer.promo_day_of, PromotionAnalyzer.discount_of.
  autorewrite with columns. reflexivity.
Qed.

(** The stored [calculate_kpis] returns what the function
    [calculate_kpis] returns on the rows of [self.df]. *)
Lemma calculate_kpis_run (str_contains : string → string → bool)
    (self : Self) (supplier_filter : option string) (σ : store) :
  (calculate_kpis str_contains self supplier_filter σ).1
  = PromotionAnalyzer.calculate_kpis str_contains (analyzer self σ)
      supplier_filter.
Proof.
  unfold calculate_kpis, PromotionAnalyzer.calculate_kpis, mbind, St_bind.
  destruct (detect_promotions_run self σ) as [Hmap _].
  destruct (detect_promotions self σ) as [h σ1]. cbn [fst snd] in Hmap.
  rewrite <- Hmap. unfold PromotionAnalyzer.filter_supplier.
  destruct supplier_filter as [pat|]; [|reflexivity].
  case_bool_decide; [reflexivity|].
  unfold getitem, copy, read, mret, St_ret. cbn [fst snd].
  rewrite !frame_at_last. f_equal.
  rewrite filter_fmap. reflexivity.
Qed.

End detect_store.

(* ================================================================== *)
(** * Further properties of the engines *)

(** ** Sums over the groups of a frame *)

Section group_sums.
Context `{EqDecision K} {A M : Type} (op : M → M → M) (e : M).
Context {op_comm : Comm (=) op} {op_assoc : Assoc (=) op}.
Context {op_left_id : LeftId (=) e op}.

Lemma foldr_unit_groups (ks : list K) : foldr op e (map (λ _, e) ks) = e.
Proof.
  induction ks as [|k ks IH]; simpl; [done|]. by rewrite IH, op_left_id.
Qed.

Lemma foldr_pick (g : K → M) (m : M) (k0 : K) (ks : list K) :
  NoDup ks → k0 ∈ ks →
  foldr op e (map (λ k, if decide (k0 = k) then op m (g k) else g k) ks)
  = op m (foldr op e (map g ks)).
Proof.
  induction ks as [|k ks IH]; intros Hnd Hin; [by apply elem_of_nil in Hin|].
  apply list.NoDup_cons in Hnd as [Hk Hnd]. simpl.
  destruct (decide (k0 = k)) as [->|Hne].
  - rewrite <- op_assoc. do 3 f_equal. apply list_fmap_ext.
    intros i x Hx. apply list_elem_of_lookup_2 in Hx.
    rewrite decide_False; [done|congruence].
  - apply elem_of_cons in Hin as [?|Hin]; [done|].
    rewrite IH by done.
    by rewrite !op_assoc, (op_comm (g k) m).
Qed.

(** Summing a column group by group gives its sum over the rows that
    are in a group. *)
Lemma foldr_groups (key : A → option K) (f : A → M) (ks : list K)
    (l : list A) :
  NoDup ks → (∀ x k, x ∈ l → key x = Some k → k ∈ ks) →
  foldr op e
    (map (λ k, foldr op e (map f (filter (λ x, key x = Some k) l))) ks)
  = foldr op e (map f (filter (λ x, is_Some (key x)) l)).
Proof.
  intros Hnd. induction l as [|x l IH]; intros Hks.
  { simpl. apply foldr_unit_groups. }
  assert (Hl : ∀ y k, y ∈ l → key y = Some k → k ∈ ks).
  { intros y k Hy. apply Hks. by right. }
  rewrite filter_cons. destruct (key x) as [k0|] eqn:Hx.
  - rewrite decide_True by done. simpl. rewrite <- (IH Hl).
    assert (Hk0 : k0 ∈ ks) by (apply (Hks x); [left|done]).
    rewrite <- (foldr_pick _ (f x) k0) by done.
    f_equal. apply list_fmap_ext. intros i k _.
    rewrite filter_cons, Hx. destruct (decide (k0 = k)) as [->|Hne].
    + by rewrite decide_True.
    + rewrite decide_False; [done|congruence].
  - rewrite decide_False by (by intros [? ?]). rewrite <- (IH Hl).
    f_equal. apply list_fmap_ext. intros i k _.
    rewrite filter_cons, Hx. by rewrite decide_False.
Qed.

Lemma foldr_groupby `{KeyOrder K} (key : A → option K) (f : A → M)
    (df : list A) :
  foldr op e (map (λ kg, foldr op e (map f kg.2)) (groupby key df))
  = foldr op e (map f (filter (λ x, is_Some (key x)) df)).
Proof.
  rewrite (groupby_agg (λ _ g, foldr op e (map f g))).
  apply foldr_groups; [apply NoDup_group_keys|].
  intros x k Hx Hk. apply elem_of_group_keys. eauto.
Qed.

End group_sums.

Lemma sum_list_foldr (l : list nat) : sum_list l = foldr Nat.add 0%nat l.
Proof. induction l as [|x l IH]; simpl; [done|]. by rewrite <- IH. Qed.

Lemma length_foldr {A} (l : list A) :
  length l = foldr Nat.add 0%nat (map (λ _, 1%nat) l).
Proof. induction l as [|x l IH]; simpl; [done|]. by rewrite <- IH. Qed.

Lemma sum_list_perm (l1 l2 : list nat) : l1 ≡ₚ l2 → sum_list l1 = sum_list l2.
Proof.
  induction 1 as [|x l1 l2 _ IH|x y l|l1 l2 l3 _ IH1 _ IH2]; simpl;
    [done|by rewrite IH|lia|congruence].
Qed.

Lemma filter_all {A} (P : A → Prop) `{∀ x, Decision (P x)} (l : list A) :
  (∀ x, x ∈ l → P x) → filter P l = l.
Proof.
  induction l as [|x l IH]; intros Hl; [done|].
  rewrite filter_cons, decide_True by (apply Hl; left).
  f_equal. apply IH. intros y Hy. apply Hl. by right.
Qed.

(** The sizes of the groups of a column add up to the number of rows
    that are in a group. *)
Lemma sum_group_sizes `{EqDecision K} {A} (key : A → option K) (ks : list K)
    (l : list A) :
  NoDup ks → (∀ x k, x ∈ l → key x = Some k → k ∈ ks) →
  sum_list (map (λ k, length (filter (λ x, key x = Some k) l)) ks)
  = length (filter (λ x, is_Some (key x)) l).
Proof.
  intros Hnd Hks. rewrite sum_list_foldr, length_foldr.
  rewrite <- (foldr_groups Nat.add 0%nat key (λ _, 1%nat) ks) by done.
  f_equal. apply list_fmap_ext. intros i k _. apply length_foldr.
Qed.

#[export] Instance desc_by_total {A} (by_ : A → Qc) :
  Total (DataQualityChecker.desc_by by_).
Proof.
  intros a b. unfold DataQualityChecker.desc_by.
  destruct (Qclt_le_dec (by_ a) (by_ b)) as [Hlt|Hle]; [right|left; done].
  by apply Qclt_le_weak.
Qed.

#[export] Instance desc_by_trans {A} (by_ : A → Qc) :
  Transitive (DataQualityChecker.desc_by by_).
Proof.
  intros a b c. unfold DataQualityChecker.desc_by. intros H1 H2.
  by apply Qcle_trans with (by_ b).
Qed.

Section health_tables.
Import DataQualityChecker.

Lemma sort_values_desc_sorted {A} (by_ : A → Qc) label (rows sorted : list A) :
  sort_values_desc by_ label rows = Ok sorted →
  StronglySorted (desc_by by_) sorted ∧ sorted ≡ₚ rows ∧ rows ≠ [].
Proof.
  unfold sort_values_desc. destruct rows as [|x rows]; [done|].
  intros [= <-]. split; [|split; [apply merge_sort_Permutation|done]].
  apply Sorted_StronglySorted; [apply _|]. apply Sorted_merge_sort; apply _.
Qed.

Lemma sort_values_desc_Ok {A} (by_ : A → Qc) label (rows : list A) :
  is_Ok (sort_values_desc by_ label rows) ↔ rows ≠ [].
Proof. destruct rows; simpl; split; done. Qed.

Lemma sort_values_desc_Err {A} (by_ : A → Qc) label :
  sort_values_desc by_ label (@nil A) = Err (KeyError label).
Proof. done. Qed.

Lemma unique_nil_iff `{EqDecision K} (l : list K) : unique l = [] ↔ l = [].
Proof.
  split; [|by intros ->]. intros Hu. destruct l as [|x l]; [done|].
  assert (Hx : x ∈ unique (x :: l)) by (apply elem_of_unique; left).
  rewrite Hu in Hx. by apply elem_of_nil in Hx.
Qed.

Lemma map_nil_iff {A B} (f : A → B) (l : list A) : map f l = [] ↔ l = [].
Proof. by destruct l. Qed.

Lemma store_scores_nil_iff (df : DataFrame) : store_scores df = [] ↔ df = [].
Proof.
  unfold store_scores. by rewrite map_nil_iff, unique_nil_iff, map_nil_iff.
Qed.

Lemma supplier_scores_nil_iff (df : DataFrame) :
  supplier_scores df = [] ↔ ∀ r, r ∈ df → Supplier r = None.
Proof.
  unfold supplier_scores. rewrite map_nil_iff, unique_nil_iff. split.
  - intros Hnil r Hr. destruct (Supplier r) as [s|] eqn:Hs; [|done].
    assert (Hin : s ∈ dropna (map Supplier df)).
    { unfold dropna. apply list_elem_of_omap. exists (Some s).
      split; [|done]. rewrite <- Hs. by apply list_elem_of_fmap_2. }
    rewrite Hnil in Hin. by apply elem_of_nil in Hin.
  - intros Hall. induction df as [|r df IH]; [done|]. unfold dropna. simpl.
    rewrite (Hall r) by left. simpl. apply IH. intros r' Hr'.
    apply Hall. by right.
Qed.

(** X1. The health tables are returned exactly when they have a line:
    the store table when the frame has a row, the supplier table when
    some row names a supplier.  Otherwise the table is built from no
    line and sorting it by 'health_score' raises [KeyError].  The
    summary report, which builds both, returns exactly when the
    supplier table does. *)
Theorem health_tables_defined (df : DataFrame) :
  (is_Ok (calculate_store_health_score df) ↔ df ≠ []) ∧
  (df = [] →
   calculate_store_health_score df = Err (KeyError "health_score")) ∧
  (is_Ok (calculate_supplier_health_score df)
   ↔ ∃ r, r ∈ df ∧ Supplier r ≠ None) ∧
  ((∀ r, r ∈ df → Supplier r = None) →
   calculate_supplier_health_score df = Err (KeyError "health_score")) ∧
  (is_Ok (generate_summary_report df) ↔ ∃ r, r ∈ df ∧ Supplier r ≠ None).
Proof.
  assert (Hsup : is_Ok (calculate_supplier_health_score df)
                 ↔ ∃ r, r ∈ df ∧ Supplier r ≠ None).
  { unfold calculate_supplier_health_score.
    rewrite sort_values_desc_Ok, supplier_scores_nil_iff. split.
    - intros Hne.
      destruct (decide (Exists (λ r, Supplier r ≠ None) df)) as [Hex|Hex].
      + by apply list.Exists_exists in Hex.
      + destruct Hne. intros r Hr.
        destruct (Supplier r) as [s|] eqn:Hs; [|done]. destruct Hex.
        apply list.Exists_exists. exists r. split; [done|]. by rewrite Hs.
    - intros (r & Hr & Hs) Hall. by apply Hs, Hall. }
  split; [|split; [|split; [exact Hsup|split]]].
  - unfold calculate_store_health_score.
    by rewrite sort_values_desc_Ok, store_scores_nil_iff.
  - by intros ->.
  - intros Hall. unfold calculate_supplier_health_score.
    apply supplier_scores_nil_iff in Hall. by rewrite Hall.
  - rewrite <- Hsup. unfold generate_summary_report.
    destruct (calculate_store_health_score df) as [st|e] eqn:Hst.
    + destruct (calculate_supplier_health_score df); simpl; done.
    + simpl. split; [done|]. intros Hok. apply Hsup in Hok as (r & Hr & _).
      unfold calculate_store_health_score in Hst.
      assert (Hne : store_scores df ≠ []).
      { rewrite store_scores_nil_iff. intros ->. by apply elem_of_nil in Hr. }
      apply (sort_values_desc_Ok health_score "health_score") in Hne.
      by rewrite Hst in Hne.
Qed.

End health_tables.

Section health_partition.
Import DataQualityChecker.

(** X2. Each health table has exactly one line per store (resp. per
    supplier) of the frame, in order of non-increasing rounded score;
    every line counts at least one record, and the counts add up to the
    number of rows (resp. of rows that name a supplier): the lines
    partition the frame. *)
Theorem health_tables_partition (df : DataFrame) :
  (∀ rows, calculate_store_health_score df = Ok rows →
     NoDup (map store rows) ∧
     (∀ s, s ∈ map store rows ↔ s ∈ map Store_Name df) ∧
     StronglySorted (λ a b, health_score b ≤ health_score a) rows ∧
     Forall (λ r, (0 < total_records r)%nat) rows ∧
     sum_list (map total_records rows) = length df) ∧
  (∀ rows, calculate_supplier_health_score df = Ok rows →
     NoDup (map supplier rows) ∧
     (∀ s, s ∈ map supplier rows ↔ Some s ∈ map Supplier df) ∧
     StronglySorted (λ a b, s_health_score b ≤ s_health_score a) rows ∧
     Forall (λ r, (0 < s_total_records r)%nat) rows ∧
     sum_list (map s_total_records rows)
     = length (filter (λ r, Supplier r ≠ None) df)).
Proof.
  split; intros rows Hok.
  - destruct (sort_values_desc_sorted _ _ _ _ Hok) as (Hsorted & Hperm & _).
    assert (Hstores : map store rows ≡ₚ unique (map Store_Name df)).
    { rewrite Hperm. unfold store_scores. rewrite <- list_fmap_compose.
      by rewrite list_fmap_id. }
    assert (Hcount : map total_records rows ≡ₚ
              map (λ s, length (filter (λ r, Store_Name r = s) df))
                  (unique (map Store_Name df))).
    { rewrite Hperm. unfold store_scores. by rewrite <- list_fmap_compose. }
    split; [rewrite Hstores; apply NoDup_unique|].
    split; [intros s; by rewrite Hstores, elem_of_unique|].
    split; [exact Hsorted|]. split.
    + apply list.Forall_forall. intros r Hr.
      destruct (store_health_rows df rows r Hok Hr) as [-> Hs]. simpl.
      apply list_elem_of_fmap in Hs as (x & Hx & Hin).
      assert (Hne : filter (λ r0, Store_Name r0 = store r) df ≠ []).
      { by apply (filter_not_nil _ _ x). }
      destruct (filter _ df); [done|simpl; lia].
    + rewrite (sum_list_perm _ _ Hcount).
      rewrite <- (filter_all (λ x, is_Some (Some (Store_Name x))) df) at 2
        by eauto.
      rewrite <- (sum_group_sizes (λ x, Some (Store_Name x))
                    (unique (map Store_Name df))).
      * f_equal. apply list_fmap_ext. intros i s _. f_equal.
        apply list_filter_iff. intros x.
        split; [by intros ->|by intros [= ->]].
      * apply NoDup_unique.
      * intros x k Hx [= <-]. rewrite elem_of_unique.
        by apply list_elem_of_fmap_2.
  - destruct (sort_values_desc_sorted _ _ _ _ Hok) as (Hsorted & Hperm & _).
    assert (Hsup : map supplier rows ≡ₚ unique (dropna (map Supplier df))).
    { rewrite Hperm. unfold supplier_scores. rewrite <- list_fmap_compose.
      by rewrite list_fmap_id. }
    assert (Hcount : map s_total_records rows ≡ₚ
              map (λ s, length (filter (λ r, Supplier r = Some s) df))
                  (unique (dropna (map Supplier df)))).
    { rewrite Hperm. unfold supplier_scores.
      by rewrite <- list_fmap_compose. }
    assert (Hin : ∀ s, s ∈ dropna (map Supplier df)
                       ↔ Some s ∈ map Supplier df).
    { intros s. unfold dropna. rewrite list_elem_of_omap. split.
      - intros (o & Ho & E). simpl in E. by subst.
      - intros Hs. by exists (Some s). }
    split; [rewrite Hsup; apply NoDup_unique|].
    split; [intros s; by rewrite Hsup, elem_of_unique|].
    split; [exact Hsorted|]. split.
    + apply list.Forall_forall. intros r Hr.
      destruct (supplier_health_rows df rows r Hok Hr) as [-> Hs]. simpl.
      apply list_elem_of_fmap in Hs as (x & Hx & Hxin).
      assert (Hne : filter (λ r0, Supplier r0 = Some (supplier r)) df ≠ []).
      { by apply (filter_not_nil _ _ x). }
      destruct (filter _ df); [done|simpl; lia].
    + rewrite (sum_list_perm _ _ Hcount).
      rewrite (sum_group_sizes Supplier).
      * f_equal. apply list_filter_iff. intros x.
        rewrite <- not_eq_None_Some. done.
      * apply NoDup_unique.
      * intros x k Hx Hk. rewrite elem_of_unique, Hin, <- Hk.
        by apply list_elem_of_fmap_2.
Qed.

End health_partition.

(** ** A full score *)

Lemma Qc_of_nat_eq_0 (n : nat) : Qc_of_nat n = 0 ↔ n = 0%nat.
Proof.
  split; [|intros ->; by apply Qc_is_canon].
  intros Hn. destruct n as [|n]; [done|].
  assert (Hpos : 0 < Qc_of_nat (S n)) by (apply Qc_of_nat_pos; lia).
  rewrite Hn in Hpos. by apply Qclt_not_eq in Hpos.
Qed.

Lemma Qc_rate_eq_0 (n m : nat) :
  (0 < m)%nat → Qc_of_nat n / Qc_of_nat m = 0 ↔ n = 0%nat.
Proof.
  intros Hm. split.
  - intros Hz. apply Qc_of_nat_eq_0.
    rewrite <- (Qcmult_div_r (Qc_of_nat n) (Qc_of_nat m)).
    + rewrite Hz. ring.
    + rewrite Qc_of_nat_eq_0. lia.
  - intros ->. assert (Qc_of_nat 0 = 0) as -> by by apply Qc_is_canon.
    unfold Qcdiv. ring.
Qed.

Lemma length_filter_eq_0 {A} (P : A → Prop) `{∀ x, Decision (P x)}
    (l : list A) :
  length (filter P l) = 0%nat ↔ ∀ x, x ∈ l → ¬ P x.
Proof.
  rewrite length_zero_iff_nil. split.
  - intros Hnil x Hx HP. by apply (filter_not_nil P l x).
  - apply filter_nil_intro.
Qed.

Lemma count_true_duplicated_from `{EqDecision K} (seen l : list K) :
  DataQualityChecker.count_true (duplicated_from seen l) = 0%nat
  ↔ NoDup l ∧ ∀ x, x ∈ l → x ∉ seen.
Proof.
  unfold DataQualityChecker.count_true. revert seen.
  induction l as [|x l IH]; intros seen.
  { simpl. split; [|done]. intros _. split; [constructor|].
    intros x Hx. by apply elem_of_nil in Hx. }
  simpl. rewrite filter_cons. case_bool_decide as Hx.
  - rewrite decide_True by done. simpl. split; [done|].
    intros [_ Hall]. destruct (Hall x); [left|done].
  - rewrite decide_False by done. rewrite IH, list.NoDup_cons. split.
    + intros [Hnd Hall]. split; [split; [|done]|].
      * intros Hin. apply (Hall x Hin). left.
      * intros y Hy. apply elem_of_cons in Hy as [->|Hy]; [done|].
        intros Hs. apply (Hall y Hy). by right.
    + intros [[Hxl Hnd] Hall]. split; [done|]. intros y Hy Hs.
      apply elem_of_cons in Hs as [->|Hs]; [done|].
      apply (Hall y); [by right|done].
Qed.

Lemma count_true_duplicated_first `{EqDecision K} (l : list K) :
  DataQualityChecker.count_true (duplicated_first l) = 0%nat ↔ NoDup l.
Proof.
  unfold duplicated_first. rewrite count_true_duplicated_from. split.
  - by intros [? _].
  - intros Hnd. split; [done|]. intros x _ Hx. by apply elem_of_nil in Hx.
Qed.

Section full_score.
Import DataQualityChecker.

Lemma weighted_term_full (r w : Qc) :
  0 < w → Qcmax 0 ((1 - r) * w) = w ↔ r = 0.
Proof.
  intros Hw. split.
  - intros Hmax. destruct (Qcmax_spec 0 ((1 - r) * w)) as (_ & _ & [E|E]);
      rewrite Hmax in E.
    + rewrite E in Hw. by apply Qclt_not_eq in Hw.
    + assert (Hz : r * w = 0).
      { replace (r * w) with (w - (1 - r) * w) by ring. rewrite <- E. ring. }
      apply Qcmult_integral in Hz as [Hz|Hz]; [done|].
      rewrite Hz in Hw. by apply Qclt_not_eq in Hw.
  - intros ->. replace ((1 - 0) * w) with w by ring.
    unfold Qcmax. rewrite bool_decide_eq_true_2; [done|].
    by apply Qclt_le_weak.
Qed.

Lemma weighted_score_full (m o d : Qc) :
  0 ≤ m → 0 ≤ o → 0 ≤ d →
  weighted_score m o d = dec 100 1 ↔ m = 0 ∧ o = 0 ∧ d = 0.
Proof.
  intros Hm Ho Hd. split.
  - intros Hs. unfold weighted_score in Hs. cbn zeta in Hs.
    assert (H30 : 0 ≤ dec 30 1) by done.
    assert (H40 : 0 ≤ dec 40 1) by done.
    destruct (weighted_term_bounds m (dec 30 1) Hm H30) as [? ?].
    destruct (weighted_term_bounds o (dec 40 1) Ho H40) as [? ?].
    destruct (weighted_term_bounds d (dec 30 1) Hd H30) as [? ?].
    rewrite <- (weighted_term_full m (dec 30 1)) by done.
    rewrite <- (weighted_term_full o (dec 40 1)) by done.
    rewrite <- (weighted_term_full d (dec 30 1)) by done.
    set (a := Qcmax 0 ((1 - m) * dec 30 1)) in *.
    set (b := Qcmax 0 ((1 - o) * dec 40 1)) in *.
    set (c := Qcmax 0 ((1 - d) * dec 30 1)) in *.
    assert (Hge : dec 100 1 ≤ a + b + c) by (rewrite Hs; apply Qcle_refl).
    clearbody a b c. clear H30 H40 Hs.
    repeat split; apply Qcle_antisym; qc_order.
  - intros (-> & -> & ->). by apply Qc_is_canon.
Qed.

End full_score.

Section full_score_rows.
Import DataQualityChecker.

Lemma nat_sum_eq_0 (a b : nat) : (a + b = 0 ↔ a = 0 ∧ b = 0)%nat.
Proof. lia. Qed.

Lemma store_score_full_iff (g : DataFrame) :
  g ≠ [] →
  store_health_score g = dec 100 1 ↔
    (∀ r, r ∈ g → Supplier r ≠ None ∧ RRP r ≠ None ∧
                   ¬ Quantity r < 0 ∧ ¬ Total_Sales r < 0) ∧
    NoDup (map key_cols g).
Proof.
  intros Hg. assert (Hlen : (0 < length g)%nat).
  { destruct g; [done|simpl; lia]. }
  unfold store_health_score.
  rewrite weighted_score_full.
  2: { unfold store_missing_rate. cbn zeta. apply Qc_rate_nonneg. }
  2: { unfold store_outlier_rate. cbn zeta. apply Qc_rate_nonneg. }
  2: { unfold dup_rate. cbn zeta. apply Qc_rate_nonneg. }
  unfold store_missing_rate, store_outlier_rate, dup_rate. cbn zeta.
  rewrite !Qc_rate_eq_0 by lia. unfold isnull_sum. simpl.
  rewrite !nat_sum_eq_0, !length_filter_eq_0, count_true_duplicated_first.
  split.
  - intros ((Hs & Hr) & (Hq & Ht) & Hd). split; [|done].
    intros r Hin. repeat split; [apply Hs|apply Hr|apply Hq|apply Ht]; done.
  - intros (Hall & Hd). repeat split; [..|done]; intros r Hin;
      destruct (Hall r Hin) as (? & ? & ? & ?); done.
Qed.

Lemma supplier_score_full_iff (g : DataFrame) :
  g ≠ [] →
  supplier_health_score g = dec 100 1 ↔
    (∀ r, r ∈ g → RRP r ≠ None ∧ ¬ Quantity r < 0 ∧ ¬ Total_Sales r < 0 ∧
                   ¬ (Quantity r = 0 ∧ 0 < Total_Sales r)) ∧
    NoDup (map key_cols g).
Proof.
  intros Hg. assert (Hlen : (0 < length g)%nat).
  { destruct g; [done|simpl; lia]. }
  unfold supplier_health_score.
  rewrite weighted_score_full.
  2: { unfold supplier_missing_rate. cbn zeta. apply Qc_rate_nonneg. }
  2: { unfold supplier_outlier_rate. cbn zeta. apply Qc_rate_nonneg. }
  2: { unfold dup_rate. cbn zeta. apply Qc_rate_nonneg. }
  unfold supplier_missing_rate, supplier_outlier_rate, dup_rate. cbn zeta.
  rewrite !Qc_rate_eq_0 by lia. unfold isnull_sum. simpl.
  rewrite !nat_sum_eq_0, !length_filter_eq_0, count_true_duplicated_first.
  split.
  - intros (Hr & ((Hq & Ht) & Hz) & Hd). split; [|done].
    intros r Hin. repeat split; [apply Hr|apply Hq|apply Ht|apply Hz]; done.
  - intros (Hall & Hd). repeat split; [..|done]; intros r Hin;
      destruct (Hall r Hin) as (? & ? & ? & ?); done.
Qed.

(** X3. The unrounded health score of a non-empty group of rows is 100
    exactly when the group has no defect the score counts: for a store,
    no row lacks a supplier or an RRP, none has a negative quantity or
    negative sales, and no (store, item, date) key occurs twice; for a
    supplier the same without the supplier test and with no
    zero-quantity row that has sales.  Any such defect costs points. *)
Theorem full_health_score (g : DataFrame) :
  g ≠ [] →
  (store_health_score g = dec 100 1 ↔
     (∀ r, r ∈ g → Supplier r ≠ None ∧ RRP r ≠ None ∧
                    ¬ Quantity r < 0 ∧ ¬ Total_Sales r < 0) ∧
     NoDup (map key_cols g)) ∧
  (supplier_health_score g = dec 100 1 ↔
     (∀ r, r ∈ g → RRP r ≠ None ∧ ¬ Quantity r < 0 ∧ ¬ Total_Sales r < 0 ∧
                    ¬ (Quantity r = 0 ∧ 0 < Total_Sales r)) ∧
     NoDup (map key_cols g)).
Proof.
  intros Hg. split; [by apply store_score_full_iff|].
  by apply supplier_score_full_iff.
Qed.

End full_score_rows.

(** X3 at a single clean sale: its group scores 100. *)
Lemma full_health_score_witness :
  [row_with_rrp] ≠ [] ∧
  DataQualityChecker.store_health_score [row_with_rrp] = dec 100 1.
Proof.
  split; [done|].
  destruct (full_health_score [row_with_rrp]) as [[_ H] _]; [done|].
  apply H. split.
  - intros r Hr. apply list_elem_of_singleton in Hr as ->.
    repeat split; done.
  - apply NoDup_singleton.
Defined.

(** ** Duplicate clusters *)

Section duplicate_lines.
Import DataQualityChecker.

(** The line [check_duplicates] gives for a key: the sums over every
    row of the frame that carries it. *)
Definition cluster_line (df : DataFrame) (k : string * (Z * Z)) : DupSummary :=
  let members := filter (λ r, key_cols r = k) df in
  {| dup_key := k;
     dup_Quantity := Qcsum (map Quantity members);
     dup_Total_Sales := Qcsum (map Total_Sales members) |}.

Lemma duplicated_rows_keys (df : DataFrame) :
  unique (map key_cols (duplicated_rows df)) ≡ₚ duplicate_clusters df.
Proof.
  apply NoDup_Permutation.
  - apply NoDup_unique.
  - apply list.NoDup_filter, NoDup_unique.
  - intros k. unfold duplicate_clusters, duplicated_rows.
    rewrite elem_of_unique, list_elem_of_fmap, list_elem_of_filter,
      elem_of_unique, list_elem_of_fmap.
    unfold duplicated_all. split.
    + intros (r & -> & Hr). apply list_elem_of_filter in Hr as [Hd Hr].
      apply bool_decide_eq_true in Hd. eauto.
    + intros (Hd & r & -> & Hr). exists r. split; [done|].
      apply list_elem_of_filter. split; [|done].
      by apply bool_decide_eq_true.
Qed.

Lemma elem_of_duplicate_clusters (df : DataFrame) k :
  k ∈ duplicate_clusters df
  ↔ (2 ≤ length (filter (λ r, key_cols r = k) df))%nat.
Proof.
  unfold duplicate_clusters, count_key.
  rewrite list_elem_of_filter, elem_of_unique, filter_fmap, length_map.
  split; [intros [Hlen _]; exact Hlen|]. intros Hlen. split; [exact Hlen|].
  destruct (filter (λ r, key_cols r = k) df) as [|r g] eqn:Hf;
    [simpl in Hlen; lia|].
  assert (Hr : r ∈ filter (λ r, key_cols r = k) df) by (rewrite Hf; left).
  apply list_elem_of_filter in Hr as [<- Hr]. by apply list_elem_of_fmap_2.
Qed.

Lemma check_duplicates_eq (df : DataFrame) :
  check_duplicates df = map (cluster_line df) (sort_keys (duplicate_clusters df)).
Proof.
  unfold check_duplicates. fold (duplicated_rows df).
  pose proof (duplicated_rows_keys df) as Hkeys.
  case_bool_decide as Hpos.
  - transitivity
      (map (λ kg : (string * (Z * Z)) * DataFrame,
              {| dup_key := kg.1;
                 dup_Quantity := Qcsum (map Quantity kg.2);
                 dup_Total_Sales := Qcsum (map Total_Sales kg.2) |})
           (groupby (λ r, Some (key_cols r)) (duplicated_rows df))).
    { apply list_fmap_ext. by intros i [k g] _. }
    rewrite (groupby_agg (λ k g, {| dup_key := k;
                                    dup_Quantity := Qcsum (map Quantity g);
                                    dup_Total_Sales := Qcsum (map Total_Sales g) |})).
    unfold group_keys. rewrite omap_Some, (sort_keys_perm _ _ Hkeys).
    apply list_fmap_ext. intros i k Hk. apply list_elem_of_lookup_2 in Hk.
    rewrite elem_of_sort_keys, elem_of_duplicate_clusters in Hk.
    unfold cluster_line. cbn zeta. unfold DataFrame in *.
    assert (Hf : filter (λ r, Some (key_cols r) = Some k) (duplicated_rows df)
                 = filter (λ r, key_cols r = k) df).
    { unfold duplicated_rows, DataFrame. rewrite list_filter_filter.
      apply list_filter_iff. intros r. split.
      - by intros [[= ->] _].
      - intros <-. split; [done|]. unfold duplicated_all.
        apply bool_decide_eq_true. unfold count_key.
        rewrite filter_fmap, length_map. exact Hk. }
    f_equal; do 2 f_equal; exact Hf.
  - assert (Hnil : duplicated_rows df = []).
    { destruct (duplicated_rows df); [done|simpl in Hpos; lia]. }
    rewrite Hnil in Hkeys. simpl in Hkeys.
    apply Permutation_nil_l in Hkeys. by rewrite <- Hkeys.
Qed.

(** X4. [check_duplicates] returns one line per duplicate cluster, the
    keys in ascending order.  The sums of a line run over every row of
    the frame that carries the key, the first occurrence included, and
    there are at least two such rows. *)
Theorem check_duplicates_lines (df : DataFrame) :
  map dup_key (check_duplicates df) = sort_keys (duplicate_clusters df) ∧
  Forall (λ d,
            let members := filter (λ r, key_cols r = dup_key d) df in
            (2 ≤ length members)%nat ∧
            dup_Quantity d = Qcsum (map Quantity members) ∧
            dup_Total_Sales d = Qcsum (map Total_Sales members))
         (check_duplicates df).
Proof.
  rewrite check_duplicates_eq. split.
  - rewrite <- list_fmap_compose. apply list_fmap_id.
  - apply list.Forall_forall. intros d Hd.
    apply list_elem_of_fmap in Hd as (k & -> & Hk). simpl.
    rewrite elem_of_sort_keys, elem_of_duplicate_clusters in Hk. done.
Qed.

End duplicate_lines.

(** ** Outlier buckets *)

Section outlier_buckets.
Import DataQualityChecker.

(** What puts a row in the bucket of a given name. *)
Definition outlier_rule (name : string) (r : Row) : Prop :=
  if bool_decide (name = "negative_quantity") then Quantity r < 0
  else if bool_decide (name = "zero_qty_with_sales") then
    Quantity r = 0 ∧ 0 < Total_Sales r
  else if bool_decide (name = "negative_sales") then Total_Sales r < 0
  else if bool_decide (name = "extreme_high_price") then
    0 < Quantity r ∧
    ∃ rrp, RRP r = Some rrp ∧ rrp * dec 10 1 < Total_Sales r / Quantity r
  else if bool_decide (name = "extreme_low_price") then
    0 < Quantity r ∧
    ∃ rrp, RRP r = Some rrp ∧ Total_Sales r / Quantity r < rrp * dec 1 100
  else False.

(** The source rows of a bucket, and the unit prices it carries. *)
Definition bucket_rows (b : Bucket) : list Row :=
  match b with
  | Rows rows => rows
  | Priced rows => map fst rows
  end.

Lemma assoc_bucket (name n : string) (b : Bucket) (c : nat) rest :
  c = bucket_len b →
  assoc name ((if bool_decide (0 < c)%nat then [(n, b)] else []) ++ rest)
  = if decide (n = name ∧ (0 < bucket_len b)%nat) then Some b
    else assoc name rest.
Proof.
  intros ->. case_bool_decide as Hlen; simpl.
  - case_bool_decide as Hn.
    + by rewrite decide_True.
    + rewrite decide_False; [done|]. by intros [? _].
  - rewrite decide_False; [done|]. by intros [_ ?].
Qed.

Lemma bucket_len_rows (b : Bucket) : bucket_len b = length (bucket_rows b).
Proof. destruct b; simpl; [done|]. by rewrite length_map. Qed.

Lemma elem_of_priced_rows (P : Row * Qc → Prop) `{∀ p, Decision (P p)}
    (df : DataFrame) (r : Row) :
  r ∈ map fst (filter P (filter (λ p : Row * Qc, RRP p.1 ≠ None)
                 (map (λ r, (r, Total_Sales r / Quantity r))
                      (filter (λ r, 0 < Quantity r) df))))
  ↔ r ∈ df ∧ 0 < Quantity r ∧ RRP r ≠ None
    ∧ P (r, Total_Sales r / Quantity r).
Proof.
  rewrite list_elem_of_fmap. split.
  - intros (p & -> & Hp). apply list_elem_of_filter in Hp as [HP Hp].
    apply list_elem_of_filter in Hp as [Hrrp Hp].
    apply list_elem_of_fmap in Hp as (r & -> & Hr).
    apply list_elem_of_filter in Hr as [Hq Hr]. done.
  - intros (Hr & Hq & Hrrp & HP). exists (r, Total_Sales r / Quantity r).
    split; [done|]. apply list_elem_of_filter. split; [done|].
    apply list_elem_of_filter. split; [done|].
    apply list_elem_of_fmap. exists r. split; [done|].
    by apply list_elem_of_filter.
Qed.

Lemma fgtb_fmul_rrp (x : Qc) (rrp : fval) (c : Qc) :
  fgtb (Some x) (fmul rrp (Some c)) = true
  ↔ ∃ y, rrp = Some y ∧ y * c < x.
Proof.
  destruct rrp as [y|]; simpl.
  - rewrite bool_decide_eq_true. split; [eauto|]. by intros (? & [= <-] & ?).
  - split; [done|]. by intros (? & ? & _).
Qed.

Lemma fltb_fmul_rrp (x : Qc) (rrp : fval) (c : Qc) :
  fltb (Some x) (fmul rrp (Some c)) = true
  ↔ ∃ y, rrp = Some y ∧ x < y * c.
Proof.
  destruct rrp as [y|]; simpl.
  - rewrite bool_decide_eq_true. split; [eauto|]. by intros (? & [= <-] & ?).
  - split; [done|]. by intros (? & ? & _).
Qed.

Lemma outlier_rule_names (r : Row) :
  outlier_rule "negative_quantity" r = (Quantity r < 0) ∧
  outlier_rule "zero_qty_with_sales" r
  = (Quantity r = 0 ∧ 0 < Total_Sales r) ∧
  outlier_rule "negative_sales" r = (Total_Sales r < 0) ∧
  outlier_rule "extreme_high_price" r
  = (0 < Quantity r ∧
     ∃ rrp, RRP r = Some rrp ∧ rrp * dec 10 1 < Total_Sales r / Quantity r) ∧
  outlier_rule "extreme_low_price" r
  = (0 < Quantity r ∧
     ∃ rrp, RRP r = Some rrp ∧ Total_Sales r / Quantity r < rrp * dec 1 100).
Proof. repeat split; reflexivity. Qed.

Lemma no_row_of_empty_bucket (b : Bucket) (P : Row → Prop) (df : DataFrame) :
  (∀ r, r ∈ bucket_rows b ↔ r ∈ df ∧ P r) →
  ¬ (0 < bucket_len b)%nat → ∀ r, r ∈ df → ¬ P r.
Proof.
  intros Hb Hlen r Hr HP. rewrite bucket_len_rows in Hlen.
  assert (Hin : r ∈ bucket_rows b) by by apply Hb.
  destruct (bucket_rows b); [by apply elem_of_nil in Hin|simpl in Hlen; lia].
Qed.

Ltac empty_bucket :=
  match goal with
  | Hn : ¬ (?n = ?n ∧ _) |- _ =>
      let Hlen := fresh in
      intros Hlen; apply Hn; split; [reflexivity|exact Hlen]
  end.

Lemma check_outliers_lookup (df : DataFrame) (name : string) :
  match assoc name (check_outliers df) with
  | Some b =>
      (0 < bucket_len b)%nat ∧
      ∀ r, r ∈ bucket_rows b ↔ r ∈ df ∧ outlier_rule name r
  | None => ∀ r, r ∈ df → ¬ outlier_rule name r
  end.
Proof.
  assert (H1 : ∀ r, r ∈ bucket_rows (Rows (filter (λ r, Quantity r < 0) df))
                 ↔ r ∈ df ∧ outlier_rule "negative_quantity" r).
  { intros r. simpl. rewrite list_elem_of_filter.
    destruct (outlier_rule_names r) as (-> & _). tauto. }
  assert (H2 : ∀ r,
             r ∈ bucket_rows
                   (Rows (filter (λ r, Quantity r = 0 ∧ 0 < Total_Sales r) df))
             ↔ r ∈ df ∧ outlier_rule "zero_qty_with_sales" r).
  { intros r. simpl. rewrite list_elem_of_filter.
    destruct (outlier_rule_names r) as (_ & -> & _). tauto. }
  assert (H3 : ∀ r, r ∈ bucket_rows (Rows (filter (λ r, Total_Sales r < 0) df))
                 ↔ r ∈ df ∧ outlier_rule "negative_sales" r).
  { intros r. simpl. rewrite list_elem_of_filter.
    destruct (outlier_rule_names r) as (_ & _ & -> & _). tauto. }
  pose proof (λ r, elem_of_priced_rows
    (λ p, fgtb (Some p.2) (fmul (RRP p.1) (Some (dec 10 1))) = true) df r)
    as H4.
  pose proof (λ r, elem_of_priced_rows
    (λ p, fltb (Some p.2) (fmul (RRP p.1) (Some (dec 1 100))) = true) df r)
    as H5.
  assert (H4' : ∀ r, r ∈ df ∧ 0 < Quantity r ∧ RRP r ≠ None ∧
                  fgtb (Some (Total_Sales r / Quantity r))
                       (fmul (RRP r) (Some (dec 10 1))) = true
                ↔ r ∈ df ∧ outlier_rule "extreme_high_price" r).
  { intros r. rewrite fgtb_fmul_rrp.
    destruct (outlier_rule_names r) as (_ & _ & _ & -> & _).
    split; [tauto|]. intros (? & ? & y & Hy & ?).
    repeat split; [done..| |by exists y]. by rewrite Hy. }
  assert (H5' : ∀ r, r ∈ df ∧ 0 < Quantity r ∧ RRP r ≠ None ∧
                  fltb (Some (Total_Sales r / Quantity r))
                       (fmul (RRP r) (Some (dec 1 100))) = true
                ↔ r ∈ df ∧ outlier_rule "extreme_low_price" r).
  { intros r. rewrite fltb_fmul_rrp.
    destruct (outlier_rule_names r) as (_ & _ & _ & _ & ->).
    split; [tauto|]. intros (? & ? & y & Hy & ?).
    repeat split; [done..| |by exists y]. by rewrite Hy. }
  rewrite <- (app_nil_r (check_outliers df)). unfold check_outliers.
  cbn zeta. rewrite <- !app_assoc.
  rewrite !assoc_bucket by reflexivity. simpl assoc.
  repeat case_decide.
  - destruct_and!. subst name. split; [done|exact H1].
  - destruct_and!. subst name. split; [done|exact H2].
  - destruct_and!. subst name. split; [done|exact H3].
  - destruct_and!. subst name. split; [done|].
    intros r. rewrite <- H4'. apply H4.
  - destruct_and!. subst name. split; [done|].
    intros r. rewrite <- H5'. apply H5.
  - intros r Hr Hrule. unfold outlier_rule in Hrule.
    repeat case_bool_decide; subst; try done.
    + eapply (no_row_of_empty_bucket _ _ df H1);
        [empty_bucket|exact Hr|exact Hrule].
    + eapply (no_row_of_empty_bucket _ _ df H2);
        [empty_bucket|exact Hr|exact Hrule].
    + eapply (no_row_of_empty_bucket _ _ df H3);
        [empty_bucket|exact Hr|exact Hrule].
    + eapply (no_row_of_empty_bucket (Priced _)
                (outlier_rule "extreme_high_price") df);
        [intros r'; rewrite <- H4'; apply H4|empty_bucket|exact Hr
        |exact Hrule].
    + eapply (no_row_of_empty_bucket (Priced _)
                (outlier_rule "extreme_low_price") df);
        [intros r'; rewrite <- H5'; apply H5|empty_bucket|exact Hr
        |exact Hrule].
Qed.

(** X5. [check_outliers] is a dictionary with at most one bucket per
    name.  A name is a key exactly when the frame has a row of that
    kind: the bucket is then non-empty and holds exactly those rows;
    a name without a bucket has no such row.  The kinds are: negative
    quantity; zero quantity with positive sales; negative sales; and,
    among rows with a positive quantity and an RRP, a unit price above
    ten times, resp. below a hundredth of, the RRP. *)
Theorem check_outliers_buckets (df : DataFrame) (name : string) :
  NoDup (map fst (check_outliers df)) ∧
  match assoc name (check_outliers df) with
  | Some b =>
      (0 < bucket_len b)%nat ∧
      ∀ r, r ∈ bucket_rows b ↔ r ∈ df ∧ outlier_rule name r
  | None => ∀ r, r ∈ df → ¬ outlier_rule name r
  end.
Proof.
  split; [|apply check_outliers_lookup].
  unfold check_outliers. cbn zeta.
  repeat case_bool_decide; simpl; apply (bool_decide_unpack _); by vm_compute.
Qed.

End outlier_buckets.

(** ** Missing values and the key issues *)

Section key_issues_facts.
Import DataQualityChecker.

Definition missing_line (df : DataFrame) (c : string) : MissingStat :=
  {| column := c;
     missing_count := isnull_sum c df;
     missing_pct :=
       fmul (fdiv (Some (Qc_of_nat (isnull_sum c df)))
                  (Some (Qc_of_nat (length df))))
            (Some (dec 100 1)) |}.

Lemma check_missing_values_eq (df : DataFrame) :
  check_missing_values df
  = filter (λ m, (0 < missing_count m)%nat)
           [missing_line df "Supplier"; missing_line df "RRP"].
Proof.
  unfold check_missing_values, columns. cbn zeta. simpl map.
  rewrite !filter_cons. simpl. reflexivity.
Qed.

Lemma length_filter_pos {A} (P : A → Prop) `{∀ x, Decision (P x)}
    (l : list A) :
  (0 < length (filter P l))%nat ↔ ∃ x, x ∈ l ∧ P x.
Proof.
  split.
  - intros Hpos. destruct (filter P l) as [|x g] eqn:Hf; [simpl in Hpos; lia|].
    assert (Hx : x ∈ filter P l) by (rewrite Hf; left).
    apply list_elem_of_filter in Hx as [? ?]. eauto.
  - intros (x & Hx & HP). pose proof (filter_not_nil P l x Hx HP) as Hne.
    destruct (filter P l); [done|simpl; lia].
Qed.

Lemma isnull_sum_pos (df : DataFrame) :
  ((0 < isnull_sum "Supplier" df)%nat ↔ ∃ r, r ∈ df ∧ Supplier r = None) ∧
  ((0 < isnull_sum "RRP" df)%nat ↔ ∃ r, r ∈ df ∧ RRP r = None).
Proof. unfold isnull_sum. simpl. split; apply length_filter_pos. Qed.

Lemma isnull_sum_le (c : string) (df : DataFrame) :
  (isnull_sum c df ≤ length df)%nat.
Proof.
  unfold isnull_sum. repeat case_bool_decide; try apply length_filter. lia.
Qed.

Lemma Qc_share_pos (n m : nat) :
  (0 < n)%nat → (n ≤ m)%nat →
  0 < Qc_of_nat n / Qc_of_nat m * dec 100 1 ≤ dec 100 1.
Proof.
  intros Hn Hnm. destruct (Qc_share_bounds n m Hnm) as [_ Hle]; [lia|].
  split; [|done].
  assert (Hne : Qc_of_nat n / Qc_of_nat m ≠ 0).
  { rewrite Qc_rate_eq_0 by lia. lia. }
  pose proof (Qc_rate_nonneg n m) as H0.
  assert (Hpos : 0 < Qc_of_nat n / Qc_of_nat m).
  { apply Qcle_lt_or_eq in H0 as [?|E]; [done|]. by destruct Hne. }
  set (x := Qc_of_nat n / Qc_of_nat m) in *. clearbody x. qc_order.
Qed.

(** X6. [check_missing_values] lists a column exactly when it has a
    null: "Supplier" when some row lacks a supplier, "RRP" when some
    row lacks an RRP, and no other column.  A line reports between 1
    and [len(df)] missing cells, and its percentage is
    [count / len(df) * 100], above 0 and at most 100. *)
Theorem check_missing_values_lines (df : DataFrame) :
  (∀ c, c ∈ map column (check_missing_values df) ↔
        (c = "Supplier" ∧ ∃ r, r ∈ df ∧ Supplier r = None) ∨
        (c = "RRP" ∧ ∃ r, r ∈ df ∧ RRP r = None)) ∧
  Forall (λ m,
            (0 < missing_count m ≤ length df)%nat ∧
            missing_count m = isnull_sum (column m) df ∧
            ∃ pct, missing_pct m = Some pct ∧
                   pct = Qc_of_nat (missing_count m) / Qc_of_nat (length df)
                         * dec 100 1 ∧
                   0 < pct ≤ dec 100 1)
         (check_missing_values df).
Proof.
  rewrite check_missing_values_eq.
  destruct (isnull_sum_pos df) as [HS HR]. split.
  - intros c. rewrite list_elem_of_fmap. rewrite <- HS, <- HR. split.
    + intros (m & -> & Hm). apply list_elem_of_filter in Hm as [Hpos Hm].
      rewrite !elem_of_cons, elem_of_nil in Hm.
      destruct Hm as [->|[->|[]]]; [left|right]; done.
    + intros [[-> Hpos]|[-> Hpos]]; eexists (missing_line df _);
        (split; [reflexivity|]); apply list_elem_of_filter;
        (split; [exact Hpos|]); rewrite !elem_of_cons; auto.
  - apply list.Forall_forall. intros m Hm.
    apply list_elem_of_filter in Hm as [Hpos Hm].
    assert (Hm' : ∃ c, m = missing_line df c).
    { rewrite !elem_of_cons, elem_of_nil in Hm.
      destruct Hm as [->|[->|[]]]; eauto. }
    destruct Hm' as [c ->]. simpl in *.
    pose proof (isnull_sum_le c df) as Hle.
    split; [lia|]. split; [done|].
    rewrite bool_decide_eq_false_2.
    2: { rewrite Qc_of_nat_eq_0. lia. }
    eexists. split; [reflexivity|]. split; [done|].
    by apply Qc_share_pos.
Qed.

Lemma count_key_cons `{EqDecision K} (k x : K) (l : list K) :
  count_key k (x :: l)
  = ((if decide (x = k) then 1 else 0) + count_key k l)%nat.
Proof. unfold count_key. rewrite filter_cons. by case_decide. Qed.

Lemma count_key_pos `{EqDecision K} (k : K) (l : list K) :
  k ∈ l → (0 < count_key k l)%nat.
Proof.
  intros Hk. unfold count_key. apply length_filter_pos. by exists k.
Qed.

Lemma count_key_absent `{EqDecision K} (k : K) (l : list K) :
  k ∉ l → count_key k l = 0%nat.
Proof.
  intros Hk. unfold count_key. apply length_filter_eq_0.
  intros x Hx ->. done.
Qed.

(** No key is carried twice exactly when every key is counted once. *)
Lemma NoDup_count_key `{EqDecision K} (l : list K) :
  NoDup l ↔ ∀ k, k ∈ l → (count_key k l ≤ 1)%nat.
Proof.
  induction l as [|x l IH].
  { split; [|constructor]. intros _ k Hk. by apply elem_of_nil in Hk. }
  rewrite list.NoDup_cons, IH. split.
  - intros [Hx Hl] k Hk. rewrite count_key_cons. case_decide as Hxk.
    + subst. by rewrite count_key_absent.
    + apply elem_of_cons in Hk as [->|Hk]; [done|]. by apply Hl.
  - intros Hall. split.
    + intros Hx. assert (Hc : (count_key x (x :: l) ≤ 1)%nat).
      { apply Hall. left. }
      rewrite count_key_cons, decide_True in Hc by done.
      pose proof (count_key_pos x l Hx). lia.
    + intros k Hk. assert (Hc : (count_key k (x :: l) ≤ 1)%nat).
      { apply Hall. by right. }
      rewrite count_key_cons in Hc. lia.
Qed.

Lemma duplicate_clusters_nil (df : DataFrame) :
  duplicate_clusters df = [] ↔ NoDup (map key_cols df).
Proof.
  rewrite NoDup_count_key. unfold duplicate_clusters. split.
  - intros Hnil k Hk. apply Nat.nlt_ge. intros Hlt.
    apply (filter_not_nil
             (λ k, (1 < count_key k (map key_cols df))%nat)
             (unique (map key_cols df)) k); [|done..].
    by apply elem_of_unique.
  - intros Hall. apply filter_nil_intro. intros k Hk.
    rewrite elem_of_unique in Hk. apply Hall in Hk. lia.
Qed.

Lemma check_outliers_nonempty (df : DataFrame) :
  Forall (λ kb, (0 < bucket_len kb.2)%nat) (check_outliers df).
Proof.
  unfold check_outliers. cbn zeta.
  repeat case_bool_decide; simpl; repeat constructor; done.
Qed.

Lemma check_outliers_nil (df : DataFrame) :
  check_outliers df = [] ↔ ∀ name r, r ∈ df → ¬ outlier_rule name r.
Proof.
  split.
  - intros Hnil name. pose proof (check_outliers_lookup df name) as Hl.
    by rewrite Hnil in Hl.
  - intros Hall. destruct (check_outliers df) as [|[n b] rest] eqn:Ho; [done|].
    pose proof (check_outliers_lookup df n) as Hl. rewrite Ho in Hl.
    simpl in Hl. rewrite bool_decide_eq_true_2 in Hl by done.
    destruct Hl as [Hlen Hb]. rewrite bucket_len_rows in Hlen.
    destruct (bucket_rows b) as [|r g]; [simpl in Hlen; lia|].
    destruct (Hb r) as [[Hr Hrule] _]; [left|]. by destruct (Hall n r).
Qed.

Lemma and_iff (A A' B B' : Prop) : (A ↔ A') → (B ↔ B') → (A ∧ B ↔ A' ∧ B').
Proof. tauto. Qed.

Lemma identify_key_issues_nil missing duplicates outliers store_health
    supplier_health :
  Forall (λ kb : string * Bucket, (0 < bucket_len kb.2)%nat) outliers →
  _identify_key_issues missing duplicates outliers store_health
                       supplier_health = []
  ↔ filter (λ m, column m ∈ ["Supplier"; "RRP"]) missing = [] ∧
    duplicates = [] ∧ outliers = [] ∧
    filter (λ r, health_score r < dec 60 1) store_health = [] ∧
    filter (λ r, s_health_score r < dec 60 1) supplier_health = [].
Proof.
  intros Hout. unfold _identify_key_issues. cbn zeta. rewrite !app_nil.
  assert (Hpos : ∀ {A} (l : list A), (0 < length l)%nat ↔ l ≠ []).
  { intros A l. destruct l; simpl; split; (done || lia). }
  repeat apply and_iff.
  - destruct (filter _ missing) as [|m crit] eqn:Hc.
    + split; [done|]. intros _. by repeat case_bool_decide.
    + split; [|done]. rewrite !bool_decide_eq_true_2; [done|simpl; lia|].
      destruct missing; [done|simpl; lia].
  - destruct duplicates; [done|]. split; [|done].
    by rewrite bool_decide_eq_true_2 by (simpl; lia).
  - destruct outliers as [|[n b] rest]; [done|]. split; [|done].
    apply Forall_cons_1 in Hout as [Hb _]. simpl in Hb. simpl.
    by rewrite bool_decide_eq_true_2.
  - destruct (filter _ store_health); [done|]. split; [|done].
    by rewrite bool_decide_eq_true_2 by (simpl; lia).
  - destruct (filter _ supplier_health); [done|]. split; [|done].
    by rewrite bool_decide_eq_true_2 by (simpl; lia).
Qed.

Lemma critical_missing_nil (df : DataFrame) :
  filter (λ m, column m ∈ ["Supplier"; "RRP"]) (check_missing_values df) = []
  ↔ ∀ r, r ∈ df → Supplier r ≠ None ∧ RRP r ≠ None.
Proof.
  destruct (isnull_sum_pos df) as [HS HR].
  rewrite check_missing_values_eq.
  rewrite (filter_all (λ m, column m ∈ ["Supplier"; "RRP"])).
  2: { intros m Hm. apply list_elem_of_filter in Hm as [_ Hm].
       rewrite !elem_of_cons, elem_of_nil in Hm.
       destruct Hm as [->|[->|[]]]; simpl; [left|right; left]. }
  rewrite <- length_zero_iff_nil, length_filter_eq_0. split.
  - intros Hnil r Hr. split; intros E.
    + apply (Hnil (missing_line df "Supplier")); [left|].
      simpl. apply HS. eauto.
    + apply (Hnil (missing_line df "RRP")); [right; left|].
      simpl. apply HR. eauto.
  - intros Hall m Hm Hpos. rewrite !elem_of_cons, elem_of_nil in Hm.
    destruct Hm as [->|[->|[]]]; simpl in Hpos;
      [apply HS in Hpos|apply HR in Hpos];
      destruct Hpos as (r & Hr & E); by destruct (Hall r Hr).
Qed.

Lemma NoDup_keys_filter (P : Row → Prop) `{∀ r, Decision (P r)}
    (df : DataFrame) :
  NoDup (map key_cols df) → NoDup (map key_cols (filter P df)).
Proof.
  intros Hnd. apply (sublist_NoDup _ _ Hnd), fmap_sublist, sublist_filter.
Qed.

(** X7. The summary report lists no key issue exactly when the frame
    is clean: every row has a supplier and an RRP, no (store, item,
    date) key is carried by two rows, and no row is an outlier of any
    kind.  In particular a clean frame never yields a "poor data
    quality" line: all its stores and suppliers score 100. *)
Theorem key_issues_empty_iff (df : DataFrame) (rep : Report) :
  generate_summary_report df = Ok rep →
  key_issues rep = [] ↔
    (∀ r, r ∈ df → Supplier r ≠ None ∧ RRP r ≠ None) ∧
    NoDup (map key_cols df) ∧
    (∀ name r, r ∈ df → ¬ outlier_rule name r).
Proof.
  unfold generate_summary_report.
  destruct (calculate_store_health_score df) as [sh|] eqn:Hsh; [|done].
  destruct (calculate_supplier_health_score df) as [su|] eqn:Hsu; [|done].
  intros [= <-]. cbn [key_issues].
  rewrite identify_key_issues_nil by apply check_outliers_nonempty.
  rewrite critical_missing_nil, check_outliers_nil.
  assert (check_duplicates df = [] ↔ NoDup (map key_cols df)) as ->.
  { rewrite <- duplicate_clusters_nil.
    by rewrite <- !length_zero_iff_nil, length_check_duplicates. }
  split; [tauto|]. intros (Hmiss & Hdup & Hout).
  split; [done|]. split; [done|]. split; [done|].
  assert (Hfull : round2 (dec 100 1) < dec 60 1 → False).
  { intros Hlt. by vm_compute in Hlt. }
  split; apply filter_nil_intro; intros r Hr.
  - destruct (store_health_rows df sh r Hsh Hr) as [-> Hs].
    cbn [health_score store_row].
    apply list_elem_of_fmap in Hs as (x & Hx & Hin).
    rewrite (proj2 (store_score_full_iff _
               (filter_not_nil _ df x Hin (eq_sym Hx)))); [exact Hfull|].
    split; [|by apply NoDup_keys_filter].
    intros y Hy. apply list_elem_of_filter in Hy as [_ Hy].
    destruct (Hmiss y Hy). repeat split; [done..| |].
    + exact (Hout "negative_quantity" y Hy).
    + exact (Hout "negative_sales" y Hy).
  - destruct (supplier_health_rows df su r Hsu Hr) as [-> Hs].
    cbn [s_health_score supplier_row].
    apply list_elem_of_fmap in Hs as (x & Hx & Hin).
    rewrite (proj2 (supplier_score_full_iff _
               (filter_not_nil _ df x Hin (eq_sym Hx)))); [exact Hfull|].
    split; [|by apply NoDup_keys_filter].
    intros y Hy. apply list_elem_of_filter in Hy as [_ Hy].
    destruct (Hmiss y Hy). repeat split; [done| | |].
    + exact (Hout "negative_quantity" y Hy).
    + exact (Hout "negative_sales" y Hy).
    + exact (Hout "zero_qty_with_sales" y Hy).
Qed.

End key_issues_facts.

(** X7 at a single clean sale: its report lists no issue. *)
Lemma key_issues_empty_witness :
  ∃ rep, DataQualityChecker.generate_summary_report [row_with_rrp] = Ok rep ∧
         DataQualityChecker.key_issues rep = [].
Proof.
  destruct (DataQualityChecker.generate_summary_report [row_with_rrp])
    as [rep|e] eqn:Hok; [|by vm_compute in Hok].
  exists rep. split; [reflexivity|].
  apply (key_issues_empty_iff _ _ Hok). split; [|split].
  - intros r Hr. apply list_elem_of_singleton in Hr as ->. done.
  - apply NoDup_singleton.
  - intros name r Hr. apply list_elem_of_singleton in Hr as ->.
    unfold outlier_rule. simpl. repeat case_bool_decide.
    + intros Hlt. by vm_compute in Hlt.
    + intros [Hq _]. by apply (f_equal this) in Hq.
    + intros Hlt. by vm_compute in Hlt.
    + intros [_ (rrp & [= <-] & Hlt)]. by vm_compute in Hlt.
    + intros [_ (rrp & [= <-] & Hlt)]. by vm_compute in Hlt.
    + by intros [].
Defined.

(* ================================================================== *)
(** ** The prepared frames *)

#[export] Instance has_rrp_dec (r : Row) : Decision (has_rrp r).
Proof.
  unfold has_rrp. destruct (RRP r) as [x|].
  - destruct (decide (0 < x)) as [Hx|Hx].
    + left. by exists x.
    + right. by intros (y & [= <-] & Hy).
  - right. by intros (y & [=] & _).
Defined.

Lemma positive_unit_price (r : Row) :
  0 < Quantity r →
  np_where (bool_decide (0 < Quantity r))
           (fdiv (Some (Total_Sales r)) (Some (Quantity r))) None
  = Some (Total_Sales r / Quantity r).
Proof.
  intros Hq. rewrite bool_decide_eq_true_2 by done. unfold np_where, fdiv.
  rewrite bool_decide_eq_false_2; [done|].
  intros E. rewrite E in Hq. by apply (Qclt_not_eq 0 0).
Qed.

Section prepared.

(** X8. What the two engines keep of the frame they are given.  The
    promotion engine keeps, in frame order, exactly the rows with a
    positive quantity and a positive RRP; the price-index engine
    exactly those with a positive quantity and a supplier.  Every
    kept row carries [unit_price = Total Sales / Quantity], and
    preparing the kept rows again changes nothing. *)
Theorem prepare_data_rows (df : DataFrame) :
  (map PromotionAnalyzer.base (PromotionAnalyzer._prepare_data df)
   = filter (λ r, 0 < Quantity r ∧ has_rrp r) df ∧
   Forall (λ p, PromotionAnalyzer.unit_price p
                = Some (Total_Sales (PromotionAnalyzer.base p)
                        / Quantity (PromotionAnalyzer.base p)))
          (PromotionAnalyzer._prepare_data df) ∧
   PromotionAnalyzer._prepare_data
     (map PromotionAnalyzer.base (PromotionAnalyzer._prepare_data df))
   = PromotionAnalyzer._prepare_data df) ∧
  (map PricingIndexAnalyzer.base (PricingIndexAnalyzer._prepare_data df)
   = filter (λ r, 0 < Quantity r ∧ Supplier r ≠ None) df ∧
   Forall (λ p, PricingIndexAnalyzer.unit_price p
                = Some (Total_Sales (PricingIndexAnalyzer.base p)
                        / Quantity (PricingIndexAnalyzer.base p)))
          (PricingIndexAnalyzer._prepare_data df) ∧
   PricingIndexAnalyzer._prepare_data
     (map PricingIndexAnalyzer.base (PricingIndexAnalyzer._prepare_data df))
   = PricingIndexAnalyzer._prepare_data df).
Proof.
  split.
  - assert (Hrows : ∀ l,
      map PromotionAnalyzer.base (PromotionAnalyzer._prepare_data l)
      = filter (λ r, 0 < Quantity r ∧ has_rrp r) l).
    { intros l. unfold PromotionAnalyzer._prepare_data.
      rewrite filter_fmap, map_map. simpl. rewrite map_id.
      apply list_filter_iff. intros r. simpl. unfold has_rrp.
      rewrite fgtb_Some_0. split.
      - tauto.
      - intros [Hq (x & Hx & Hpos)]. rewrite positive_unit_price by done.
        rewrite Hx. repeat split; eauto. }
    split; [apply Hrows|]. split.
    + apply list.Forall_forall. intros p.
      unfold PromotionAnalyzer._prepare_data.
      rewrite list_elem_of_filter, list_elem_of_fmap.
      intros ((Hq & _) & r & -> & _). simpl in *.
      by apply positive_unit_price.
    + rewrite Hrows. unfold PromotionAnalyzer._prepare_data.
      rewrite !filter_fmap. f_equal. unfold DataFrame in *.
      rewrite list_filter_filter.
      apply list_filter_iff. intros r. simpl. unfold has_rrp.
      rewrite fgtb_Some_0. split; [tauto|].
      intros (Hq & Hn & Hr & Hu). by repeat split.
  - assert (Hrows : ∀ l,
      map PricingIndexAnalyzer.base (PricingIndexAnalyzer._prepare_data l)
      = filter (λ r, 0 < Quantity r ∧ Supplier r ≠ None) l).
    { intros l. unfold PricingIndexAnalyzer._prepare_data.
      rewrite filter_fmap, map_map. simpl. rewrite map_id.
      apply list_filter_iff. intros r. simpl. split.
      - tauto.
      - intros [Hq Hs]. rewrite positive_unit_price by done. done. }
    split; [apply Hrows|]. split.
    + apply list.Forall_forall. intros p.
      unfold PricingIndexAnalyzer._prepare_data.
      rewrite list_elem_of_filter, list_elem_of_fmap.
      intros ((Hq & _) & r & -> & _). simpl in *.
      by apply positive_unit_price.
    + rewrite Hrows. unfold PricingIndexAnalyzer._prepare_data.
      rewrite !filter_fmap. f_equal. unfold DataFrame in *.
      rewrite list_filter_filter.
      apply list_filter_iff. intros r. simpl. split; [tauto|].
      intros (Hq & Hu & Hs). by repeat split.
Qed.

End prepared.

(* ================================================================== *)
(** ** Promotion flags *)

Lemma length_filter_mono {A} (P Q : A → Prop) `{∀ x, Decision (P x)}
    `{∀ x, Decision (Q x)} (l : list A) :
  (∀ x, x ∈ l → P x → Q x) →
  (length (filter P l) ≤ length (filter Q l))%nat.
Proof.
  induction l as [|x l IH]; intros HPQ; [done|].
  rewrite !filter_cons.
  assert (IH' : (length (filter P l) ≤ length (filter Q l))%nat).
  { apply IH. intros y Hy. apply HPQ. by right. }
  destruct (decide (P x)) as [HP|HP].
  - rewrite decide_True by (apply HPQ; [left|done]). simpl. lia.
  - destruct (decide (Q x)); simpl; lia.
Qed.

Section promotion_flags.
Import PromotionAnalyzer.

Lemma promo_day_of_mono (self self' : Self) (p : Priced) :
  discount_threshold self' ≤ discount_threshold self →
  promo_day_of self p = true → promo_day_of self' p = true.
Proof.
  intros Ht. unfold promo_day_of, fgeb. destruct (discount_of p) as [d|];
    [|done].
  rewrite !bool_decide_eq_true. intros Hd.
  apply Qcle_trans with (discount_threshold self * dec 100 1); [|done].
  by apply Qcmult_le_compat_r.
Qed.

Lemma discount_days_mono (self self' : Self) (s : string) (i : Z) :
  df self' = df self →
  discount_threshold self' ≤ discount_threshold self →
  (discount_days self s i ≤ discount_days self' s i)%nat.
Proof.
  intros Hdf Ht. unfold discount_days. rewrite Hdf.
  apply length_filter_mono. intros p _ (Hs & Hi & Hp).
  repeat split; [done..|]. by apply (promo_day_of_mono self).
Qed.

Lemma discount_days_pos (self : Self) (p : Priced) :
  p ∈ df self → promo_day_of self p = true →
  (0 < discount_days self (Store_Name (base p)) (Item_Code (base p)))%nat.
Proof.
  intros Hp Hd. unfold discount_days. apply length_filter_pos.
  by exists p.
Qed.

(** X9. Loosening the parameters never loses a promotion: with the
    same prepared rows, a discount threshold that is not higher and a
    [min_days] that is not larger, [detect_promotions] returns the same
    rows in the same order, and every row that was a discount-day, resp.
    on promotion, still is. *)
Theorem detect_promotions_monotone (self self' : Self) :
  df self' = df self →
  discount_threshold self' ≤ discount_threshold self →
  (min_days self' ≤ min_days self)%Z →
  Forall2 (λ r r', row r' = row r ∧
                   (is_promo_day r = true → is_promo_day r' = true) ∧
                   (on_promotion r = true → on_promotion r' = true))
          (detect_promotions self) (detect_promotions self').
Proof.
  intros Hdf Ht Hm. unfold detect_promotions at 2. rewrite Hdf.
  fold (promo_days self'). unfold detect_promotions. fold (promo_days self).
  apply Forall2_fmap, Forall_Forall2_diag, list.Forall_forall.
  intros p Hp. cbn [row is_promo_day on_promotion]. cbn zeta.
  split; [done|]. split; [by apply promo_day_of_mono|].
  rewrite (promo_days_lookup self p Hp).
  rewrite (promo_days_lookup self' p) by (by rewrite Hdf).
  rewrite !andb_true_iff, !bool_decide_eq_true. intros [Hd Hn].
  split; [by apply (promo_day_of_mono self)|].
  pose proof (discount_days_mono self self' (Store_Name (base p))
                (Item_Code (base p)) Hdf Ht). lia.
Qed.

(** X10. The promotion status is that of the (store, item) pair: all
    rows of a pair carry the same [promo_day_count], so that as soon as
    one of them is on promotion every discount-day of the pair is.  A
    row on promotion has at least [max(1, min_days)] discount-days in
    its pair, and with [min_days <= 1] every discount-day is on
    promotion. *)
Theorem promotion_status_per_pair (self : Self) :
  (∀ r r', r ∈ detect_promotions self → r' ∈ detect_promotions self →
     Store_Name (base (row r')) = Store_Name (base (row r)) →
     Item_Code (base (row r')) = Item_Code (base (row r)) →
     promo_day_count r' = promo_day_count r ∧
     (on_promotion r = true → is_promo_day r' = true →
      on_promotion r' = true)) ∧
  (∀ r, r ∈ detect_promotions self → on_promotion r = true →
     ∃ n, promo_day_count r = Some n ∧ (1 ≤ n)%nat ∧
          (min_days self ≤ Z.of_nat n)%Z) ∧
  ((min_days self ≤ 1)%Z →
   ∀ r, r ∈ detect_promotions self → on_promotion r = is_promo_day r).
Proof.
  assert (Hrow : ∀ r, r ∈ detect_promotions self →
    row r ∈ df self ∧
    is_promo_day r = promo_day_of self (row r) ∧
    promo_day_count r
    = Some (discount_days self (Store_Name (base (row r)))
                               (Item_Code (base (row r)))) ∧
    on_promotion r
    = is_promo_day r &&
      bool_decide (min_days self
                   ≤ Z.of_nat (discount_days self
                                 (Store_Name (base (row r)))
                                 (Item_Code (base (row r)))))%Z).
  { intros r Hr. unfold detect_promotions in Hr.
    apply list_elem_of_fmap in Hr as (p & -> & Hp).
    cbn [row is_promo_day promo_day_count on_promotion]. cbn zeta.
    by rewrite (promo_days_lookup self p Hp). }
  split; [|split].
  - intros r r' Hr Hr' Hs Hi.
    destruct (Hrow r Hr) as (_ & _ & Hc & Ho).
    destruct (Hrow r' Hr') as (_ & _ & Hc' & Ho').
    rewrite Hc, Hc', Ho, Ho', Hs, Hi. split; [done|].
    rewrite !andb_true_iff. intros [_ Hn] Hd'. done.
  - intros r Hr Hon. destruct (Hrow r Hr) as (Hp & Hd & Hc & Ho).
    rewrite Ho, andb_true_iff, bool_decide_eq_true in Hon.
    destruct Hon as [Hday Hn]. eexists. split; [exact Hc|].
    split; [|done]. apply (discount_days_pos self (row r) Hp).
    by rewrite <- Hd.
  - intros Hm r Hr. destruct (Hrow r Hr) as (Hp & Hd & Hc & Ho).
    rewrite Ho. destruct (is_promo_day r) eqn:Hday; [|done]. simpl.
    apply bool_decide_eq_true.
    pose proof (discount_days_pos self (row r) Hp) as Hpos.
    rewrite <- Hd in Hpos. specialize (Hpos eq_refl). lia.
Qed.

End promotion_flags.

(** X9 on [sample_df]: from the defaults (10%, 2 days) to 5% and 1 day. *)
Lemma detect_promotions_monotone_witness :
  let self :=
    PromotionAnalyzer.__init__ sample_df
      PromotionAnalyzer.default_discount_threshold
      PromotionAnalyzer.default_min_days in
  let self' := PromotionAnalyzer.__init__ sample_df (dec 5 100) 1 in
  PromotionAnalyzer.discount_threshold self'
  ≤ PromotionAnalyzer.discount_threshold self ∧
  Forall2 (λ r r', PromotionAnalyzer.row r' = PromotionAnalyzer.row r ∧
                   (PromotionAnalyzer.is_promo_day r = true →
                    PromotionAnalyzer.is_promo_day r' = true) ∧
                   (PromotionAnalyzer.on_promotion r = true →
                    PromotionAnalyzer.on_promotion r' = true))
          (PromotionAnalyzer.detect_promotions self)
          (PromotionAnalyzer.detect_promotions self').
Proof.
  cbn zeta. split; [by vm_compute|].
  apply detect_promotions_monotone; [reflexivity|by vm_compute|by vm_compute].
Defined.

(* ================================================================== *)
(** ** The KPI table *)

Lemma filter_eq_NoDup `{EqDecision K} (k : K) (ks : list K) :
  NoDup ks → filter (λ x, x = k) ks = if decide (k ∈ ks) then [k] else [].
Proof.
  induction ks as [|x ks IH]; intros Hnd; [done|].
  apply list.NoDup_cons in Hnd as [Hx Hnd]. rewrite filter_cons, (IH Hnd).
  destruct (decide (x = k)) as [->|Hne].
  - rewrite (decide_False (P := k ∈ ks)) by done.
    by rewrite decide_True by left.
  - destruct (decide (k ∈ ks)) as [Hin|Hin].
    + rewrite decide_True; [done|by right].
    + rewrite decide_False; [done|]. rewrite elem_of_cons.
      intros [E|?]; [by symmetry in E|done].
Qed.

Section kpi_table.
Import PromotionAnalyzer.
Context (str_contains : string → string → bool).

(** The SKU of a row: item, description and supplier; none when the
    supplier is null. *)
Definition sku_of (r : Promo) : option (Z * (string * string)) :=
  s ← Supplier (base (row r));
  Some (Item_Code (base (row r)), (Description (base (row r)), s)).

Definition with_flag (k : Z * (string * string)) (f : bool)
    : Z * (string * (string * bool)) :=
  (k.1, ((k.2).1, ((k.2).2, f))).

Definition quantity (r : Promo) : Qc := Quantity (base (row r)).

Lemma agg_key_with_flag (r : Promo) k f :
  agg_key r = Some (with_flag k f) ↔ sku_of r = Some k ∧ on_promotion r = f.
Proof.
  unfold agg_key, sku_of, with_flag. destruct k as [i [ds su]].
  destruct (Supplier (base (row r))) as [s|]; simpl.
  - split; [by intros [= -> -> -> ->]|]. by intros [[= -> -> ->] ->].
  - split; [done|]. by intros [? _].
Qed.

Lemma pivot_side_aggregate (rows : list Promo) k f :
  pivot_side (aggregate rows) k f
  = if decide (with_flag k f ∈ group_keys agg_key rows)
    then Some (agg_of (with_flag k f)
                 (filter (λ r, agg_key r = Some (with_flag k f)) rows))
    else None.
Proof.
  unfold pivot_side. rewrite aggregate_eq, filter_fmap.
  rewrite (list_filter_iff _ (λ x, x = with_flag k f)).
  2: { intros [i [ds [su g]]]. destruct k as [i' [ds' su']].
       unfold sku_key, with_flag. simpl. split.
       - by intros [[= -> -> ->] ->].
       - by intros [= -> -> -> ->]. }
  rewrite filter_eq_NoDup by apply NoDup_group_keys.
  by case_decide.
Qed.

Lemma elem_of_flag_keys (rows : list Promo) k f :
  with_flag k f ∈ group_keys agg_key rows
  ↔ ∃ r, r ∈ rows ∧ sku_of r = Some k ∧ on_promotion r = f.
Proof.
  rewrite elem_of_group_keys. split.
  - intros (r & Hr & Hk). apply agg_key_with_flag in Hk. eauto.
  - intros (r & Hr & Hk). exists r. split; [done|].
    by apply agg_key_with_flag.
Qed.


Lemma pivot_index_aggregate (rows : list Promo) :
  pivot_index (aggregate rows) = group_keys sku_of rows.
Proof.
  unfold pivot_index, group_keys. apply sort_keys_perm, NoDup_Permutation;
    [apply NoDup_unique..|].
  intros k. rewrite !elem_of_unique, list_elem_of_fmap, list_elem_of_omap.
  split.
  - intros (a & -> & Ha). rewrite aggregate_eq in Ha.
    apply list_elem_of_fmap in Ha as ([i [ds [su f]]] & -> & Hk).
    apply elem_of_group_keys in Hk as (r & Hr & Hk).
    exists r. split; [done|].
    by apply (agg_key_with_flag r (i, (ds, su)) f) in Hk as [? _].
  - intros (r & Hr & Hk).
    exists (agg_of (with_flag k (on_promotion r))
              (filter (λ x, agg_key x = Some (with_flag k (on_promotion r)))
                      rows)).
    split; [by destruct k as [i [ds su]]|].
    rewrite aggregate_eq. apply list_elem_of_fmap.
    exists (with_flag k (on_promotion r)). split; [done|].
    apply elem_of_flag_keys. eauto.
Qed.

Definition detail_key (d : Detail) : Z * (string * string) :=
  (d_Item_Code d, (d_Description d, d_Supplier d)).

Lemma detail_keys (rows : list Promo) :
  map detail_key (pivot rows) = group_keys sku_of rows.
Proof.
  unfold pivot. cbn zeta. rewrite pivot_index_aggregate, map_map.
  rewrite <- (map_id (group_keys sku_of rows)) at 2.
  apply map_ext. by intros [i [ds su]].
Qed.

Lemma insert_desc_perm {A} (by_ : A → Qc) (x : A) (l : list A) :
  insert_desc by_ x l ≡ₚ x :: l.
Proof.
  induction l as [|y l IH]; simpl; [done|].
  case_bool_decide; [|done]. rewrite IH. apply perm_swap.
Qed.

Lemma sort_desc_perm {A} (by_ : A → Qc) (l : list A) :
  foldr (insert_desc by_) [] l ≡ₚ l.
Proof.
  induction l as [|x l IH]; simpl; [done|].
  by rewrite insert_desc_perm, IH.
Qed.

Lemma length_nlargest {A} (n : nat) (by_ : A → Qc) (l : list A) :
  length (nlargest n by_ l) = (n `min` length l)%nat.
Proof.
  unfold nlargest. rewrite length_take.
  by rewrite (Permutation_length (sort_desc_perm by_ l)).
Qed.

(** X11. The table of [calculate_kpis] has exactly one line per SKU
    (item, description, supplier) of the rows it is computed on, the
    detected rows that pass the supplier filter and name a supplier,
    in ascending order of the key.  [total_skus_analyzed] is its
    number of lines, [skus_with_promos] is at most that, the top list
    has [min(10, total)] entries, and under a non-empty filter every
    line is of a supplier the filter matches. *)
Theorem kpis_table (self : Self) (supplier_filter : option string) :
  let k := calculate_kpis str_contains self supplier_filter in
  let rows :=
    filter_supplier str_contains supplier_filter (detect_promotions self) in
  map detail_key (detailed_data k) = group_keys sku_of rows ∧
  NoDup (map detail_key (detailed_data k)) ∧
  total_skus_analyzed (summary k) = length (detailed_data k) ∧
  (skus_with_promos (summary k) ≤ total_skus_analyzed (summary k))%nat ∧
  length (top_performing_skus k)
  = (10 `min` total_skus_analyzed (summary k))%nat ∧
  (∀ pat, supplier_filter = Some pat → pat ≠ "" →
          Forall (λ d, str_contains pat (d_Supplier d) = true)
                 (detailed_data k)).
Proof.
  cbn zeta. unfold calculate_kpis, kpis_of.
  cbn [detailed_data summary total_skus_analyzed skus_with_promos
       top_performing_skus].
  set (rows := filter_supplier str_contains supplier_filter
                 (detect_promotions self)).
  pose proof (detail_keys rows) as Hkeys.
  split; [done|]. split; [rewrite Hkeys; apply NoDup_group_keys|].
  split; [done|]. split; [apply length_filter|].
  split; [by rewrite length_map, length_nlargest|].
  intros pat -> Hpat. apply list.Forall_forall. intros d Hd.
  assert (Hk : detail_key d ∈ group_keys sku_of rows).
  { rewrite <- Hkeys. by apply list_elem_of_fmap_2. }
  apply elem_of_group_keys in Hk as (r & Hr & Hk).
  unfold rows, filter_supplier in Hr.
  rewrite bool_decide_eq_false_2 in Hr by done.
  apply list_elem_of_filter in Hr as [Hm _].
  unfold supplier_matches in Hm. unfold sku_of in Hk.
  destruct (Supplier (base (row r))) as [s|]; [|done].
  simpl in Hk. injection Hk as _ _ Hs. by rewrite <- Hs.
Qed.



Lemma store_count_pos (g : list Promo) :
  g ≠ [] → (0 < nunique (map (λ r, Store_Name (base (row r))) g))%nat.
Proof. intros Hg. apply nunique_pos. by destruct g. Qed.

Lemma detail_row_coverage_pos (rows : list Promo) k :
  0 < promo_coverage_pct
        (detail_row (aggregate rows) (nunique (map promo_store rows)) k)
  ↔ ∃ r, r ∈ rows ∧ sku_of r = Some k ∧ on_promotion r = true.
Proof.
  rewrite <- elem_of_flag_keys. cbn [promo_coverage_pct detail_row].
  rewrite pivot_side_aggregate. case_decide as Hin.
  - split; [done|]. intros _. unfold has_col.
    rewrite (bool_decide_eq_true_2 (Exists _ _)).
    2: { apply list.Exists_exists. eexists. split.
         - rewrite aggregate_eq. apply list_elem_of_fmap.
           exists (with_flag k true). split; [reflexivity|done].
         - done. }
    cbn [pivot_cell mbind option_bind v_store_count agg_of store_count].
    set (g := filter (λ r, agg_key r = Some (with_flag k true)) rows).
    assert (Hg : g ≠ []).
    { apply elem_of_group_keys in Hin as (r & Hr & Hk).
      by apply (filter_not_nil _ rows r). }
    pose proof (store_count_pos g Hg) as Hpos.
    assert (Hle : (nunique (map (λ r, Store_Name (base (row r))) g)
                   ≤ nunique (map promo_store rows))%nat).
    { apply nunique_mono. intros s. rewrite !list_elem_of_fmap.
      intros (r & -> & Hr). apply list_elem_of_filter in Hr as [_ Hr].
      by exists r. }
    unfold fdiv, fmul, flift2. rewrite bool_decide_eq_false_2.
    2: { rewrite Qc_of_nat_eq_0. lia. }
    simpl. by apply Qc_share_pos.
  - split; [|done]. intros Hpos. exfalso.
    apply (Qclt_not_eq 0 0); [|done].
    by destruct (has_col _ v_store_count true).
Qed.

(** X13. A SKU has a positive promo coverage exactly when one of its
    rows is on promotion, so that [skus_with_promos] is the number of
    distinct SKUs among the rows on promotion. *)
Theorem skus_with_promos_counts_promoted (self : Self)
    (supplier_filter : option string) :
  let k := calculate_kpis str_contains self supplier_filter in
  let rows :=
    filter_supplier str_contains supplier_filter (detect_promotions self) in
  Forall (λ d, 0 < promo_coverage_pct d
               ↔ ∃ r, r ∈ rows ∧ sku_of r = Some (detail_key d) ∧
                      on_promotion r = true)
         (detailed_data k) ∧
  skus_with_promos (summary k)
  = nunique (omap sku_of (filter (λ r, on_promotion r = true) rows)).
Proof.
  cbn zeta. unfold calculate_kpis, kpis_of.
  cbn [detailed_data summary skus_with_promos].
  set (rows := filter_supplier str_contains supplier_filter
                 (detect_promotions self)).
  unfold pivot. cbn zeta. rewrite pivot_index_aggregate.
  fold promo_store. split.
  - apply list.Forall_forall. intros d Hd.
    apply list_elem_of_fmap in Hd as (key & -> & _).
    assert (Hk : detail_key (detail_row (aggregate rows)
                   (nunique (map promo_store rows)) key) = key)
      by by destruct key as [i [ds su]].
    rewrite Hk. apply detail_row_coverage_pos.
  - rewrite filter_fmap, length_map. unfold nunique.
    apply Permutation_length, NoDup_Permutation.
    + apply list.NoDup_filter, NoDup_group_keys.
    + apply NoDup_unique.
    + intros key. rewrite list_elem_of_filter, detail_row_coverage_pos.
      rewrite elem_of_unique, list_elem_of_omap, elem_of_group_keys. split.
      * intros [(r & Hr & Hk & Hon) _]. exists r. split; [|done].
        by apply list_elem_of_filter.
      * intros (r & Hr & Hk). apply list_elem_of_filter in Hr as [Hon Hr].
        split; eauto.
Qed.

End kpi_table.

(** ** [nlargest] *)

Section nlargest_facts.
Context {A : Type} (by_ : A → Qc).
Import DataQualityChecker.

Lemma insert_desc_HdRel (x y : A) (l : list A) :
  by_ x ≤ by_ y → HdRel (desc_by by_) y l →
  HdRel (desc_by by_) y (insert_desc by_ x l).
Proof.
  intros Hxy Hl. destruct l as [|z l]; simpl.
  - by constructor.
  - case_bool_decide; constructor; [|done]. by inversion Hl.
Qed.

Lemma insert_desc_Sorted (x : A) (l : list A) :
  Sorted (desc_by by_) l → Sorted (desc_by by_) (insert_desc by_ x l).
Proof.
  induction l as [|y l IH]; intros Hs; simpl.
  - by repeat constructor.
  - apply Sorted_inv in Hs as [Hs Hhd]. case_bool_decide as Hlt.
    + constructor; [by apply IH|].
      apply insert_desc_HdRel; [by apply Qclt_le_weak|done].
    + constructor; [by constructor|]. constructor.
      unfold desc_by. by apply Qcnot_lt_le.
Qed.

Lemma sort_desc_Sorted (l : list A) :
  StronglySorted (desc_by by_) (foldr (insert_desc by_) [] l).
Proof.
  apply Sorted_StronglySorted; [apply _|].
  induction l as [|x l IH]; simpl; [constructor|].
  by apply insert_desc_Sorted.
Qed.

(** [nlargest n] returns rows of the frame, largest first, and no row
    it leaves out is larger than a row it returns. *)
Lemma nlargest_spec (n : nat) (l : list A) :
  StronglySorted (desc_by by_) (nlargest n by_ l) ∧
  (∀ x, x ∈ nlargest n by_ l → x ∈ l) ∧
  (∀ x, x ∈ l →
        x ∈ nlargest n by_ l ∨ ∀ t, t ∈ nlargest n by_ l → by_ x ≤ by_ t).
Proof.
  unfold nlargest. pose proof (sort_desc_Sorted l) as Hs.
  pose proof (sort_desc_perm by_ l) as Hp.
  set (s := foldr (insert_desc by_) [] l) in *. clearbody s.
  rewrite <- (take_drop n s) in Hs.
  apply StronglySorted_app in Hs as (Hle & Htake & _).
  split; [done|]. split.
  - intros x Hx. rewrite <- Hp. by apply elem_of_take in Hx as (i & Hi & _);
      apply list_elem_of_lookup_2 in Hi.
  - intros x Hx. rewrite <- Hp, <- (take_drop n s), elem_of_app in Hx.
    destruct Hx as [Hx|Hx]; [by left|right].
    intros t Ht. by apply (Hle t x).
Qed.

End nlargest_facts.

Section top_skus.
Import PromotionAnalyzer.
Context (str_contains : string → string → bool).

(** X14. [top_performing_skus] lists lines of the KPI table by
    non-increasing uplift, each with the figures of its line, and no
    SKU it leaves out has a larger uplift than a SKU it lists. *)
Theorem top_performing_skus_largest (self : Self)
    (supplier_filter : option string) :
  let k := calculate_kpis str_contains self supplier_filter in
  StronglySorted (λ a b, t_quantity_uplift_pct b ≤ t_quantity_uplift_pct a)
                 (top_performing_skus k) ∧
  Forall (λ t, ∃ d, d ∈ detailed_data k ∧ t = top_sku d)
         (top_performing_skus k) ∧
  Forall (λ d, top_sku d ∈ top_performing_skus k ∨
               Forall (λ t, quantity_uplift_pct d ≤ t_quantity_uplift_pct t)
                      (top_performing_skus k))
         (detailed_data k).
Proof.
  cbn zeta. unfold calculate_kpis, kpis_of.
  cbn [detailed_data top_performing_skus].
  set (rows := filter_supplier str_contains supplier_filter
                 (detect_promotions self)).
  destruct (nlargest_spec quantity_uplift_pct 10 (pivot rows))
    as (Hsorted & Hsub & Hmax).
  split; [|split].
  - eapply StronglySorted_fmap; [|exact Hsorted]. by intros x y.
  - apply list.Forall_forall. intros t Ht.
    apply list_elem_of_fmap in Ht as (d & -> & Hd). eauto.
  - apply list.Forall_forall. intros d Hd.
    destruct (Hmax d Hd) as [Hin|Hle].
    + left. by apply list_elem_of_fmap_2.
    + right. apply list.Forall_forall. intros t Ht.
      apply list_elem_of_fmap in Ht as (d' & -> & Hd'). by apply Hle.
Qed.

End top_skus.

(** ** Means and weighted means *)

Lemma Qc_of_nat_S (n : nat) : Qc_of_nat (S n) = Qc_of_nat n + 1.
Proof.
  apply Qc_is_canon. unfold Qcplus. cbn [this Q2Qc].
  rewrite Qred_correct, !Qc_of_nat_this, Nat2Z.inj_succ.
  unfold Z.succ. rewrite inject_Z_plus. reflexivity.
Qed.

Lemma Qcsum_lower (l : list Qc) (lo : Qc) :
  (∀ x, x ∈ l → lo ≤ x) → lo * Qc_of_nat (length l) ≤ Qcsum l.
Proof.
  induction l as [|x l IH]; intros Hl.
  - simpl. assert (Qc_of_nat 0 = 0) as -> by by apply Qc_is_canon.
    replace (lo * 0) with 0 by ring. apply Qcle_refl.
  - cbn [length Qcsum foldr]. rewrite Qc_of_nat_S.
    assert (Hx : lo ≤ x) by (apply Hl; left).
    assert (IH' : lo * Qc_of_nat (length l) ≤ Qcsum l).
    { apply IH. intros y Hy. apply Hl. by right. }
    replace (lo * (Qc_of_nat (length l) + 1))
      with (lo + lo * Qc_of_nat (length l)) by ring.
    by apply Qcplus_le_compat.
Qed.

Lemma Qcsum_upper (l : list Qc) (hi : Qc) :
  (∀ x, x ∈ l → x ≤ hi) → Qcsum l ≤ hi * Qc_of_nat (length l).
Proof.
  induction l as [|x l IH]; intros Hl.
  - simpl. assert (Qc_of_nat 0 = 0) as -> by by apply Qc_is_canon.
    replace (hi * 0) with 0 by ring. apply Qcle_refl.
  - cbn [length Qcsum foldr]. rewrite Qc_of_nat_S.
    assert (Hx : x ≤ hi) by (apply Hl; left).
    assert (IH' : Qcsum l ≤ hi * Qc_of_nat (length l)).
    { apply IH. intros y Hy. apply Hl. by right. }
    replace (hi * (Qc_of_nat (length l) + 1))
      with (hi + hi * Qc_of_nat (length l)) by ring.
    by apply Qcplus_le_compat.
Qed.

Lemma Qcdiv_mult_cancel (x y : Qc) : y ≠ 0 → x / y * y = x.
Proof. intros Hy. unfold Qcdiv. rewrite <- Qcmult_assoc.
  rewrite (Qcmult_comm (/ y)), Qcmult_inv_r by done. ring.
Qed.

Lemma Qc_le_div (lo s w : Qc) : 0 < w → lo * w ≤ s → lo ≤ s / w.
Proof.
  intros Hw Hle. apply (Qcmult_lt_0_le_reg_r _ _ w Hw).
  rewrite Qcdiv_mult_cancel; [done|].
  intros E. rewrite E in Hw. by apply (Qclt_not_eq 0 0).
Qed.

Lemma Qc_div_le (hi s w : Qc) : 0 < w → s ≤ hi * w → s / w ≤ hi.
Proof.
  intros Hw Hle. apply (Qcmult_lt_0_le_reg_r _ _ w Hw).
  rewrite Qcdiv_mult_cancel; [done|].
  intros E. rewrite E in Hw. by apply (Qclt_not_eq 0 0).
Qed.

(** The mean of a column lies between any bounds of its values. *)
Lemma mean_bounds (l : list Qc) (m lo hi : Qc) :
  mean l = Some m → (∀ x, x ∈ l → lo ≤ x ≤ hi) → lo ≤ m ≤ hi.
Proof.
  intros Hm Hl. destruct l as [|x l]; [done|]. injection Hm as <-.
  assert (Hn : 0 < Qc_of_nat (length (x :: l))).
  { apply Qc_of_nat_pos. simpl. lia. }
  split.
  - apply Qc_le_div; [done|]. apply (Qcsum_lower (x :: l)). intros y Hy.
    by apply Hl.
  - apply Qc_div_le; [done|]. apply (Qcsum_upper (x :: l)). intros y Hy.
    by apply Hl.
Qed.

Lemma mean_Some_iff (l : list Qc) : is_Some (mean l) ↔ l ≠ [].
Proof. destruct l; simpl; split; (done || by eexists || by intros [? ?]). Qed.

Lemma mean_pos (l : list Qc) (m : Qc) :
  mean l = Some m → (∀ x, x ∈ l → 0 < x) → 0 < m.
Proof.
  intros Hm Hl. destruct l as [|x l]; [done|]. injection Hm as <-.
  assert (Hn : 0 < Qc_of_nat (length (x :: l))).
  { apply Qc_of_nat_pos. simpl. lia. }
  assert (Hs : 0 < Qcsum (x :: l)).
  { cbn [Qcsum foldr]. assert (Hx : 0 < x) by (apply Hl; left).
    assert (H0 : 0 * Qc_of_nat (length l) ≤ Qcsum l).
    { apply Qcsum_lower. intros y Hy. apply Qclt_le_weak, Hl. by right. }
    replace (0 * Qc_of_nat (length l)) with 0 in H0 by ring.
    fold (Qcsum l). set (t := Qcsum l) in *. clearbody t. qc_order. }
  apply Qcnot_le_lt. intros Hle.
  apply (Qcmult_le_compat_r _ _ (Qc_of_nat (length (x :: l)))) in Hle;
    [|by apply Qclt_le_weak].
  rewrite Qcdiv_mult_cancel in Hle.
  2: { intros E. rewrite E in Hn. by apply (Qclt_not_eq 0 0). }
  replace (0 * Qc_of_nat (length (x :: l))) with 0 in Hle by ring.
  by apply (Qclt_not_le _ _ Hs).
Qed.

Section kpi_summary.
Import PromotionAnalyzer.
Context (str_contains : string → string → bool).

(** The mean of the positive values of a column, 0 when there is
    none. *)
Lemma positive_mean {A} (f : A → Qc) (l : list A) :
  let m := nan_to_zero (mean (map f (filter (λ d, 0 < f d) l))) in
  0 ≤ m ∧ (0 < m ↔ Exists (λ d, 0 < f d) l).
Proof.
  cbn zeta. rewrite list.Exists_exists.
  destruct (mean (map f (filter (λ d, 0 < f d) l))) as [m|] eqn:Hm.
  - assert (Hpos : 0 < m).
    { apply (mean_pos _ _ Hm). intros x Hx.
      apply list_elem_of_fmap in Hx as (d & -> & Hd).
      by apply list_elem_of_filter in Hd as [? _]. }
    simpl. split; [by apply Qclt_le_weak|]. split; [|done]. intros _.
    destruct (filter (λ d, 0 < f d) l) as [|d g] eqn:Hf; [done|].
    assert (Hd : d ∈ filter (λ d, 0 < f d) l) by (rewrite Hf; left).
    apply list_elem_of_filter in Hd as [? ?]. eauto.
  - simpl. split; [apply Qcle_refl|]. split.
    + intros H0. by apply (Qclt_not_eq 0 0) in H0.
    + intros (d & Hd & Hpos). exfalso.
      assert (Hne : filter (λ d, 0 < f d) l ≠ [])
        by by apply (filter_not_nil _ l d).
      destruct (filter (λ d, 0 < f d) l); done.
Qed.

(** X15. The summary figures of [calculate_kpis].  The average uplift
    and the average discount depth are means over the SKUs whose value
    is positive: they are never negative, and positive exactly when
    some SKU has a positive value.  When the table has a line the
    average coverage is defined, and it lies in [0, 100]. *)
Theorem kpis_summary_bounds (self : Self) (supplier_filter : option string) :
  let k := calculate_kpis str_contains self supplier_filter in
  let s := summary k in
  0 ≤ avg_promo_uplift s ∧
  (0 < avg_promo_uplift s
   ↔ Exists (λ d, 0 < quantity_uplift_pct d) (detailed_data k)) ∧
  0 ≤ avg_discount_depth s ∧
  (0 < avg_discount_depth s
   ↔ Exists (λ d, 0 < avg_discount_pct_promo d) (detailed_data k)) ∧
  (detailed_data k ≠ [] → is_Some (avg_promo_coverage s)) ∧
  (∀ c, avg_promo_coverage s = Some c → 0 ≤ c ≤ dec 100 1).
Proof.
  cbn zeta. unfold calculate_kpis, kpis_of.
  cbn [summary detailed_data avg_promo_uplift avg_discount_depth
       avg_promo_coverage].
  set (rows := filter_supplier str_contains supplier_filter
                 (detect_promotions self)).
  destruct (positive_mean quantity_uplift_pct (pivot rows)) as [H1 H2].
  destruct (positive_mean avg_discount_pct_promo (pivot rows)) as [H3 H4].
  split; [exact H1|]. split; [exact H2|]. split; [exact H3|].
  split; [exact H4|]. split.
  - intros Hne. apply mean_Some_iff. by destruct (pivot rows).
  - intros c Hc. apply (mean_bounds _ _ _ _ Hc). intros x Hx.
    apply list_elem_of_fmap in Hx as (d & -> & Hd). unfold pivot in Hd.
    apply list_elem_of_fmap in Hd as (key & -> & _).
    apply detail_row_coverage.
Qed.

End kpi_summary.

(* ================================================================== *)
(** ** The store-level price index *)

Lemma fmean_Some_iff (l : list fval) :
  is_Some (fmean l) ↔ ∃ x, Some x ∈ l.
Proof.
  unfold fmean. rewrite mean_Some_iff. unfold dropna. split.
  - intros Hne. destruct (omap id l) as [|x g] eqn:Ho; [done|].
    exists x. assert (Hx : x ∈ omap id l) by (rewrite Ho; left).
    apply list_elem_of_omap in Hx as (o & Ho' & E). simpl in E. by subst.
  - intros (x & Hx) Hnil.
    assert (Hin : x ∈ omap id l).
    { apply list_elem_of_omap. by exists (Some x). }
    rewrite Hnil in Hin. by apply elem_of_nil in Hin.
Qed.

Section store_index.
Import PricingIndexAnalyzer.

Lemma store_category_prices_eq (self : list Priced) :
  store_category_prices self
  = map (λ k, let g := filter (λ p, price_key p = Some k) self in
              {| store := k.1;
                 sub_department := (k.2).1;
                 section := ((k.2).2).1;
                 supplier := ((k.2).2).2;
                 avg_unit_price := fmean (map unit_price g);
                 avg_rrp := fmean (map (λ p, RRP (base p)) g);
                 total_quantity := Qcsum (map (λ p, Quantity (base p)) g);
                 total_sales := Qcsum (map (λ p, Total_Sales (base p)) g);
                 avg_discount_from_rrp :=
                   fmean (map discount_from_rrp_pct g) |})
        (group_keys price_key self).
Proof.
  unfold store_category_prices. fold price_key.
  rewrite <- (groupby_agg (λ k g,
    {| store := k.1; sub_department := (k.2).1; section := ((k.2).2).1;
       supplier := ((k.2).2).2;
       avg_unit_price := fmean (map unit_price g);
       avg_rrp := fmean (map (λ p, RRP (base p)) g);
       total_quantity := Qcsum (map (λ p, Quantity (base p)) g);
       total_sales := Qcsum (map (λ p, Total_Sales (base p)) g);
       avg_discount_from_rrp := fmean (map discount_from_rrp_pct g) |})).
  apply map_ext. by intros [k g].
Qed.

(** Every line of the store-category table of a prepared frame has a
    defined average unit price. *)
Lemma store_category_avg_defined (df : DataFrame) (r : StoreCategoryPrice) :
  r ∈ store_category_prices (__init__ df) → is_Some (avg_unit_price r).
Proof.
  rewrite store_category_prices_eq. intros Hr.
  apply list_elem_of_fmap in Hr as (k & -> & Hk).
  cbn zeta. cbn [avg_unit_price].
  apply elem_of_group_keys in Hk as (p & Hp & Hkey).
  apply fmean_Some_iff.
  assert (Hu : is_Some (unit_price p)).
  { unfold __init__, _prepare_data in Hp.
    apply list_elem_of_filter in Hp as [(_ & Hu & _) _].
    by apply not_eq_None_Some. }
  destruct Hu as [u Hu]. exists u. rewrite <- Hu.
  apply list_elem_of_fmap_2. by apply list_elem_of_filter.
Qed.

Lemma NoDup_store_category_keys (self : list Priced) :
  NoDup (map (λ r, (store r, (sub_department r, (section r, supplier r))))
             (store_category_prices self)).
Proof.
  rewrite store_category_prices_eq, map_map. cbn zeta. simpl.
  rewrite (map_ext _ id); [rewrite map_id; apply NoDup_group_keys|].
  by intros [s [sd [sc su]]].
Qed.

Definition market_line (k : string * (string * string))
    (g : list StoreCategoryPrice) : MarketAvg :=
  {| m_key := k;
     market_avg_unit_price := fmean (map avg_unit_price g);
     market_avg_rrp := fmean (map avg_rrp g);
     market_total_quantity := Qcsum (map total_quantity g) |}.

(** The competitors of a line: the lines of the other suppliers in the
    same store and category. *)
Definition competitors (target_supplier : string)
    (prices : list StoreCategoryPrice) (t : StoreCategoryPrice)
    : list StoreCategoryPrice :=
  filter (λ r, supplier r ≠ target_supplier ∧
               category_key r = category_key t) prices.

Lemma market_lookup (target_supplier : string)
    (prices : list StoreCategoryPrice) (t : StoreCategoryPrice) :
  head (filter (λ m, m_key m = category_key t)
               (market_avg target_supplier prices))
  = match competitors target_supplier prices t with
    | [] => None
    | g => Some (market_line (category_key t) g)
    end.
Proof.
  unfold market_avg.
  set (others := filter (λ r, supplier r ≠ target_supplier) prices).
  set (ckey := λ r : StoreCategoryPrice, Some (category_key r)).
  assert (Hc : competitors target_supplier prices t
               = filter (λ r, ckey r = Some (category_key t)) others).
  { unfold competitors, others. rewrite list_filter_filter.
    apply list_filter_iff. intros r. unfold ckey. split.
    - intros [Hs Hk]. split; [by rewrite Hk|done].
    - intros [Hk Hs]. split; [done|]. by apply (inj Some). }
  rewrite Hc.
  transitivity (head (filter (λ m, m_key m = category_key t)
    (map (λ k, market_line k (filter (λ r, ckey r = Some k) others))
         (group_keys ckey others)))).
  { do 2 f_equal. rewrite <- (groupby_agg market_line).
    apply map_ext. by intros [k g]. }
  rewrite filter_fmap. cbn [m_key market_line].
  rewrite filter_eq_NoDup by apply NoDup_group_keys.
  case_decide as Hin.
  - simpl. apply elem_of_group_keys in Hin as (r & Hr & Hk).
    pose proof (filter_not_nil (λ r, ckey r = Some (category_key t))
                  others r Hr Hk) as Hne.
    by destruct (filter _ others).
  - simpl. rewrite filter_nil_intro; [done|].
    intros r Hr Hk. apply Hin, elem_of_group_keys. eauto.
Qed.

Lemma categorize_positioning_None (x : fval) :
  _categorize_positioning x = "No Competition" ↔ x = None.
Proof.
  destruct x as [x|]; simpl; [|done]. split; [|done].
  repeat case_bool_decide; done.
Qed.

Lemma compare_market_avg (target_supplier : string)
    (prices : list StoreCategoryPrice) (t : StoreCategoryPrice) :
  c_market_avg_unit_price
    (compare (market_avg target_supplier prices) t)
  = fmean (map avg_unit_price (competitors target_supplier prices t)).
Proof.
  unfold compare. cbn zeta. cbn [c_market_avg_unit_price].
  rewrite market_lookup.
  by destruct (competitors target_supplier prices t).
Qed.

(** X16. The lines of [calculate_store_level_index] on a prepared
    frame.  There is exactly one line per store-category line of the
    target supplier, in the same order.  The market price of a line is
    the plain mean of the average prices of the other suppliers in the
    same store and category.  The index is undefined, and the
    positioning "No Competition", when there is no such supplier or
    when that mean is not positive; otherwise it is
    [avg_unit_price / market_avg_unit_price * 100], so that a target
    priced exactly at the market has index 100 and is "At Market". *)
Theorem store_level_index_lines (df : DataFrame) (target_supplier : string) :
  let prices := store_category_prices (__init__ df) in
  let index := calculate_store_level_index (__init__ df) target_supplier in
  map target index = filter (λ r, supplier r = target_supplier) prices ∧
  Forall (λ c,
    c_market_avg_unit_price c
    = fmean (map avg_unit_price
               (competitors target_supplier prices (target c))) ∧
    (price_index c = None ↔ positioning c = "No Competition") ∧
    (competitors target_supplier prices (target c) = [] →
     price_index c = None) ∧
    (∀ m, c_market_avg_unit_price c = Some m → ¬ 0 < m →
          price_index c = None) ∧
    (∀ m, c_market_avg_unit_price c = Some m → 0 < m →
          ∃ a, avg_unit_price (target c) = Some a ∧
               price_index c = Some (a / m * dec 100 1)) ∧
    (∀ m, c_market_avg_unit_price c = Some m → 0 < m →
          avg_unit_price (target c) = Some m →
          price_index c = Some (dec 100 1) ∧ positioning c = "At Market"))
    index.
Proof.
  cbn zeta. unfold calculate_store_level_index. cbn zeta.
  set (prices := store_category_prices (__init__ df)).
  split.
  { rewrite map_map. simpl. apply map_id. }
  apply list.Forall_forall. intros c Hc.
  apply list_elem_of_fmap in Hc as (t & -> & Ht).
  apply list_elem_of_filter in Ht as [Hsup Ht].
  pose proof (compare_market_avg target_supplier prices t) as Hm.
  destruct (store_category_avg_defined df t Ht) as [a Ha].
  assert (Hidx : price_index (compare (market_avg target_supplier prices) t)
    = np_where
        (fgtb (c_market_avg_unit_price
                 (compare (market_avg target_supplier prices) t)) (Some 0))
        (fmul (fdiv (avg_unit_price t)
                 (c_market_avg_unit_price
                    (compare (market_avg target_supplier prices) t)))
              (Some (dec 100 1))) None) by reflexivity.
  assert (Hpos : positioning (compare (market_avg target_supplier prices) t)
    = _categorize_positioning
        (price_index (compare (market_avg target_supplier prices) t)))
    by reflexivity.
  assert (Htgt : target (compare (market_avg target_supplier prices) t) = t)
    by reflexivity.
  set (c := compare (market_avg target_supplier prices) t) in *.
  clearbody c. rewrite Htgt.
  assert (Hdef : ∀ m, c_market_avg_unit_price c = Some m → 0 < m →
            price_index c = Some (a / m * dec 100 1)).
  { intros m Hcm Hlt. rewrite Hidx, Hcm, Ha. simpl.
    rewrite bool_decide_eq_true_2 by done. simpl.
    rewrite bool_decide_eq_false_2; [done|].
    intros E. rewrite E in Hlt. by apply (Qclt_not_eq 0 0). }
  split; [exact Hm|]. split; [|split; [|split; [|split]]].
  - by rewrite Hpos, categorize_positioning_None.
  - intros Hnil. rewrite Hnil in Hm. by rewrite Hidx, Hm.
  - intros m Hcm Hle. rewrite Hidx, Hcm. simpl.
    by rewrite bool_decide_eq_false_2.
  - intros m Hcm Hlt. exists a. split; [done|]. by apply Hdef.
  - intros m Hcm Hlt Hav. rewrite Ha in Hav. injection Hav as ->.
    assert (Hone : m / m * dec 100 1 = dec 100 1).
    { unfold Qcdiv. rewrite Qcmult_inv_r; [ring|].
      intros E. rewrite E in Hlt. by apply (Qclt_not_eq 0 0). }
    rewrite Hpos, (Hdef m Hcm Hlt), Hone. split; [done|]. by vm_compute.
Qed.

End store_index.

(** ** The overall price index *)

(** The values and the weights [np.average] is given line up: both
    run over the lines with a defined value. *)
Lemma zip_defined {A} (f : A → fval) (g : A → Qc) (l : list A) :
  zip_with Qcmult (dropna (map f l))
           (map g (filter (λ c, f c ≠ None) l))
  = map (λ c, default 0 (f c) * g c) (filter (λ c, f c ≠ None) l).
Proof.
  unfold dropna. induction l as [|x l IH]; [done|].
  rewrite filter_cons. destruct (decide (f x ≠ None)) as [Hd|Hd].
  - destruct (f x) as [y|] eqn:Hx; [|done]. cbn [map omap].
    rewrite Hx. cbn. f_equal. exact IH.
  - destruct (f x) as [y|] eqn:Hx; [by destruct Hd|]. cbn [map omap].
    rewrite Hx. exact IH.
Qed.

Lemma Ok_inj {A} (a b : A) : Ok a = Ok b → a = b.
Proof. by intros [= ->]. Qed.

Section overall_index.
Import PricingIndexAnalyzer.

(** X17. When [calculate_overall_positioning] returns on a prepared
    frame, some store-level line has a defined index.  The values
    [np.average] is given are the indices of exactly those lines and
    the weights their quantities, each of them positive, so that the
    sum of the weights it divides by is positive; the overall index is
    the sum of the products over that sum.  The overall positioning is
    the band of that value, never "No Competition". *)
Theorem overall_index_is_weighted_mean (df : DataFrame)
    (target_supplier : string) (p : Positioning) :
  calculate_overall_positioning (__init__ df) target_supplier = Ok p →
  let defined :=
    filter (λ c, price_index c ≠ None)
           (calculate_store_level_index (__init__ df) target_supplier) in
  defined ≠ [] ∧
  Forall (λ c, 0 < total_quantity (target c)) defined ∧
  0 < Qcsum (map (λ c, total_quantity (target c)) defined) ∧
  overall_price_index p
  = Qcsum (map (λ c, default 0 (price_index c) * total_quantity (target c))
               defined)
    / Qcsum (map (λ c, total_quantity (target c)) defined) ∧
  overall_positioning p
  = _categorize_positioning (Some (overall_price_index p)) ∧
  overall_positioning p ≠ "No Competition".
Proof.
  intros Hok. cbn zeta.
  assert (HOk : is_Ok (calculate_overall_positioning (__init__ df)
                         target_supplier)) by by rewrite Hok.
  apply overall_positioning_Ok_iff in HOk as (c0 & Hc0 & Hdef0).
  unfold calculate_overall_positioning in Hok. cbn zeta in Hok.
  set (index := calculate_store_level_index (__init__ df) target_supplier)
    in *.
  set (defined := filter (λ c, price_index c ≠ None) index) in *.
  assert (Hw : ∀ c, c ∈ defined → 0 < total_quantity (target c)).
  { intros c Hc. apply list_elem_of_filter in Hc as [_ Hc].
    unfold index, calculate_store_level_index in Hc.
    apply list_elem_of_fmap in Hc as (t & -> & Ht).
    apply list_elem_of_filter in Ht as [_ Ht]. simpl.
    by apply (store_category_quantity_pos df). }
  assert (Hne : defined ≠ []) by by apply (filter_not_nil _ index c0).
  assert (Hsum : 0 < Qcsum (map (λ c, total_quantity (target c)) defined)).
  { apply Qcsum_pos.
    - intros Hnil. by apply fmap_nil_inv in Hnil.
    - apply Forall_fmap, list.Forall_forall. intros c Hc. by apply Hw. }
  unfold np_average in Hok. cbn zeta in Hok.
  rewrite bool_decide_eq_false_2 in Hok.
  2: { intros E. rewrite E in Hsum. by apply (Qclt_not_eq 0 0). }
  cbn [mbind result_bind mret result_ret] in Hok.
  apply Ok_inj in Hok. subst p.
  cbn [overall_price_index overall_positioning].
  pose proof (zip_defined price_index (λ c, total_quantity (target c)) index)
    as Hz.
  fold defined in Hz. rewrite Hz. clear Hz.
  split; [done|]. split; [by apply list.Forall_forall|].
  split; [done|]. split; [done|]. split; [done|].
  intros E. by apply categorize_positioning_None in E.
Qed.

End overall_index.

(** ** Positioning distribution and category lists *)

#[export] Instance on_rel_total {A B} (R : relation B) `{!Total R}
  (f : A → B) : Total (on_rel R f).
Proof. intros a b. unfold on_rel. apply (total R). Qed.

#[export] Instance on_rel_trans {A B} (R : relation B) `{!Transitive R}
  (f : A → B) : Transitive (on_rel R f).
Proof. intros a b c. unfold on_rel. apply transitivity. Qed.

#[export] Instance fle_desc_total : Total fle_desc.
Proof.
  intros [x|] [y|]; simpl; auto.
  destruct (Qclt_le_dec x y); [right|left]; [by apply Qclt_le_weak|done].
Qed.

#[export] Instance fle_desc_trans : Transitive fle_desc.
Proof.
  intros [x|] [y|] [z|]; simpl; try done. intros. by apply Qcle_trans with y.
Qed.

#[export] Instance fle_asc_total : Total fle_asc.
Proof.
  intros [x|] [y|]; simpl; auto.
  destruct (Qclt_le_dec x y); [left|right]; [by apply Qclt_le_weak|done].
Qed.

#[export] Instance fle_asc_trans : Transitive fle_asc.
Proof.
  intros [x|] [y|] [z|]; simpl; try done. intros. by apply Qcle_trans with y.
Qed.

Lemma mean_lower (l : list Qc) (m lo : Qc) :
  mean l = Some m → (∀ x, x ∈ l → lo ≤ x) → lo ≤ m.
Proof.
  intros Hm Hl. destruct l as [|x l]; [done|]. injection Hm as <-.
  apply Qc_le_div; [apply Qc_of_nat_pos; simpl; lia|].
  by apply (Qcsum_lower (x :: l)).
Qed.

Lemma Qcsum_upper_strict (l : list Qc) (hi : Qc) :
  l ≠ [] → (∀ x, x ∈ l → x < hi) → Qcsum l < hi * Qc_of_nat (length l).
Proof.
  intros Hne Hl.
  destruct l as [|x l]; [done|]. clear Hne.
  cbn [length Qcsum foldr]. fold (Qcsum l). rewrite Qc_of_nat_S.
  assert (Hx : x < hi) by (apply Hl; left).
  assert (Hrest : Qcsum l ≤ hi * Qc_of_nat (length l)).
  { apply Qcsum_upper. intros y Hy. apply Qclt_le_weak, Hl. by right. }
  set (s := Qcsum l) in *. set (t := hi * Qc_of_nat (length l)) in *.
  replace (hi * (Qc_of_nat (length l) + 1)) with (hi + t)
    by (unfold t; ring).
  clearbody s t. qc_order.
Qed.

Lemma mean_upper_strict (l : list Qc) (m hi : Qc) :
  mean l = Some m → (∀ x, x ∈ l → x < hi) → m < hi.
Proof.
  intros Hm Hl. destruct l as [|x l]; [done|]. injection Hm as <-.
  assert (Hn : 0 < Qc_of_nat (length (x :: l))).
  { apply Qc_of_nat_pos. simpl. lia. }
  apply Qcnot_le_lt. intros Hle.
  apply (Qcmult_le_compat_r _ _ (Qc_of_nat (length (x :: l)))) in Hle;
    [|by apply Qclt_le_weak].
  rewrite Qcdiv_mult_cancel in Hle.
  2: { intros E. rewrite E in Hn. by apply (Qclt_not_eq 0 0). }
  assert (Hs := Qcsum_upper_strict (x :: l) hi).
  apply (Qclt_not_le _ _ (Hs ltac:(done) Hl)). exact Hle.
Qed.

Lemma value_counts_spec (l : list string) :
  let vc := PricingIndexAnalyzer.value_counts l in
  NoDup (map fst vc) ∧
  (∀ v, v ∈ map fst vc ↔ v ∈ l) ∧
  Forall (λ e, e.2 = count_key e.1 l ∧ (1 ≤ e.2)%nat) vc ∧
  sum_list (map snd vc) = length l ∧
  StronglySorted (λ a b, (b.2 ≤ a.2)%nat) vc.
Proof.
  cbn zeta. unfold PricingIndexAnalyzer.value_counts.
  set (raw := map (λ v, (v, count_key v l)) (unique l)).
  assert (Hp : merge_sort (on_rel (flip Nat.le) snd) raw ≡ₚ raw)
    by apply merge_sort_Permutation.
  assert (Hfst : map fst raw = unique l).
  { unfold raw. rewrite map_map. simpl. apply map_id. }
  split; [rewrite Hp, Hfst; apply NoDup_unique|].
  split; [intros v; by rewrite Hp, Hfst, elem_of_unique|].
  split; [|split].
  - apply list.Forall_forall. intros e He. rewrite Hp in He.
    apply list_elem_of_fmap in He as (v & -> & Hv). simpl.
    split; [done|]. rewrite elem_of_unique in Hv.
    by apply count_key_pos.
  - rewrite (sum_list_perm _ _ (Permutation_map snd Hp)).
    unfold raw. rewrite map_map. simpl.
    rewrite <- (filter_all (λ x, is_Some (Some x)) l) at 2 by eauto.
    rewrite <- (sum_group_sizes Some (unique l) l).
    + f_equal. apply map_ext. intros v. unfold count_key. f_equal.
      apply list_filter_iff. intros x. split; [by intros ->|by intros [= ->]].
    + apply NoDup_unique.
    + intros x k Hx [= <-]. by apply elem_of_unique.
  - assert (Hs : StronglySorted (on_rel (flip Nat.le) snd)
                   (merge_sort (on_rel (flip Nat.le) snd) raw)).
    { apply Sorted_StronglySorted.
      - intros a b c. unfold on_rel, flip. lia.
      - apply Sorted_merge_sort. intros a b. unfold on_rel, flip. lia. }
    exact Hs.
Qed.

Section positioning_lists.
Import PricingIndexAnalyzer.

Lemma overall_positioning_fields (self : list Priced)
    (target_supplier : string) (p : Positioning) :
  calculate_overall_positioning self target_supplier = Ok p →
  let index := calculate_store_level_index self target_supplier in
  positioning_distribution p = value_counts (map positioning index) ∧
  premium_categories p
  = take 5 (merge_sort (on_rel fle_desc snd)
              (mean_index_by_category
                 (filter (λ c, positioning c ∈ ["Premium"; "Slight Premium"])
                         index))) ∧
  discount_categories p
  = take 5 (merge_sort (on_rel fle_asc snd)
              (mean_index_by_category
                 (filter (λ c, positioning c ∈ ["Discount"; "Slight Discount"])
                         index))).
Proof.
  unfold calculate_overall_positioning. cbn zeta.
  destruct (np_average _ _) as [w|e]; [|done].
  cbn [mbind result_bind mret result_ret]. intros Hok.
  apply Ok_inj in Hok. by subst p.
Qed.

Lemma index_positioning (self : list Priced) (target_supplier : string)
    (c : Comparison) :
  c ∈ calculate_store_level_index self target_supplier →
  positioning c = _categorize_positioning (price_index c).
Proof.
  unfold calculate_store_level_index. cbn zeta. intros Hc.
  by apply list_elem_of_fmap in Hc as (t & -> & _).
Qed.

(** X18. The positioning distribution of a returned overall
    positioning counts every line of the store-level index once: its
    labels are distinct band names, the count of a label is the number
    of lines with that positioning and is at least 1, the counts add up
    to the number of lines, and the labels come most frequent first. *)
Theorem positioning_distribution_counts (df : DataFrame)
    (target_supplier : string) (p : Positioning) :
  calculate_overall_positioning (__init__ df) target_supplier = Ok p →
  let index := calculate_store_level_index (__init__ df) target_supplier in
  let dist := positioning_distribution p in
  NoDup (map fst dist) ∧
  Forall (λ e, e.1 ∈ ["No Competition"; "Premium"; "Slight Premium";
                      "At Market"; "Slight Discount"; "Discount"] ∧
               (1 ≤ e.2)%nat ∧
               e.2 = length (filter (λ c, positioning c = e.1) index))
         dist ∧
  sum_list (map snd dist) = length index ∧
  StronglySorted (λ a b, (b.2 ≤ a.2)%nat) dist.
Proof.
  intros Hok. cbn zeta.
  destruct (overall_positioning_fields _ _ _ Hok) as (-> & _ & _).
  set (index := calculate_store_level_index (__init__ df) target_supplier).
  destruct (value_counts_spec (map positioning index))
    as (Hnd & Hin & Hall & Hsum & Hsorted).
  split; [done|]. split; [|split; [by rewrite Hsum, length_map|done]].
  apply list.Forall_forall. intros e He.
  rewrite list.Forall_forall in Hall. destruct (Hall e He) as [Hc Hpos].
  split; [|split; [done|]].
  - assert (Hl : e.1 ∈ map positioning index).
    { apply Hin. by apply list_elem_of_fmap_2. }
    apply list_elem_of_fmap in Hl as (c & -> & Hcin).
    rewrite (index_positioning _ _ c Hcin).
    destruct (price_index c) as [x|]; [|simpl; rewrite !elem_of_cons; tauto].
    destruct (categorize_positioning_cases x)
      as [[? ->]|[[? ->]|[[? ->]|[[? ->]|[? ->]]]]];
      rewrite !elem_of_cons; tauto.
  - rewrite Hc. unfold count_key. by rewrite filter_fmap, length_map.
Qed.

End positioning_lists.

(** X17 and X18 on [sample_df], where the target supplier has a
    competitor in store S1. *)
Lemma overall_index_witness :
  ∃ p, PricingIndexAnalyzer.calculate_overall_positioning
         (PricingIndexAnalyzer.__init__ sample_df)
         PricingIndexAnalyzer.default_target_supplier = Ok p ∧
       PricingIndexAnalyzer.overall_positioning p ≠ "No Competition".
Proof.
  destruct (PricingIndexAnalyzer.calculate_overall_positioning
              (PricingIndexAnalyzer.__init__ sample_df)
              PricingIndexAnalyzer.default_target_supplier)
    as [p|e] eqn:Hok; [|by vm_compute in Hok].
  exists p. split; [reflexivity|].
  apply (overall_index_is_weighted_mean _ _ _ Hok).
Defined.

Lemma positioning_distribution_witness :
  ∃ p, PricingIndexAnalyzer.calculate_overall_positioning
         (PricingIndexAnalyzer.__init__ sample_df)
         PricingIndexAnalyzer.default_target_supplier = Ok p ∧
       sum_list (map snd (PricingIndexAnalyzer.positioning_distribution p))
       = length (PricingIndexAnalyzer.calculate_store_level_index
                   (PricingIndexAnalyzer.__init__ sample_df)
                   PricingIndexAnalyzer.default_target_supplier).
Proof.
  destruct (PricingIndexAnalyzer.calculate_overall_positioning
              (PricingIndexAnalyzer.__init__ sample_df)
              PricingIndexAnalyzer.default_target_supplier)
    as [p|e] eqn:Hok; [|by vm_compute in Hok].
  exists p. split; [reflexivity|].
  apply (positioning_distribution_counts _ _ _ Hok).
Defined.

Section category_lists.
Import PricingIndexAnalyzer.

Lemma mean_index_by_category_elem (rows : list Comparison) e :
  e ∈ mean_index_by_category rows →
  let g := filter (λ c, by_category c = Some e.1) rows in
  e.2 = fmean (map price_index g) ∧ g ≠ [].
Proof.
  unfold mean_index_by_category. intros He.
  apply list_elem_of_fmap in He as ([k g] & -> & Hg).
  unfold groupby in Hg. apply list_elem_of_fmap in Hg as (k' & [= -> ->] & Hk).
  cbn zeta. simpl. split; [done|].
  apply elem_of_group_keys in Hk as (c & Hc & Hkey).
  by apply (filter_not_nil _ rows c).
Qed.

Lemma NoDup_mean_index_keys (rows : list Comparison) :
  NoDup (map fst (mean_index_by_category rows)).
Proof.
  unfold mean_index_by_category, groupby. rewrite !map_map. simpl.
  rewrite map_id. apply NoDup_group_keys.
Qed.

Lemma fmean_all_defined {A} (f : A → fval) (g : list A) (Q : Qc → Prop) :
  g ≠ [] → (∀ c, c ∈ g → ∃ x, f c = Some x ∧ Q x) →
  ∃ m, fmean (map f g) = Some m ∧
       ∀ x, x ∈ dropna (map f g) → Q x.
Proof.
  intros Hne Hall.
  assert (HQ : ∀ x, x ∈ dropna (map f g) → Q x).
  { intros x Hx. unfold dropna in Hx.
    apply list_elem_of_omap in Hx as (o & Ho & E). simpl in E. subst o.
    apply list_elem_of_fmap in Ho as (c & Hc & Hin).
    destruct (Hall c Hin) as (y & Hy & HQy). rewrite Hy in Hc.
    by injection Hc as ->. }
  destruct (proj2 (fmean_Some_iff (map f g))) as [m Hm]; [|by exists m].
  destruct g as [|c g]; [done|]. destruct (Hall c) as (x & Hx & _); [left|].
  exists x. rewrite <- Hx. apply list_elem_of_fmap_2. left.
Qed.

Lemma take_sorted_spec {A B} (R : relation A) `{!RelDecision R} `{!Total R}
    `{!Transitive R} (f : A → B) (n : nat) (l : list A) :
  let t := take n (merge_sort R l) in
  (length t ≤ n)%nat ∧ StronglySorted R t ∧ (∀ x, x ∈ t → x ∈ l) ∧
  (NoDup (map f l) → NoDup (map f t)).
Proof.
  cbn zeta. pose proof (merge_sort_Permutation R l) as Hp.
  assert (Hs : StronglySorted R (merge_sort R l)).
  { apply Sorted_StronglySorted; [done|]. by apply Sorted_merge_sort. }
  set (s := merge_sort R l) in *. clearbody s.
  split; [rewrite length_take; lia|]. split; [|split].
  - rewrite <- (take_drop n s) in Hs. by apply StronglySorted_app_1_l in Hs.
  - intros x Hx. rewrite <- Hp. by eapply elem_of_sublist, sublist_take.
  - intros Hnd. apply (sublist_NoDup _ (map f s)).
    + by rewrite Hp.
    + apply fmap_sublist, sublist_take.
Qed.

(** X19. The premium and the discount lists of a returned overall
    positioning.  Each has at most five categories, no category
    twice, by decreasing, resp. increasing, value.  The value of a
    category is the mean index of its lines that are in the band only
    ("Premium" or "Slight Premium", resp. "Discount" or "Slight
    Discount"), not of all its lines; it is therefore at least 105 in
    the premium list and below 95 in the discount list. *)
Theorem premium_and_discount_categories (df : DataFrame)
    (target_supplier : string) (p : Positioning) :
  calculate_overall_positioning (__init__ df) target_supplier = Ok p →
  let index := calculate_store_level_index (__init__ df) target_supplier in
  ((length (premium_categories p) ≤ 5)%nat ∧
   NoDup (map fst (premium_categories p)) ∧
   StronglySorted (λ a b, fle_desc a.2 b.2) (premium_categories p) ∧
   Forall (λ e,
     e.2 = fmean (map price_index
             (filter (λ c, by_category c = Some e.1 ∧
                           positioning c ∈ ["Premium"; "Slight Premium"])
                     index)) ∧
     ∃ m, e.2 = Some m ∧ dec 105 1 ≤ m) (premium_categories p)) ∧
  ((length (discount_categories p) ≤ 5)%nat ∧
   NoDup (map fst (discount_categories p)) ∧
   StronglySorted (λ a b, fle_asc a.2 b.2) (discount_categories p) ∧
   Forall (λ e,
     e.2 = fmean (map price_index
             (filter (λ c, by_category c = Some e.1 ∧
                           positioning c ∈ ["Discount"; "Slight Discount"])
                     index)) ∧
     ∃ m, e.2 = Some m ∧ m < dec 95 1) (discount_categories p)).
Proof.
  intros Hok. cbn zeta.
  destruct (overall_positioning_fields _ _ _ Hok) as (_ & -> & ->).
  set (index := calculate_store_level_index (__init__ df) target_supplier).
  assert (Hband : ∀ (labels : list string) (Q : Qc → Prop),
    (∀ x, _categorize_positioning (Some x) ∈ labels → Q x) →
    "No Competition" ∉ labels →
    ∀ e, e ∈ mean_index_by_category
               (filter (λ c, positioning c ∈ labels) index) →
      e.2 = fmean (map price_index
              (filter (λ c, by_category c = Some e.1 ∧ positioning c ∈ labels)
                      index)) ∧
      ∃ m, e.2 = Some m ∧ ∀ x, x ∈ dropna (map price_index
              (filter (λ c, by_category c = Some e.1 ∧ positioning c ∈ labels)
                      index)) → Q x).
  { intros labels Q HQ Hno e He.
    destruct (mean_index_by_category_elem _ e He) as [Hv Hne].
    cbn zeta in Hv, Hne. unfold DataFrame in *.
    rewrite list_filter_filter in Hv, Hne. split; [exact Hv|].
    rewrite Hv. apply fmean_all_defined; [exact Hne|].
    intros c Hc. apply list_elem_of_filter in Hc as [[_ Hl] Hc].
    rewrite (index_positioning _ _ c Hc) in Hl.
    destruct (price_index c) as [x|]; [|by destruct Hno].
    exists x. split; [done|]. by apply HQ. }
  split.
  - destruct (take_sorted_spec (on_rel fle_desc snd) fst 5
      (mean_index_by_category
         (filter (λ c, positioning c ∈ ["Premium"; "Slight Premium"]) index)))
      as (Hlen & Hsorted & Hsub & Hnd).
    split; [done|]. split; [apply Hnd, NoDup_mean_index_keys|].
    split; [exact Hsorted|].
    apply list.Forall_forall. intros e He. apply Hsub in He.
    destruct (Hband ["Premium"; "Slight Premium"] (λ x, dec 105 1 ≤ x))
      with (e := e) as (Hv & m & Hm & Hall); [| |done|].
    + intros x. destruct (categorize_positioning_cases x)
        as [[? ->]|[[? ->]|[[? ->]|[[? ->]|[? ->]]]]];
        rewrite !elem_of_cons, elem_of_nil; intros Hl;
        try (by destruct Hl as [?|[?|[]]]); qc_order.
    + rewrite !elem_of_cons, elem_of_nil. by intros [?|[?|[]]].
    + split; [exact Hv|]. exists m. split; [done|].
      rewrite Hv in Hm. by apply (mean_lower _ _ _ Hm).
  - destruct (take_sorted_spec (on_rel fle_asc snd) fst 5
      (mean_index_by_category
         (filter (λ c, positioning c ∈ ["Discount"; "Slight Discount"]) index)))
      as (Hlen & Hsorted & Hsub & Hnd).
    split; [done|]. split; [apply Hnd, NoDup_mean_index_keys|].
    split; [exact Hsorted|].
    apply list.Forall_forall. intros e He. apply Hsub in He.
    destruct (Hband ["Discount"; "Slight Discount"] (λ x, x < dec 95 1))
      with (e := e) as (Hv & m & Hm & Hall); [| |done|].
    + intros x. destruct (categorize_positioning_cases x)
        as [[? ->]|[[? ->]|[[? ->]|[[? ->]|[? ->]]]]];
        rewrite !elem_of_cons, elem_of_nil; intros Hl;
        try (by destruct Hl as [?|[?|[]]]); qc_order.
    + rewrite !elem_of_cons, elem_of_nil. by intros [?|[?|[]]].
    + split; [exact Hv|]. exists m. split; [done|].
      rewrite Hv in Hm. by apply (mean_upper_strict _ _ _ Hm).
Qed.

End category_lists.

(** X19 on [sample_df]. *)
Lemma premium_and_discount_witness :
  ∃ p, PricingIndexAnalyzer.calculate_overall_positioning
         (PricingIndexAnalyzer.__init__ sample_df)
         PricingIndexAnalyzer.default_target_supplier = Ok p ∧
       (length (PricingIndexAnalyzer.premium_categories p) ≤ 5)%nat ∧
       (length (PricingIndexAnalyzer.discount_categories p) ≤ 5)%nat.
Proof.
  destruct (PricingIndexAnalyzer.calculate_overall_positioning
              (PricingIndexAnalyzer.__init__ sample_df)
              PricingIndexAnalyzer.default_target_supplier)
    as [p|e] eqn:Hok; [|by vm_compute in Hok].
  exists p. split; [reflexivity|].
  destruct (premium_and_discount_categories _ _ _ Hok)
    as [(H1 & _) (H2 & _)].
  split; [exact H1|exact H2].
Defined.

(* ================================================================== *)
(** ** The tables of the price-index engine *)

Section pricing_tables.
Import PricingIndexAnalyzer PricingIndexTables.

Definition category_supplier_key (p : Priced)
    : option (string * (string * string)) :=
  s ← Supplier (base p);
  Some (Sub_Department (base p), (Section_ (base p), s)).



Lemma prepared_has_supplier (df : DataFrame) (p : Priced) :
  p ∈ __init__ df → is_Some (category_supplier_key p).
Proof.
  unfold __init__, _prepare_data. rewrite list_elem_of_filter.
  intros [(_ & _ & Hs) _]. unfold category_supplier_key.
  destruct (Supplier (base p)); [by eexists|done].
Qed.


Lemma ranked_ranks (l : list SupplierComparison) (a : nat) :
  map price_rank (zip_with set_rank l (seq a (length l))) = seq a (length l).
Proof.
  revert a. induction l as [|x l IH]; intros a; simpl; [done|].
  by rewrite IH.
Qed.

Lemma ranked_fields {B} (f : SupplierComparison → B)
    (l : list SupplierComparison) (a : nat) :
  (∀ r n, f (set_rank r n) = f r) →
  map f (zip_with set_rank l (seq a (length l))) = map f l.
Proof.
  intros Hf. revert a. induction l as [|x l IH]; intros a; simpl; [done|].
  by rewrite Hf, IH.
Qed.

(** The rows a comparison is computed on: those of the category and,
    when a section is named, of that section. *)
Definition in_section (section : option string) (p : Priced) : Prop :=
  match section with
  | Some sec => sec = "" ∨ Section_ (base p) = sec
  | None => True
  end.

#[export] Instance in_section_dec section p : Decision (in_section section p).
Proof. destruct section; simpl; apply _. Defined.

Definition category_rows (self : list Priced) (category : string)
    (section : option string) : list Priced :=
  filter (λ p, Sub_Department (base p) = category ∧ in_section section p)
         self.

Lemma compare_suppliers_eq (self : list Priced) (category : string)
    (section : option string) :
  let rows := category_rows self category section in
  let lines :=
    map (λ k, supplier_line k (filter (λ p, Supplier (base p) = Some k) rows))
        (group_keys (λ p, Supplier (base p)) rows) in
  let shared :=
    map (set_shares (Qcsum (map sc_total_quantity lines))
                    (Qcsum (map sc_total_sales lines))) lines in
  let sorted := merge_sort (on_rel fle_desc sc_avg_unit_price) shared in
  compare_suppliers_by_category self category section
  = zip_with set_rank sorted (seq 1 (length sorted)).
Proof.
  cbn zeta. unfold compare_suppliers_by_category. cbn zeta.
  assert (Hrows :
    match section with
    | Some sec =>
        if bool_decide (sec = "")
        then filter (λ p, Sub_Department (base p) = category) self
        else filter (λ p, Section_ (base p) = sec)
               (filter (λ p, Sub_Department (base p) = category) self)
    | None => filter (λ p, Sub_Department (base p) = category) self
    end = category_rows self category section).
  { unfold category_rows. destruct section as [sec|].
    - case_bool_decide as Hsec.
      + apply list_filter_iff. intros p. simpl. tauto.
      + rewrite list_filter_filter. apply list_filter_iff. intros p.
        simpl. tauto.
    - apply list_filter_iff. intros p. simpl. tauto. }
  rewrite Hrows.
  assert (Hlines :
    map (λ '(k, g), supplier_line k g)
        (groupby (λ p, Supplier (base p))
                 (category_rows self category section))
    = map (λ k, supplier_line k
                  (filter (λ p, Supplier (base p) = Some k)
                          (category_rows self category section)))
          (group_keys (λ p, Supplier (base p))
                      (category_rows self category section))).
  { rewrite <- (groupby_agg supplier_line). apply map_ext. by intros [k g]. }
  by rewrite Hlines.
Qed.

Lemma StronglySorted_on {A B} (R : relation B) (f : A → B) (l : list A) :
  StronglySorted R (map f l) → StronglySorted (on_rel R f) l.
Proof.
  induction l as [|x l IH]; simpl; intros Hs; [constructor|].
  apply StronglySorted_cons in Hs as [Hx Hs].
  constructor; [by apply IH|]. apply list.Forall_forall. intros y Hy.
  rewrite list.Forall_forall in Hx. apply Hx. by apply list_elem_of_fmap_2.
Qed.

Lemma Qcsum_elem_le (l : list Qc) (x : Qc) :
  (∀ y, y ∈ l → 0 ≤ y) → x ∈ l → x ≤ Qcsum l.
Proof.
  induction l as [|y l IH]; intros Hl Hx; [by apply elem_of_nil in Hx|].
  cbn [Qcsum foldr]. fold (Qcsum l).
  assert (H0 : 0 ≤ Qcsum l).
  { pose proof (Qcsum_lower l 0) as Hlo.
    replace (0 * Qc_of_nat (length l)) with 0 in Hlo by ring.
    apply Hlo. intros z Hz. apply Hl. by right. }
  assert (Hy : 0 ≤ y) by (apply Hl; left).
  apply elem_of_cons in Hx as [->|Hx].
  - set (t := Qcsum l) in *. clearbody t. qc_order.
  - assert (x ≤ Qcsum l) by (apply IH; [intros z Hz; apply Hl; by right|done]).
    set (t := Qcsum l) in *. clearbody t. qc_order.
Qed.

Lemma supplier_line_quantity_pos (df : DataFrame) (category : string)
    (section : option string) (k : string) :
  let rows := category_rows (__init__ df) category section in
  k ∈ group_keys (λ p, Supplier (base p)) rows →
  0 < sc_total_quantity
        (supplier_line k (filter (λ p, Supplier (base p) = Some k) rows)).
Proof.
  cbn zeta. intros Hk. apply elem_of_group_keys in Hk as (p & Hp & Hkey).
  cbn [sc_total_quantity supplier_line]. apply Qcsum_pos.
  - intros Hnil. apply fmap_nil_inv in Hnil. revert Hnil.
    by apply (filter_not_nil _ _ p).
  - apply Forall_fmap, list.Forall_forall. intros q Hq.
    apply list_elem_of_filter in Hq as [_ Hq]. simpl.
    unfold category_rows in Hq. apply list_elem_of_filter in Hq as [_ Hq].
    by apply (prepared_quantity_pos df).
Qed.

(** X21. [compare_suppliers_by_category] on a prepared frame has one
    line per supplier of the rows of the category (and section, when
    one is named), by non-increasing average unit price, ranked
    1, 2, ..., n in that order.  The quantity of a line is that of
    the supplier's rows; its quantity share is that quantity over the
    total of the lines, times 100: above 0 and at most 100. *)
Theorem compare_suppliers_table (df : DataFrame) (category : string)
    (section : option string) :
  let rows := category_rows (__init__ df) category section in
  let table := compare_suppliers_by_category (__init__ df) category section in
  map price_rank table = seq 1 (length table) ∧
  StronglySorted (on_rel fle_desc sc_avg_unit_price) table ∧
  NoDup (map sc_supplier table) ∧
  (∀ s, s ∈ map sc_supplier table
        ↔ ∃ p, p ∈ rows ∧ Supplier (base p) = Some s) ∧
  Forall (λ r,
            sc_total_quantity r
            = Qcsum (map (λ p, Quantity (base p))
                (filter (λ p, Supplier (base p) = Some (sc_supplier r))
                        rows)) ∧
            ∃ q, quantity_share_pct r = Some q ∧ 0 < q ≤ dec 100 1)
         table.
Proof.
  cbn zeta. rewrite compare_suppliers_eq. cbn zeta.
  set (rows := category_rows (__init__ df) category section).
  set (keys := group_keys (λ p, Supplier (base p)) rows).
  set (lines := map (λ k, supplier_line k
                      (filter (λ p, Supplier (base p) = Some k) rows)) keys).
  set (Q := Qcsum (map sc_total_quantity lines)).
  set (S := Qcsum (map sc_total_sales lines)).
  set (shared := map (set_shares Q S) lines).
  set (sorted := merge_sort (on_rel fle_desc sc_avg_unit_price) shared).
  assert (Hperm : sorted ≡ₚ shared) by apply merge_sort_Permutation.
  assert (Hlen : length (zip_with set_rank sorted (seq 1 (length sorted)))
                 = length sorted).
  { rewrite <- (length_map price_rank), ranked_ranks. apply length_seq. }
  assert (Hqpos : ∀ r, r ∈ lines → 0 < sc_total_quantity r).
  { intros r Hr. apply list_elem_of_fmap in Hr as (k & -> & Hk).
    by apply (supplier_line_quantity_pos df category section). }
  assert (Hshare : ∀ r, r ∈ lines →
    quantity_share_pct (set_shares Q S r)
    = Some (sc_total_quantity r / Q * dec 100 1) ∧
    0 < sc_total_quantity r / Q * dec 100 1 ≤ dec 100 1).
  { intros r Hr. pose proof (Hqpos r Hr) as Hq.
    assert (HrQ : sc_total_quantity r ≤ Q).
    { apply Qcsum_elem_le; [|by apply list_elem_of_fmap_2].
      intros y Hy. apply list_elem_of_fmap in Hy as (r' & -> & Hr').
      by apply Qclt_le_weak, Hqpos. }
    assert (HQ : 0 < Q) by by apply Qclt_le_trans with (sc_total_quantity r).
    assert (HQne : Q ≠ 0).
    { intros E. rewrite E in HQ. by apply (Qclt_not_eq 0 0). }
    split.
    - cbn [quantity_share_pct set_shares]. unfold fdiv, fmul, flift2.
      by rewrite bool_decide_eq_false_2.
    - assert (H1 : sc_total_quantity r / Q ≤ 1).
      { apply Qc_div_le; [done|]. by rewrite Qcmult_1_l. }
      assert (H0 : 0 < sc_total_quantity r / Q).
      { apply Qcnot_le_lt. intros Hle.
        apply (Qcmult_le_compat_r _ _ Q) in Hle; [|by apply Qclt_le_weak].
        rewrite Qcdiv_mult_cancel in Hle by done.
        replace (0 * Q) with 0 in Hle by ring.
        by apply (Qclt_not_le _ _ Hq). }
      set (x := sc_total_quantity r / Q) in *. clearbody x.
      split; qc_order. }
  split; [by rewrite Hlen, ranked_ranks|]. split; [|split; [|split]].
  - apply StronglySorted_on. rewrite ranked_fields by done.
    apply StronglySorted_fmap with (R1 := on_rel fle_desc sc_avg_unit_price);
      [by intros x y|].
    apply Sorted_StronglySorted; [apply _|].
    apply Sorted_merge_sort; apply _.
  - rewrite ranked_fields by done. rewrite Hperm. unfold shared, lines.
    rewrite !map_map. simpl. rewrite map_id. apply NoDup_group_keys.
  - intros s. rewrite ranked_fields by done. rewrite Hperm.
    unfold shared, lines. rewrite !map_map. simpl. rewrite map_id.
    apply elem_of_group_keys.
  - apply list.Forall_forall. intros r Hr.
    apply list_elem_of_lookup_1 in Hr as [i Hi].
    apply lookup_zip_with_Some in Hi as (r0 & n & -> & Hr0 & _).
    apply list_elem_of_lookup_2 in Hr0. rewrite Hperm in Hr0.
    apply list_elem_of_fmap in Hr0 as (r1 & -> & Hr1).
    destruct (Hshare r1 Hr1) as [Hs Hb].
    apply list_elem_of_fmap in Hr1 as (k & -> & Hk).
    split; [done|]. eexists. split; [exact Hs|exact Hb].
Qed.

End pricing_tables.

(* ================================================================== *)
(** ** The insights of the promotion engine *)

#[export] Instance flip_Qcle_total : Total (flip Qcle).
Proof.
  intros x y. unfold flip.
  destruct (Qclt_le_dec x y); [right|left]; [by apply Qclt_le_weak|done].
Qed.

#[export] Instance flip_Qcle_trans : Transitive (flip Qcle).
Proof. intros x y z. unfold flip. intros. by apply Qcle_trans with y. Qed.

Section bidco_insights.
Import PromotionAnalyzer PromotionInsights.
Context (str_contains : string → string → bool).

Definition sales (r : Promo) : Qc := Total_Sales (base (row r)).

(** The rows the BIDCO insights are computed on. *)
Definition bidco_rows (self : Self) : list Promo :=
  filter (λ r, supplier_matches str_contains "BIDCO" r = true)
         (detect_promotions self).

Lemma bidco_rows_supplier (self : Self) (r : Promo) :
  r ∈ bidco_rows self → Supplier (base (row r)) ≠ None.
Proof.
  unfold bidco_rows. rewrite list_elem_of_filter. intros [Hm _].
  unfold supplier_matches in Hm. by destruct (Supplier (base (row r))).
Qed.

Definition store_line (rows : list Promo) (k : string) : StorePerf :=
  let g := filter (λ r, Some (Store_Name (base (row r))) = Some k) rows in
  {| sp_store := k;
     promo_quantity := Qcsum (map quantity g);
     promo_sales := Qcsum (map sales g);
     sku_count := nunique (map (λ r, Item_Code (base (row r))) g);
     avg_discount := fmean (map discount_pct g) |}.

Lemma store_perf_eq (rows : list Promo) :
  map (λ '(k, g),
         {| sp_store := k;
            promo_quantity := Qcsum (map (λ r, Quantity (base (row r))) g);
            promo_sales := Qcsum (map (λ r, Total_Sales (base (row r))) g);
            sku_count := nunique (map (λ r, Item_Code (base (row r))) g);
            avg_discount := fmean (map discount_pct g) |})
      (groupby (λ r, Some (Store_Name (base (row r)))) rows)
  = map (store_line rows)
        (group_keys (λ r, Some (Store_Name (base (row r)))) rows).
Proof.
  unfold store_line.
  rewrite <- (groupby_agg (λ k g,
    {| sp_store := k; promo_quantity := Qcsum (map quantity g);
       promo_sales := Qcsum (map sales g);
       sku_count := nunique (map (λ r, Item_Code (base (row r))) g);
       avg_discount := fmean (map discount_pct g) |})).
  apply map_ext. by intros [k g].
Qed.

Definition category_flag_key (r : Promo) : option (string * (string * bool)) :=
  Some (Sub_Department (base (row r)), (Section_ (base (row r)), on_promotion r)).

Definition category_perf_line (rows : list Promo)
    (k : string * (string * bool)) : CategoryPerf :=
  let g := filter (λ r, category_flag_key r = Some k) rows in
  {| cp_sub_department := k.1;
     cp_section := (k.2).1;
     cp_on_promotion := (k.2).2;
     cp_Quantity := Qcsum (map quantity g);
     cp_Total_Sales := Qcsum (map sales g);
     cp_discount_pct := fmean (map discount_pct g) |}.

Lemma category_perf_eq (rows : list Promo) :
  map (λ '(k, g),
         {| cp_sub_department := k.1;
            cp_section := (k.2).1;
            cp_on_promotion := (k.2).2;
            cp_Quantity := Qcsum (map (λ r, Quantity (base (row r))) g);
            cp_Total_Sales := Qcsum (map (λ r, Total_Sales (base (row r))) g);
            cp_discount_pct := fmean (map discount_pct g) |})
      (groupby (λ r, Some (Sub_Department (base (row r)),
                           (Section_ (base (row r)), on_promotion r)))
               rows)
  = map (category_perf_line rows) (group_keys category_flag_key rows).
Proof.
  unfold category_perf_line. fold category_flag_key.
  rewrite <- (groupby_agg (λ k g,
    {| cp_sub_department := k.1; cp_section := (k.2).1;
       cp_on_promotion := (k.2).2;
       cp_Quantity := Qcsum (map quantity g);
       cp_Total_Sales := Qcsum (map sales g);
       cp_discount_pct := fmean (map discount_pct g) |})).
  apply map_ext. by intros [k g].
Qed.

(** X22. [get_bidco_insights].  The KPIs, the store list and the
    category breakdown are computed on the same rows, the detected rows
    whose supplier matches "BIDCO".  The store list has at most ten
    stores, none twice, by non-increasing promo sales; each of them has
    a row on promotion, and its figures are sums over its rows on
    promotion.  The breakdown has at most one line per (sub-department,
    section, flag); each line has a row, and its quantity and sales
    are sums over the rows of its sub-department, section and flag. *)
Theorem bidco_insights_consistent (self : Self) :
  let i := get_bidco_insights str_contains self in
  let rows := bidco_rows self in
  bidco_kpis i = kpis_of rows ∧
  (length (top_promo_stores i) ≤ 10)%nat ∧
  NoDup (map sp_store (top_promo_stores i)) ∧
  StronglySorted (λ a b, promo_sales b ≤ promo_sales a) (top_promo_stores i) ∧
  Forall (λ s,
            let g := filter (λ r, on_promotion r = true ∧
                                  Store_Name (base (row r)) = sp_store s)
                            rows in
            g ≠ [] ∧ (1 ≤ sku_count s)%nat ∧
            promo_quantity s = Qcsum (map quantity g) ∧
            promo_sales s = Qcsum (map sales g))
         (top_promo_stores i) ∧
  NoDup (map (λ c, (cp_sub_department c, (cp_section c, cp_on_promotion c)))
             (category_breakdown i)) ∧
  Forall (λ c,
            let g := filter (λ r, Sub_Department (base (row r))
                                  = cp_sub_department c ∧
                                  Section_ (base (row r)) = cp_section c ∧
                                  on_promotion r = cp_on_promotion c)
                            rows in
            g ≠ [] ∧
            cp_Quantity c = Qcsum (map quantity g) ∧
            cp_Total_Sales c = Qcsum (map sales g))
         (category_breakdown i).
Proof.
  cbn zeta. unfold get_bidco_insights. cbn zeta.
  cbn [bidco_kpis top_promo_stores category_breakdown].
  fold (bidco_rows self). set (rows := bidco_rows self).
  assert (Hk : calculate_kpis str_contains self (Some "BIDCO") = kpis_of rows).
  { unfold calculate_kpis, filter_supplier.
    by rewrite bool_decide_eq_false_2 by done. }
  rewrite store_perf_eq, category_perf_eq.
  set (promoted := filter (λ r, on_promotion r = true) rows).
  set (skey := λ r : Promo, Some (Store_Name (base (row r)))).
  destruct (take_sorted_spec (on_rel (flip Qcle) promo_sales) sp_store 10
              (map (store_line promoted) (group_keys skey promoted)))
    as (Hlen & Hsorted & Hsub & Hnd).
  split; [exact Hk|]. split; [exact Hlen|]. split; [|split; [|split]].
  - apply Hnd. rewrite map_map. simpl. rewrite map_id.
    apply NoDup_group_keys.
  - exact Hsorted.
  - apply list.Forall_forall. intros s Hs. apply Hsub in Hs.
    apply list_elem_of_fmap in Hs as (k & -> & Hkey).
    apply elem_of_group_keys in Hkey as (r & Hr & Hrk).
    cbn zeta. cbn [sp_store sku_count promo_quantity promo_sales store_line].
    assert (Hg : filter (λ r, on_promotion r = true ∧
                              Store_Name (base (row r)) = k) rows
                 = filter (λ r, skey r = Some k) promoted).
    { unfold promoted. unfold DataFrame in *. rewrite list_filter_filter.
      apply list_filter_iff. intros x. unfold skey. split.
      - intros [? ->]. done.
      - intros [[= ->] ?]. done. }
    rewrite Hg.
    assert (Hne : filter (λ r, skey r = Some k) promoted ≠ [])
      by by apply (filter_not_nil _ _ r).
    split; [done|]. split; [|done].
    apply nunique_pos. intros Hnil. by apply fmap_nil_inv in Hnil.
  - split.
    + rewrite map_map. simpl. rewrite (map_ext _ id); [|by intros [a [b c]]].
      rewrite map_id. apply NoDup_group_keys.
    + apply list.Forall_forall. intros c Hc.
      apply list_elem_of_fmap in Hc as (k & -> & Hkey).
      apply elem_of_group_keys in Hkey as (r & Hr & Hrk).
      cbn zeta.
      cbn [cp_sub_department cp_section cp_on_promotion cp_Quantity
           cp_Total_Sales category_perf_line].
      assert (Hg : filter (λ r, Sub_Department (base (row r)) = k.1 ∧
                                Section_ (base (row r)) = (k.2).1 ∧
                                on_promotion r = (k.2).2) rows
                   = filter (λ r, category_flag_key r = Some k) rows).
      { apply list_filter_iff. intros x. unfold category_flag_key.
        destruct k as [a [b f]]. simpl. split.
        - intros (-> & -> & ->). done.
        - intros [= -> -> ->]. done. }
      rewrite Hg. split; [|done]. by apply (filter_not_nil _ _ r).
Qed.

End bidco_insights.

Section commercial_insights.
Import PromotionAnalyzer PromotionInsights.
Context (str_contains : string → string → bool).

Lemma nlargest_head {A} (by_ : A → Qc) (n : nat) (l : list A) (t : A) :
  head (nlargest n by_ l) = Some t → ∀ x, x ∈ l → by_ x ≤ by_ t.
Proof.
  intros Ht x Hx.
  destruct (nlargest_spec by_ n l) as (Hsorted & _ & Hmax).
  destruct (nlargest n by_ l) as [|t' top] eqn:Htop; [done|].
  injection Ht as ->. destruct (Hmax x Hx) as [Hin|Hle].
  - apply elem_of_cons in Hin as [->|Hin]; [apply Qcle_refl|].
    apply StronglySorted_cons in Hsorted as [Hall _].
    rewrite list.Forall_forall in Hall. by apply Hall.
  - apply Hle. left.
Qed.

(** X23. [generate_commercial_insights] returns at most four
    sentences.  As soon as the KPI table has a line, it names a top
    performer, which is a SKU of the largest uplift in the whole
    table; a positive average uplift gives the uplift sentence and
    the top performer, hence at least two sentences.  An opportunity
    sentence names a SKU of the top list with an uplift above 50 and
    a coverage below 30. *)
Theorem commercial_insights_lines (self : Self)
    (supplier_filter : option string) :
  let k := calculate_kpis str_contains self supplier_filter in
  let insights :=
    generate_commercial_insights str_contains self supplier_filter in
  (length insights ≤ 4)%nat ∧
  (detailed_data k ≠ [] →
   ∃ t, head (top_performing_skus k) = Some t ∧
        top_performer_line t ∈ insights ∧
        Forall (λ d, quantity_uplift_pct d ≤ t_quantity_uplift_pct t)
               (detailed_data k)) ∧
  (0 < avg_promo_uplift (summary k) →
   uplift_line supplier_filter (summary k) ∈ insights ∧
   (2 ≤ length insights)%nat) ∧
  (∀ t, head (filter (λ sku, dec 50 1 < t_quantity_uplift_pct sku ∧
                             t_promo_coverage_pct sku < dec 30 1)
                     (top_performing_skus k)) = Some t →
        opportunity_line t ∈ insights ∧ t ∈ top_performing_skus k ∧
        dec 50 1 < t_quantity_uplift_pct t ∧
        t_promo_coverage_pct t < dec 30 1).
Proof.
  cbn zeta. unfold generate_commercial_insights. cbn zeta.
  set (k := calculate_kpis str_contains self supplier_filter).
  set (i1 := if bool_decide (0 < avg_promo_uplift (summary k))
             then [uplift_line supplier_filter (summary k)] else []).
  set (i2 := if fltb (avg_promo_coverage (summary k)) (Some (dec 50 1))
             then [coverage_line (summary k)] else []).
  set (opp := filter (λ sku, dec 50 1 < t_quantity_uplift_pct sku ∧
                             t_promo_coverage_pct sku < dec 30 1)
                     (top_performing_skus k)).
  assert (Htop : detailed_data k ≠ [] → top_performing_skus k ≠ []).
  { unfold k, calculate_kpis, kpis_of.
    cbn [detailed_data top_performing_skus]. intros Hne Hnil.
    apply (f_equal length) in Hnil.
    rewrite length_map, length_nlargest in Hnil. simpl in Hnil.
    destruct (pivot _); [done|simpl in Hnil; lia]. }
  split; [|split; [|split]].
  - rewrite !length_app. unfold i1, i2.
    destruct (bool_decide _), (fltb _ _), (top_performing_skus k), opp;
      simpl; lia.
  - intros Hne. apply Htop in Hne.
    destruct (top_performing_skus k) as [|t top] eqn:Ht; [done|].
    exists t. split; [done|]. split.
    + rewrite !elem_of_app. right. right. left. left.
    + apply list.Forall_forall. intros d Hd.
      unfold k, calculate_kpis, kpis_of in Ht, Hd.
      cbn [detailed_data top_performing_skus] in Ht, Hd.
      destruct (nlargest 10 quantity_uplift_pct (pivot _)) as [|d0 l]
        eqn:Hn; [done|].
      simpl in Ht. injection Ht as <- _. simpl.
      eapply (nlargest_head quantity_uplift_pct 10); [|exact Hd].
      by rewrite Hn.
  - intros Hpos.
    assert (Hex : detailed_data k ≠ []).
    { destruct (positive_mean quantity_uplift_pct (detailed_data k))
        as [_ Hiff].
      intros Hnil. unfold k, calculate_kpis, kpis_of in Hpos, Hnil, Hiff.
      cbn [summary avg_promo_uplift detailed_data] in Hpos, Hnil, Hiff.
      apply Hiff in Hpos. rewrite Hnil in Hpos.
      by apply Exists_nil in Hpos. }
    apply Htop in Hex. unfold i1. rewrite bool_decide_eq_true_2 by done.
    split; [rewrite !elem_of_app; left; left|].
    destruct (top_performing_skus k) as [|t0 l0]; [done|].
    rewrite !length_app. cbn [length]. lia.
  - intros t Ht. pose proof (head_Some_elem_of _ _ Ht) as Hin.
    apply list_elem_of_filter in Hin as [[H50 H30] Hin].
    split; [|done]. rewrite !elem_of_app. right. right. right.
    destruct opp as [|t' o]; [done|]. injection Ht as ->. left.
Qed.

End commercial_insights.

(* ================================================================== *)
(** ** The figures of the summary report *)

Lemma foldr_min_spec (x : Z) (l : list Z) :
  foldr Z.min x l ∈ x :: l ∧ ∀ z, z ∈ x :: l → (foldr Z.min x l ≤ z)%Z.
Proof.
  induction l as [|y l [Hin Hle]]; simpl.
  - split; [left|]. intros z Hz. apply list_elem_of_singleton in Hz. lia.
  - split.
    + destruct (Z.min_spec y (foldr Z.min x l)) as [[_ ->]|[_ ->]].
      * right. left.
      * apply elem_of_cons in Hin as [->|Hin]; [left|]. right. by right.
    + intros z Hz. rewrite !elem_of_cons in Hz.
      assert (Hz' : z = y ∨ z ∈ x :: l).
      { rewrite elem_of_cons. tauto. }
      destruct Hz' as [->|Hz']; [lia|].
      apply Hle in Hz'. lia.
Qed.

Lemma foldr_max_spec (x : Z) (l : list Z) :
  foldr Z.max x l ∈ x :: l ∧ ∀ z, z ∈ x :: l → (z ≤ foldr Z.max x l)%Z.
Proof.
  induction l as [|y l [Hin Hle]]; simpl.
  - split; [left|]. intros z Hz. apply list_elem_of_singleton in Hz. lia.
  - split.
    + destruct (Z.max_spec y (foldr Z.max x l)) as [[_ ->]|[_ ->]].
      * apply elem_of_cons in Hin as [->|Hin]; [left|]. right. by right.
      * right. left.
    + intros z Hz. rewrite !elem_of_cons in Hz.
      assert (Hz' : z = y ∨ z ∈ x :: l).
      { rewrite elem_of_cons. tauto. }
      destruct Hz' as [->|Hz']; [lia|].
      apply Hle in Hz'. lia.
Qed.

Section report_figures.
Import DataQualityChecker.

Lemma head_tail_10 {A} (l : list A) (n : nat) :
  length l = n →
  length (head 10 l) = (10 `min` n)%nat ∧
  length (tail 10 l) = (10 `min` n)%nat ∧
  ((n ≤ 10)%nat → head 10 l = l ∧ tail 10 l = l).
Proof.
  intros <-. unfold head, tail. rewrite length_take, length_drop.
  split; [done|]. split; [lia|]. intros Hle.
  split; [by apply take_ge|].
  by replace (length l - 10)%nat with 0%nat by lia.
Qed.

(** X24. The figures of a summary report agree with the frame and with
    each other.  [total_records] is the number of rows; there is at
    least one store, one supplier and one SKU; the date range runs
    from the earliest to the latest day of sale, both days of the
    frame.  The top and the bottom list of a health table each hold
    [min(10, n)] lines for [n] stores (suppliers), and are the whole
    table, hence equal, when [n <= 10].  Every outlier count is at
    least 1. *)
Theorem summary_report_figures (df : DataFrame) (rep : Report) :
  generate_summary_report df = Ok rep →
  let o := dataset_overview rep in
  o_total_records o = length df ∧
  (1 ≤ num_stores o)%nat ∧ (1 ≤ num_suppliers o)%nat ∧ (1 ≤ num_skus o)%nat ∧
  (∃ lo hi, date_range o = (Some lo, Some hi) ∧
            lo ∈ map Date_Of_Sale df ∧ hi ∈ map Date_Of_Sale df ∧
            ∀ r, r ∈ df → (lo ≤ Date_Of_Sale r ≤ hi)%Z) ∧
  length (store_health_top_10 rep) = (10 `min` num_stores o)%nat ∧
  length (store_health_bottom_10 rep) = (10 `min` num_stores o)%nat ∧
  ((num_stores o ≤ 10)%nat →
   store_health_top_10 rep = store_health_bottom_10 rep) ∧
  length (supplier_health_top_10 rep) = (10 `min` num_suppliers o)%nat ∧
  length (supplier_health_bottom_10 rep) = (10 `min` num_suppliers o)%nat ∧
  ((num_suppliers o ≤ 10)%nat →
   supplier_health_top_10 rep = supplier_health_bottom_10 rep) ∧
  Forall (λ e, (1 ≤ e.2)%nat) (outliers_summary rep).
Proof.
  unfold generate_summary_report.
  destruct (calculate_store_health_score df) as [sh|] eqn:Hsh; [|done].
  destruct (calculate_supplier_health_score df) as [su|] eqn:Hsu; [|done].
  intros Hok. apply Ok_inj in Hok. subst rep. cbn zeta.
  cbn [dataset_overview o_total_records num_stores num_suppliers num_skus
       date_range store_health_top_10 store_health_bottom_10
       supplier_health_top_10 supplier_health_bottom_10 outliers_summary].
  destruct (sort_values_desc_sorted _ _ _ _ Hsh) as (_ & Hpsh & Hnsh).
  destruct (sort_values_desc_sorted _ _ _ _ Hsu) as (_ & Hpsu & Hnsu).
  assert (Hlsh : length sh = nunique (map Store_Name df)).
  { rewrite Hpsh. unfold store_scores. by rewrite length_map. }
  assert (Hlsu : length su = nunique (dropna (map Supplier df))).
  { rewrite Hpsu. unfold supplier_scores. by rewrite length_map. }
  assert (Hdf : df ≠ []) by by rewrite <- store_scores_nil_iff.
  destruct (head_tail_10 sh _ Hlsh) as (H1 & H2 & H3).
  destruct (head_tail_10 su _ Hlsu) as (H4 & H5 & H6).
  split; [done|]. split; [|split; [|split]].
  - rewrite <- Hlsh, Hpsh. destruct (store_scores df); [done|simpl; lia].
  - rewrite <- Hlsu, Hpsu. destruct (supplier_scores df); [done|simpl; lia].
  - apply nunique_pos. by destruct df.
  - split.
    { destruct df as [|r df']; [done|]. simpl.
      destruct (foldr_min_spec (Date_Of_Sale r) (map Date_Of_Sale df'))
        as [Hmin Hle].
      destruct (foldr_max_spec (Date_Of_Sale r) (map Date_Of_Sale df'))
        as [Hmax Hge].
      eexists _, _. split; [reflexivity|]. split; [exact Hmin|].
      split; [exact Hmax|]. intros x Hx.
      assert (Hd : Date_Of_Sale x ∈ Date_Of_Sale r :: map Date_Of_Sale df').
      { by apply (list_elem_of_fmap_2 Date_Of_Sale) in Hx. }
      split; [by apply Hle|by apply Hge]. }
    split; [done|]. split; [done|].
    split; [intros Hle; destruct (H3 Hle) as [-> ->]; done|].
    split; [done|]. split; [done|].
    split; [intros Hle; destruct (H6 Hle) as [-> ->]; done|].
    apply Forall_fmap. eapply list.Forall_impl; [apply check_outliers_nonempty|].
    by intros [name b].
Qed.

End report_figures.

(** X24 on [sample_df]. *)
Lemma summary_report_figures_witness :
  ∃ rep, DataQualityChecker.generate_summary_report sample_df = Ok rep ∧
         DataQualityChecker.o_total_records
           (DataQualityChecker.dataset_overview rep) = 8%nat.
Proof.
  destruct (DataQualityChecker.generate_summary_report sample_df)
    as [rep|e] eqn:Hok; [|by vm_compute in Hok].
  exists rep. split; [reflexivity|].
  by destruct (summary_report_figures _ _ Hok) as [-> _].
Defined.

(* ================================================================== *)
(** ** The KPIs do not depend on what was called before *)

(** X25. An analyzer is constructed on a frame and any methods are
    called on it, in any order; [calculate_kpis] then returns the KPIs
    of the frame the analyzer was constructed on: no method leaves a
    trace in [self.df], so that the result of a call does not depend
    on the calls made before it. *)
Theorem kpis_independent_of_history (σ : store) (df : handle)
    (rows : DataFrame) (str_contains : string → string → bool)
    (discount_threshold : Qc) (min_days : Z)
    (ms : list Stateful.PromotionAnalyzer.method)
    (supplier_filter : option string) :
  σ !! df = Some (loaded rows) →
  let r := run_engine
             (Stateful.PromotionAnalyzer.__init__ df discount_threshold
                                                  min_days)
             (Stateful.PromotionAnalyzer.call str_contains) ms σ in
  (Stateful.PromotionAnalyzer.calculate_kpis str_contains r.1
     supplier_filter r.2).1
  = PromotionAnalyzer.calculate_kpis str_contains
      (PromotionAnalyzer.__init__ rows discount_threshold min_days)
      supplier_filter.
Proof.
  intros Hdf. pose proof (lookup_lt_Some _ _ _ Hdf) as Hlt.
  assert (Hinit : Stateful.PromotionAnalyzer.__init__ df discount_threshold
                    min_days σ
            = ({| Stateful.PromotionAnalyzer.df := length σ + 2;
                  Stateful.PromotionAnalyzer.discount_threshold :=
                    discount_threshold;
                  Stateful.PromotionAnalyzer.min_days := min_days |},
               σ ++ [promo_priced_frame rows; promo_valid_frame rows;
                     promo_valid_frame rows])).
  { unfold Stateful.PromotionAnalyzer.__init__, mbind, St_bind.
    by rewrite (promo_prepare_run σ df rows Hdf). }
  destruct (run_engine_spec _
              (Stateful.PromotionAnalyzer.call str_contains)
              Stateful.PromotionAnalyzer.df σ _ _ 2
              (promo_valid_frame rows) df ms Hinit eq_refl eq_refl
              (λ n m, keeps_promo_call n str_contains _ m) Hlt)
    as (Hself & _ & _ & _ & Hframe).
  cbn zeta. rewrite calculate_kpis_run. f_equal.
  unfold analyzer, PromotionAnalyzer.__init__.
  rewrite Hframe, promo_valid_frame_priced, Hself. reflexivity.
Qed.

(** X25 on [sample_df], after two other calls. *)
Lemma kpis_independent_of_history_witness :
  let r := run_engine
             (Stateful.PromotionAnalyzer.__init__ 0
                PromotionAnalyzer.default_discount_threshold
                PromotionAnalyzer.default_min_days)
             (Stateful.PromotionAnalyzer.call contains_nocase)
             [Stateful.PromotionAnalyzer.DetectPromotions;
              Stateful.PromotionAnalyzer.GetBidcoInsights]
             [loaded sample_df] in
  (Stateful.PromotionAnalyzer.calculate_kpis contains_nocase r.1
     (Some "bidco") r.2).1
  = PromotionAnalyzer.calculate_kpis contains_nocase
      (PromotionAnalyzer.__init__ sample_df
         PromotionAnalyzer.default_discount_threshold
         PromotionAnalyzer.default_min_days)
      (Some "bidco").
Proof.
  apply (kpis_independent_of_history [loaded sample_df] 0 sample_df).
  reflexivity.
Defined.
